(** * DexScreener boost bot: scanner, formatter and scan cycle

    A shallow embedding of [scanner.py], [formatter.py], [bot.py] and
    [config.py], and the properties of the deduplicating scanner, of the
    price formatter and of the scan cycle.

    Conventions of the embedding.
    - A Python [int] is a [Z]; a Python [float] is the rational number it
      denotes (finite values only), so comparisons are exact and a float
      literal is the double nearest to its decimal text.
    - A boost record and a pair record are the dictionaries of the upstream
      schema: every key the code reads is a field, [None] when the key is
      absent (the code reads them with [.get] and a default).
    - Everything outside the program (the HTTP session, the Telegram bot,
      the clock, the iteration order of a [set]) is an operation of the
      class [World]; what the interpreter does with floats ([str], [float],
      rounding to a double) is an operation of the class [PyFloat]; the text
      template of the alert is the operation of the class [Template].
    - Methods run in a state-and-exception monad over [machine]: the
      attributes of the scanner and of the bot, the world, and the trace of
      what the program did to the world (requests, messages, sleeps, log
      records). *)

From Stdlib Require Import ZArith QArith Qabs String Ascii List DecimalString DecimalZ Lia.
From stdpp Require Import base gmap strings list.

Set Warnings "-clear-no-such-hyp".

Open Scope string_scope.
Open Scope Z_scope.

(** ** Python built-ins used by the code *)

Module Py.

(** [c.lower()] on an ASCII letter; other bytes are kept.  For the
    comparisons the code makes (against ["solana"], ["pump"], ["raydium"])
    this agrees with Python's Unicode [lower]. *)
Definition lower_ascii (c : ascii) : ascii :=
  let n := N_of_ascii c in
  if ((65 <=? n) && (n <=? 90))%N then ascii_of_N (n + 32) else c.

Fixpoint lower (s : string) : string :=
  match s with
  | EmptyString => EmptyString
  | String c r => String (lower_ascii c) (lower r)
  end.

Definition upper_ascii (c : ascii) : ascii :=
  let n := N_of_ascii c in
  if ((97 <=? n) && (n <=? 122))%N then ascii_of_N (n - 32) else c.

(** [s.capitalize()]: first character upper-cased, the rest lower-cased. *)
Definition capitalize (s : string) : string :=
  match s with
  | EmptyString => EmptyString
  | String c r => String (upper_ascii c) (lower r)
  end.

(** [str(n)] for an [int]. *)
Definition str_int (z : Z) : string := NilEmpty.string_of_int (Z.to_int z).

(** [str(x)] for a value that is [None] or a [str]. *)
Definition str_opt (o : option string) : string :=
  match o with Some s => s | None => "None" end.

(** [needle in hay] for two strings. *)
Fixpoint contains (needle hay : string) : bool :=
  String.prefix needle hay ||
  match hay with
  | EmptyString => false
  | String _ r => contains needle r
  end.

(** [s.rstrip(c)] for a one-character set. *)
Fixpoint lstrip (c : ascii) (s : string) : string :=
  match s with
  | String d r => if Ascii.eqb c d then lstrip c r else s
  | EmptyString => EmptyString
  end.

Definition rstrip (c : ascii) (s : string) : string :=
  String.rev (lstrip c (String.rev s)).

(** [s[n:]] for [0 <= n]. *)
Fixpoint skip (n : nat) (s : string) : string :=
  match n, s with
  | O, _ => s
  | S m, String _ r => skip m r
  | S _, EmptyString => EmptyString
  end.

(** [s.split(sep)[-1]] for a non-empty [sep]: the text after the last
    occurrence of [sep] (all of [s] when there is none).  [fuel] bounds
    the scan and is the length of [s]. *)
Fixpoint split_last_go (fuel : nat) (sep s piece : string) : string :=
  match fuel with
  | O => piece
  | S fuel' =>
      match s with
      | EmptyString => piece
      | String c r =>
          if String.prefix sep s
          then let rest := skip (String.length sep) s in
               split_last_go fuel' sep rest rest
          else split_last_go fuel' sep r piece
      end
  end.

Definition split_last (sep s : string) : string :=
  split_last_go (String.length s) sep s s.

(** [s.replace(old, "")] for a non-empty [old]: the occurrences of [old],
    found from the left, are removed. *)
Fixpoint remove_all_go (fuel : nat) (old s : string) : string :=
  match fuel with
  | O => s
  | S fuel' =>
      match s with
      | EmptyString => EmptyString
      | String c r =>
          if String.prefix old s
          then remove_all_go fuel' old (skip (String.length old) s)
          else String c (remove_all_go fuel' old r)
      end
  end.

Definition remove_all (old s : string) : string :=
  remove_all_go (String.length s) old s.

(** [s * n]. *)
Fixpoint repeat_str (s : string) (n : nat) : string :=
  match n with
  | O => EmptyString
  | S m => s ++ repeat_str s m
  end.

(** [int(s)] on a text made of an optional sign and decimal digits, the
    only texts the exponent of a float's [str] can hand to it; [None] is
    [ValueError]. *)
Definition int_of_str (s : string) : option Z :=
  match s with
  | String "+" r =>
      match r with
      | EmptyString => None
      | _ => option_map Z.of_uint (NilEmpty.uint_of_string r)
      end
  | String "-" r =>
      match r with
      | EmptyString => None
      | _ => option_map (fun u => - Z.of_uint u) (NilEmpty.uint_of_string r)
      end
  | EmptyString => None
  | _ => option_map Z.of_uint (NilEmpty.uint_of_string s)
  end.

(** [l[start:]] on a list, with Python's treatment of a negative or too
    large [start]. *)
Definition slice_from {A} (start : Z) (l : list A) : list A :=
  let len := Z.of_nat (length l) in
  let start' := if start <? 0 then Z.max 0 (len + start) else start in
  drop (Z.to_nat start') l.

(** Round to the nearest integer, ties to even: the rounding of the
    [.Nf] formats, which print the exact value of the float correctly
    rounded. *)
Definition round_half_even (q : Q) : Z :=
  let a := Qnum q in
  let b := Z.pos (Qden q) in
  let f := a / b in
  let r := a mod b in
  match 2 * r ?= b with
  | Lt => f
  | Gt => f + 1
  | Eq => if Z.even f then f else f + 1
  end.

(** The decimal digits of a natural number, padded on the left with
    zeros to at least [width] digits. *)
Definition digits_padded (width : nat) (n : Z) : string :=
  let d := str_int n in
  repeat_str "0" (width - String.length d) ++ d.

(** [f"{x:.{n}f}"]. *)
Definition format_fixed (n : nat) (x : Q) : string :=
  let scaled := round_half_even (Qabs x * inject_Z (10 ^ Z.of_nat n)) in
  let d := digits_padded (S n) scaled in
  let int_len := (String.length d - n)%nat in
  let sign := if Qlt_le_dec x 0 then "-" else "" in
  let int_part := String.substring 0 int_len d in
  let frac_part := String.substring int_len n d in
  match n with
  | O => sign ++ int_part
  | _ => sign ++ int_part ++ "." ++ frac_part
  end.

End Py.

(** Python's [float] operations that depend on the binary format. *)
Class PyFloat := {
  (** [str(x)]: the shortest text that reads back as [x]. *)
  float_str : Q -> string;
  (** [float(s)] on a text; [None] is [ValueError]. *)
  float_of_str : string -> option Q;
  (** The double nearest to a real number: every arithmetic result is
      rounded by it. *)
  rnd : Q -> Q
}.


(** ** Configuration ([config.py]) *)

Module Config.
Definition SCAN_INTERVAL : Z := 10.
Definition BOOST_AMOUNTS : list Z := [500; 100].
Definition TARGET_CHAIN : string := "solana".
Definition BOOST_API_URL : string :=
  "https://api.dexscreener.com/token-boosts/latest/v1".
Definition MAX_CACHED_BOOSTS : Z := 500.
Definition CACHE_CLEANUP_INTERVAL : Z := 10.
End Config.
Import Config.

(** ** Data model *)

(** A boost record of the feed.  A key the code reads is [None] when it
    is absent and otherwise holds a value of the type the upstream schema
    gives it: a text for [chainId] and [tokenAddress], an integer for
    [amount] and [totalAmount].  [other] stands for the keys the program
    never reads (url, icon, description, ...). *)
Record boost := Boost {
  chainId : option string;
  tokenAddress : option string;
  amount : option Z;
  totalAmount : option Z;
  other : string
}.

(** A JSON number or numeric text, as the token endpoints send them. *)
Inductive jnum :=
| JInt (z : Z)
| JFloat (x : Q)
| JStr (s : string).

(** A pair record of the token endpoints; nested keys are flattened
    ([liquidity_usd] is [liquidity.usd], [txns_m5_buys] is
    [txns.m5.buys], ...). *)
Record pair := Pair {
  pair_chainId : option string;
  baseToken_name : option string;
  baseToken_symbol : option string;
  priceUsd : option jnum;
  marketCap : option jnum;
  liquidity_usd : option jnum;
  txns_m5_buys : option Z;
  txns_m5_sells : option Z;
  txns_h24_buys : option Z;
  txns_h24_sells : option Z;
  pairCreatedAt : option Z;
  dexId : option string
}.

(** A value of a JSON object's key: absent, [null], or a value. *)
Inductive jfield (A : Type) :=
| Absent
| Null
| Present (a : A).
Arguments Absent {A}.
Arguments Null {A}.
Arguments Present {A} a.

(** The body of the feed's answer, as [get_boosted_tokens] tells the
    shapes apart: a list, an object (with or without the key [boosts]), or
    any other JSON value. *)
Inductive feed_doc :=
| FeedList (boosts : list boost)
| FeedDict (boosts : option (list boost))
| FeedOther.

(** The body of a token endpoint's answer: an object whose key [pairs] is
    absent, [null] or a list. *)
Record pairs_doc := PairsDoc { pairs : jfield (list pair) }.

(** The outcome of [session.get]: the call raises, or returns a response,
    whose [json()] raises when the body does not parse. *)
Inductive http_result (B : Type) :=
| Unreachable
| Response (status_code : Z) (json : option B).
Arguments Unreachable {B}.
Arguments Response {B} status_code json.

(** ** The world, the trace and the monad *)

Inductive exn :=
| RequestException
| HTTPError
| JSONDecodeError
| TypeError
| ValueError
| KeyError
| IndexError
| TelegramError.

Inductive level := INFO | WARNING | ERROR.

(** One constructor per [logger] call of the three modules. *)
Inductive log_msg :=
| FoundNewBoosts (n : nat)
| UnexpectedFormat
| ErrorFetchingBoosts (e : exn)
| ErrorFetchingDetails (token_address : option string) (e : exn)
| CleanedUpCache (n : nat)
| ErrorFormatting (e : exn)
| Traceback
| FailedToSend (e : exn)
| Processing (amount : Z) (token_address : option string)
| CouldNotFormat (token_address : option string)
| AlertSent (amount : Z)
| ErrorProcessing (e : exn)
| Scanning
| NoNewBoosts
| NoMatchingBoosts
| FoundMatching (n : nat)
| BotInitialized
| MonitoringAmounts (amounts : list Z)
| StartingBot
| StartupSent
| FailedStartup (e : exn)
| ScanSummary (scan_count alerts_sent : Z)
| TotalAlerts (total_alerts : Z)
| StatsSummary (stats : gmap Z nat).

Inductive event :=
| Get (url : string)
| Send (text : string) (delivered : bool)
| Sleep (seconds : Z)
| Log (lvl : level) (msg : log_msg).

Class World (W : Type) := {
  (** [session.get(url, timeout=...)] on the boost feed and on a token
      endpoint. *)
  get_feed : string -> W -> http_result feed_doc * W;
  get_pairs : string -> W -> http_result pairs_doc * W;
  (** [bot.send_message(...)]: [false] when it raises. *)
  send_message : string -> W -> bool * W;
  (** [datetime.now() - datetime.fromtimestamp(ms / 1000)] as
      [(days, seconds)]; [None] when it raises. *)
  timedelta_since : Z -> W -> option (Z * Z);
  (** [list(s)] for a set: some enumeration of its elements. *)
  set_to_list : W -> gset string -> list string;
  set_to_list_perm : forall w s, set_to_list w s ≡ₚ elements s
}.

(** The attributes of the scanner ([seen_boost_ids]) and of the bot
    ([boost_stats]), the world and the trace. *)
Record machine (W : Type) := Machine {
  seen_boost_ids : gset string;
  boost_stats : gmap Z nat;
  world : W;
  trace : list event
}.
Arguments Machine {W}.
Arguments seen_boost_ids {W}.
Arguments boost_stats {W}.
Arguments world {W}.
Arguments trace {W}.

Inductive res (A : Type) :=
| Ok (a : A)
| Raise (e : exn).
Arguments Ok {A} a.
Arguments Raise {A} e.

Definition M (W A : Type) : Type := machine W -> res A * machine W.

Definition ret {W A} (a : A) : M W A := fun s => (Ok a, s).

Definition bind {W A B} (m : M W A) (k : A -> M W B) : M W B :=
  fun s =>
    match m s with
    | (Ok a, s') => k a s'
    | (Raise e, s') => (Raise e, s')
    end.

Definition raise {W A} (e : exn) : M W A := fun s => (Raise e, s).

(** [try: body except Exception as e: handler(e)] *)
Definition try_except {W A} (body : M W A) (handler : exn -> M W A) : M W A :=
  fun s =>
    match body s with
    | (Ok a, s') => (Ok a, s')
    | (Raise e, s') => handler e s'
    end.

Declare Scope py_scope.
Delimit Scope py_scope with py.
Notation "x <- m ;; k" := (bind m (fun x => k))
  (at level 100, m at next level, right associativity) : py_scope.
Notation "m ;;; k" := (bind m (fun _ => k))
  (at level 100, right associativity) : py_scope.
Open Scope py_scope.

(** [for x in l: acc = body(acc, x)] *)
Fixpoint for_each {W A B} (body : B -> A -> M W B) (acc : B) (l : list A) : M W B :=
  match l with
  | [] => ret acc
  | x :: r => (acc' <- body acc x ;; for_each body acc' r)
  end.

Section Primitives.
Context {W : Type} `{World W}.

Definition emit (ev : event) : M W unit :=
  fun s => (Ok tt, Machine (seen_boost_ids s) (boost_stats s) (world s) (trace s ++ [ev])).

Definition logger (lvl : level) (msg : log_msg) : M W unit := emit (Log lvl msg).

Definition get_seen : M W (gset string) := fun s => (Ok (seen_boost_ids s), s).

Definition set_seen (ids : gset string) : M W unit :=
  fun s => (Ok tt, Machine ids (boost_stats s) (world s) (trace s)).

Definition get_stats : M W (gmap Z nat) := fun s => (Ok (boost_stats s), s).

Definition set_stats (st : gmap Z nat) : M W unit :=
  fun s => (Ok tt, Machine (seen_boost_ids s) st (world s) (trace s)).

Definition get_world : M W W := fun s => (Ok (world s), s).

(** A call into the world: the world moves on and the call is traced. *)
Definition session_get {B} (get : string -> W -> http_result B * W) (url : string)
  : M W (Z * option B) :=
  fun s =>
    let '(r, w') := get url (world s) in
    let s' := Machine (seen_boost_ids s) (boost_stats s) w' (trace s ++ [Get url]) in
    match r with
    | Unreachable => (Raise RequestException, s')
    | Response code body => (Ok (code, body), s')
    end.

(** [response.raise_for_status()]: a 4xx or 5xx status raises. *)
Definition raise_for_status {B} (response : Z * option B) : M W unit :=
  if (400 <=? fst response) && (fst response <? 600) then raise HTTPError else ret tt.

(** [response.json()] *)
Definition response_json {B} (response : Z * option B) : M W B :=
  match snd response with
  | Some data => ret data
  | None => raise JSONDecodeError
  end.

Definition bot_send_message (text : string) : M W unit :=
  fun s =>
    let '(ok, w') := send_message text (world s) in
    let s' := Machine (seen_boost_ids s) (boost_stats s) w' (trace s ++ [Send text ok]) in
    if ok then (Ok tt, s') else (Raise TelegramError, s').

Definition asyncio_sleep (seconds : Z) : M W unit := emit (Sleep seconds).

(** A computation that touches neither the state nor the world. *)
Definition lift {A} (r : res A) : M W A := fun s => (r, s).

End Primitives.

(** ** Numbers read from JSON *)

Section Floats.
Context `{PyFloat}.

(** [float(n)] for an [int]: exact up to [2^53], rounded beyond. *)
Definition float_of_int (z : Z) : Q :=
  if Z.abs z <=? 2 ^ 53 then inject_Z z else rnd (inject_Z z).

(** [float(v)] *)
Definition py_float (v : jnum) : res Q :=
  match v with
  | JInt z => Ok (float_of_int z)
  | JFloat x => Ok x
  | JStr s =>
      match float_of_str s with
      | Some x => Ok x
      | None => Raise ValueError
      end
  end.

Definition Qltb (x y : Q) : bool := negb (Qle_bool y x).

End Floats.

(** ** The scanner ([scanner.py], class [DexScreenerScanner]) *)

Module Scanner.
Section Methods.
Context `{PyFloat} {W : Type} `{World W}.

(** [f"{token_address}_{amount}_{total_amount}"] of lines 58-61. *)
Definition boost_id (b : boost) : string :=
  let token_address := default "" (tokenAddress b) in
  let amount := default 0 (amount b) in
  let total_amount := default 0 (totalAmount b) in
  token_address ++ "_" ++ Py.str_int amount ++ "_" ++ Py.str_int total_amount.

(** The body of the loop of [get_boosted_tokens] (lines 53-67); the
    accumulator is [filtered_boosts]. *)
Definition scan_boost (filtered_boosts : list boost) (b : boost) : M W (list boost) :=
  let chain_id := Py.lower (default "" (chainId b)) in
  if negb (String.eqb chain_id TARGET_CHAIN) then ret filtered_boosts
  else
    seen <- get_seen ;;
    if decide (boost_id b ∈ seen) then ret filtered_boosts
    else (set_seen (seen ∪ {[boost_id b]}) ;;; ret ((filtered_boosts ++ [b])%list)).

Definition get_boosted_tokens : M W (list boost) :=
  try_except
    (response <- session_get get_feed BOOST_API_URL ;;
     raise_for_status response ;;;
     data <- response_json response ;;
     match data with
     | FeedList boosts
     | FeedDict (Some boosts) =>
         filtered_boosts <- for_each scan_boost [] boosts ;;
         logger INFO (FoundNewBoosts (length filtered_boosts)) ;;;
         ret filtered_boosts
     | _ => (logger WARNING UnexpectedFormat ;;; ret [])
     end)
    (fun e => logger ERROR (ErrorFetchingBoosts e) ;;; ret []).

(** [float(x.get('liquidity', {}).get('usd', 0))] *)
Definition liquidity_key (x : pair) : res Q :=
  py_float (default (JInt 0) (liquidity_usd x)).

(** The keys of [sort] are computed first; one that raises aborts the
    sort. *)
Fixpoint with_keys (l : list pair) : res (list (Q * pair)) :=
  match l with
  | [] => Ok []
  | x :: r =>
      match liquidity_key x with
      | Raise e => Raise e
      | Ok k =>
          match with_keys r with
          | Raise e => Raise e
          | Ok kr => Ok ((k, x) :: kr)
          end
      end
  end.

(** [sort(key=..., reverse=True)]: descending and stable. *)
Fixpoint insert_desc (kx : Q * pair) (l : list (Q * pair)) : list (Q * pair) :=
  match l with
  | [] => [kx]
  | ky :: r => if Qltb (fst kx) (fst ky) then ky :: insert_desc kx r else kx :: l
  end.

Fixpoint sort_desc (l : list (Q * pair)) : list (Q * pair) :=
  match l with
  | [] => []
  | kx :: r => insert_desc kx (sort_desc r)
  end.

Definition sort_by_liquidity (l : list pair) : res (list pair) :=
  match with_keys l with
  | Raise e => Raise e
  | Ok kl => Ok (map snd (sort_desc kl))
  end.

Definition on_target_chain (p : pair) : bool :=
  String.eqb (Py.lower (default "" (pair_chainId p))) TARGET_CHAIN.

(** The block of lines 94-106, repeated at lines 112-124: [Some p] when
    it returns [p], [None] when control falls through. *)
Definition most_liquid_pair (response : Z * option pairs_doc) : M W (option pair) :=
  if fst response =? 200 then
    data <- response_json response ;;
    match pairs data with
    | Absent => ret None
    | Null => raise TypeError
    | Present ps =>
        if (0 <? length ps)%nat then
          let solana_pairs := List.filter on_target_chain ps in
          match solana_pairs with
          | [] => ret None
          | _ :: _ =>
              sorted <- lift (sort_by_liquidity solana_pairs) ;;
              match sorted with
              | p :: _ => ret (Some p)
              | [] => raise IndexError
              end
          end
        else ret None
    end
  else ret None.

Definition search_url (token_address : option string) : string :=
  "https://api.dexscreener.com/latest/dex/search?q=" ++ Py.str_opt token_address.

Definition token_url (token_address : option string) : string :=
  "https://api.dexscreener.com/latest/dex/tokens/" ++ Py.str_opt token_address.

Definition get_token_details (token_address : option string) : M W (option pair) :=
  try_except
    (response <- session_get get_pairs (search_url token_address) ;;
     found <- most_liquid_pair response ;;
     match found with
     | Some p => ret (Some p)
     | None =>
         response <- session_get get_pairs (token_url token_address) ;;
         found <- most_liquid_pair response ;;
         match found with
         | Some p => ret (Some p)
         | None => ret None
         end
     end)
    (fun e => logger ERROR (ErrorFetchingDetails token_address e) ;;; ret None).

Definition cleanup_cache (max_size : Z) : M W unit :=
  seen <- get_seen ;;
  if Z.of_nat (size seen) >? max_size then
    w <- get_world ;;
    let ids_list := set_to_list w seen in
    set_seen (list_to_set (Py.slice_from (- max_size) ids_list)) ;;;
    seen' <- get_seen ;;
    logger INFO (CleanedUpCache (size seen'))
  else ret tt.

End Methods.
End Scanner.

(** ** The formatter ([formatter.py], class [MessageFormatter]) *)

(** What the f-string of [format_boost_message] interpolates, in the order
    of the text. *)
Record alert_fields := AlertFields {
  boost_display : string;
  token_name : string;
  token_symbol : string;
  token_address : string;
  platform : string;
  age : string;
  market_cap : Q;
  price_str : string;
  liquidity_usd_value : Q;
  liquidity_percentage : Q;
  buys_5m : Z;
  sells_5m : Z;
  buys_24h : Z;
  sells_24h : Z;
  dexscreener_url : string
}.

(** The f-string of lines 212-230. *)
Class Template := { message_template : alert_fields -> string }.

Module Formatter.
Section Methods.
Context `{PyFloat} `{Template} {W : Type} `{World W}.

(** The float literals [0.001] and [0.000001]. *)
Definition lit_0_001 : Q := 1152921504606847 # 1152921504606846976.
Definition lit_0_000001 : Q := 4722366482869645 # 4722366482869645213696.

(** The [try] block of lines 75-83: [Some text] when it returns [text],
    [None] when control leaves it, by the end or by an exception. *)
Definition subscript_form (price_usd : Q) : option string :=
  let s := float_str price_usd in
  let exp :=
    if Py.contains "e-" s
    then option_map Z.opp (Py.int_of_str (Py.split_last "e-" s))
    else Some 0 in
  match exp with
  | None => None
  | Some exp =>
      if exp >? 6 then
        let base_num := rnd (price_usd * float_of_int (10 ^ exp)) in
        let zeros := Py.repeat_str "â‚€" (Z.to_nat (exp - 1)) in
        Some (Py.remove_all "0."
                ("$0." ++ zeros ++ Py.format_fixed (Z.to_nat (Z.min 6 exp)) base_num))
      else None
  end.

Definition format_price (price_usd : Q) : string :=
  if Qeq_bool price_usd 0 then "$0.00"
  else if Qltb price_usd lit_0_001 then
    let price_str := "$" ++ Py.format_fixed 8 price_usd in
    let price_str := Py.rstrip "." (Py.rstrip "0" price_str) in
    if Qltb price_usd lit_0_000001 then
      match subscript_form price_usd with
      | Some text => text
      | None => price_str
      end
    else price_str
  else if Qltb price_usd 1 then
    Py.rstrip "." (Py.rstrip "0" ("$" ++ Py.format_fixed 6 price_usd))
  else
    Py.rstrip "." (Py.rstrip "0" ("$" ++ Py.format_fixed 4 price_usd)).

Definition format_age (w : W) (pair_created_at : option Z) : string :=
  match pair_created_at with
  | None | Some 0 => "N/A"
  | Some ms =>
      match timedelta_since ms w with
      | None => "N/A"
      | Some (days, seconds) =>
          let hours := seconds / 3600 in
          let minutes := (seconds mod 3600) / 60 in
          if days >? 0 then Py.str_int days ++ "d " ++ Py.str_int hours ++ "h"
          else if hours >? 0 then Py.str_int hours ++ "h " ++ Py.str_int minutes ++ "m"
          else if minutes >? 0 then Py.str_int minutes ++ "m"
          else "<1m"
      end
  end.

(** The truth value of a pair record: [{}] is false. *)
Definition pair_truthy (p : pair) : bool :=
  match p with
  | Pair None None None None None None None None None None None None => false
  | _ => true
  end.

(** The [try] block of [format_boost_message] (lines 158-232). *)
Definition message_body (boost_data : boost) (token_data : option pair) : M W string :=
  let token_address := default "Unknown" (tokenAddress boost_data) in
  let amount := default 0 (amount boost_data) in
  let total_amount := default amount (totalAmount boost_data) in
  let token_data := match token_data with
                    | Some p => if pair_truthy p then Some p else None
                    | None => None
                    end in
  details <-
    match token_data with
    | Some p =>
        price_usd <- lift (py_float (default (JInt 0) (priceUsd p))) ;;
        market_cap <- lift (py_float (default (JInt 0) (marketCap p))) ;;
        liquidity_usd <- lift (py_float (default (JInt 0) (liquidity_usd p))) ;;
        w <- get_world ;;
        ret (default "N/A" (baseToken_name p), default "N/A" (baseToken_symbol p),
             price_usd, market_cap, liquidity_usd,
             (default 0 (txns_m5_buys p), default 0 (txns_m5_sells p),
              default 0 (txns_h24_buys p), default 0 (txns_h24_sells p)),
             format_age w (pairCreatedAt p))
    | None => ret ("N/A", "N/A", 0%Q, 0%Q, 0%Q, (0, 0, 0, 0), "N/A")
    end ;;
  let '(token_name, token_symbol, price_usd, market_cap, liquidity_usd, txns, age) :=
    details in
  let '(buys_5m, sells_5m, buys_24h, sells_24h) := txns in
  let price_str := format_price price_usd in
  let liquidity_percentage :=
    if Qltb 0 market_cap && Qltb 0 liquidity_usd
    then rnd (rnd (liquidity_usd / market_cap) * 100)
    else 0%Q in
  let platform :=
    match token_data with
    | Some p =>
        let dex_id := Py.lower (default "" (dexId p)) in
        if Py.contains "pump" dex_id then "Pump.fun ðŸ”— SOL"
        else if Py.contains "raydium" dex_id then "Raydium ðŸ”— SOL"
        else Py.capitalize dex_id
    | None => "Pump.fun ðŸ”— SOL"
    end in
  let dexscreener_url := "https://dexscreener.com/" ++ TARGET_CHAIN ++ "/" ++ token_address in
  let boost_display :=
    if total_amount >? amount
    then Py.str_int amount ++ "âš¡ (Total: " ++ Py.str_int total_amount ++ "âš¡)"
    else Py.str_int amount ++ "âš¡" in
  ret (message_template
         (AlertFields boost_display token_name token_symbol token_address platform age
            market_cap price_str liquidity_usd liquidity_percentage
            buys_5m sells_5m buys_24h sells_24h dexscreener_url)).

Definition format_boost_message (boost_data : boost) (token_data : option pair)
  : M W (option string) :=
  try_except
    (message <- message_body boost_data token_data ;; ret (Some message))
    (fun e => logger ERROR (ErrorFormatting e) ;;; logger ERROR Traceback ;;; ret None).

End Methods.
End Formatter.

(** ** The bot ([bot.py], class [DexBoostBot]) *)

Module Bot.
Section Methods.
Context `{PyFloat} `{Template} {W : Type} `{World W}.

(** [__init__]: an empty cache, [{amount: 0 for amount in BOOST_AMOUNTS}]
    and the two log records. *)
Definition init (w : W) : machine W :=
  Machine ∅ (list_to_map ((fun amount => (amount, 0%nat)) <$> BOOST_AMOUNTS)) w
    [Log INFO BotInitialized; Log INFO (MonitoringAmounts BOOST_AMOUNTS)].

Definition check_boost_criteria (boost_data : boost) : bool :=
  let amount := default 0 (amount boost_data) in
  bool_decide (amount ∈ BOOST_AMOUNTS).

Definition send_alert (message : string) : M W bool :=
  try_except
    (bot_send_message message ;;; ret true)
    (fun e => logger ERROR (FailedToSend e) ;;; ret false).

Definition process_boost (b : boost) : M W bool :=
  try_except
    (let token_address := tokenAddress b in
     let amount := default 0 (amount b) in
     logger INFO (Processing amount token_address) ;;;
     token_data <- Scanner.get_token_details token_address ;;
     message <- Formatter.format_boost_message b token_data ;;
     match message with
     | None | Some "" =>
         (logger WARNING (CouldNotFormat token_address) ;;; ret false)
     | Some text =>
         success <- send_alert text ;;
         if success then
           stats <- get_stats ;;
           match stats !! amount with
           | None => raise KeyError
           | Some n =>
               set_stats (<[amount := S n]> stats) ;;;
               logger INFO (AlertSent amount) ;;;
               ret true
           end
         else ret false
     end)
    (fun e => logger ERROR (ErrorProcessing e) ;;; ret false).

(** The body of the loop of [scan_and_process] (lines 190-193); the
    accumulator is [processed_count]. *)
Definition process_one (processed_count : Z) (b : boost) : M W Z :=
  success <- process_boost b ;;
  if success then (asyncio_sleep 1 ;;; ret (processed_count + 1))
  else ret processed_count.

(** [scan_and_process] from line 174 on, for the [boosts] the scanner
    returned. *)
Definition process_new_boosts (boosts : list boost) : M W Z :=
  match boosts with
  | [] => (logger INFO NoNewBoosts ;;; ret 0)
  | _ :: _ =>
      let target_boosts := List.filter check_boost_criteria boosts in
      match target_boosts with
      | [] => (logger INFO NoMatchingBoosts ;;; ret 0)
      | _ :: _ =>
          logger INFO (FoundMatching (length target_boosts)) ;;;
          for_each process_one 0 target_boosts
      end
  end.

Definition scan_and_process : M W Z :=
  logger INFO Scanning ;;;
  boosts <- Scanner.get_boosted_tokens ;;
  process_new_boosts boosts.

(** [', '.join(str(a) + '⚡' for a in amounts)] *)
Fixpoint join_amounts (amounts : list Z) : string :=
  match amounts with
  | [] => ""
  | a :: r =>
      Py.str_int a ++ "⚡" ++
      match r with
      | [] => ""
      | _ :: _ => ", " ++ join_amounts r
      end
  end.

Definition newline : string := String "010" "".

(** The text of the startup notification (lines 219-224). *)
Definition startup_msg : string :=
  "🤖 **DexScreener Boost Bot Started!**" ++ newline ++ newline ++
  "**Monitoring:** " ++ join_amounts BOOST_AMOUNTS ++ newline ++
  "**Scan Interval:** " ++ Py.str_int SCAN_INTERVAL ++ " seconds" ++ newline ++ newline ++
  "Standing by for boost purchases... ⚡".

(** [run] up to the loop (lines 215-237): the startup notification, sent
    at best effort. *)
Definition startup : M W unit :=
  logger INFO StartingBot ;;;
  try_except
    (bot_send_message startup_msg ;;; logger INFO StartupSent)
    (fun e => logger ERROR (FailedStartup e)).

(** One turn of the loop of [run] (lines 241-258); the loop variables are
    [scan_count] and [total_alerts]. *)
Definition run_turn (counters : Z * Z) : M W (Z * Z) :=
  let scan_count := fst counters + 1 in
  alerts_sent <- scan_and_process ;;
  let total_alerts := snd counters + alerts_sent in
  (if alerts_sent >? 0 then
     stats <- get_stats ;;
     logger INFO (ScanSummary scan_count alerts_sent) ;;;
     logger INFO (TotalAlerts total_alerts) ;;;
     logger INFO (StatsSummary stats)
   else ret tt) ;;;
  (if scan_count mod CACHE_CLEANUP_INTERVAL =? 0
   then Scanner.cleanup_cache 500
   else ret tt) ;;;
  asyncio_sleep SCAN_INTERVAL ;;;
  ret (scan_count, total_alerts).

(** The first [n] turns of the loop [while True]. *)
Fixpoint run_turns (n : nat) (counters : Z * Z) : M W (Z * Z) :=
  match n with
  | O => ret counters
  | S m => (counters' <- run_turn counters ;; run_turns m counters')
  end.

(** [run] from its start through the first [n] turns of the loop. *)
Definition run_start (n : nat) : M W (Z * Z) :=
  startup ;;; run_turns n (0, 0).

End Methods.
End Bot.

(** ** A scripted world, for the examples

    A world that gives the same answers whenever it is asked: one answer
    of the feed, one of each token endpoint, one outcome of every send.  The
    clock is out of order and a set is listed in the order of
    [elements]. *)

Record script := Script {
  feed_answer : http_result feed_doc;
  search_answer : http_result pairs_doc;
  token_answer : http_result pairs_doc;
  delivers : bool
}.

#[local] Instance scripted : World script := {|
  get_feed _ w := (feed_answer w, w);
  get_pairs url w :=
    (if String.prefix "https://api.dexscreener.com/latest/dex/search" url
     then search_answer w else token_answer w, w);
  send_message _ w := (delivers w, w);
  timedelta_since _ _ := None;
  set_to_list _ s := elements s;
  set_to_list_perm _ _ := reflexivity _
|}.

(** Records of the examples: two records of one identifier (the chain is
    spelled in two ways), a record of another chain, a record whose amount
    is no target amount. *)
Definition boost_a : boost :=
  Boost (Some "Solana") (Some "AAA") (Some 500) (Some 1000) "first".
Definition boost_a_again : boost :=
  Boost (Some "solana") (Some "AAA") (Some 500) (Some 1000) "second".
Definition boost_eth : boost :=
  Boost (Some "ethereum") (Some "BBB") (Some 500) (Some 500) "".
Definition boost_42 : boost :=
  Boost (Some "solana") (Some "CCC") (Some 42) None "".

Definition no_pairs : http_result pairs_doc := Response 200 (Some (PairsDoc Absent)).

(** A world whose feed answers with [payload], whose token endpoints know
    no pair and whose chat takes every message. *)
Definition feed_of (payload : list boost) : script :=
  Script (Response 200 (Some (FeedList payload))) no_pairs no_pairs true.

(** Pairs of the examples: two on the target chain, the second the more
    liquid, and a richer one on another chain; a pair whose price is not a
    number. *)
Definition pair_shallow : pair :=
  Pair (Some "solana") (Some "Token") (Some "TKN") (Some (JFloat (1 # 2)))
    (Some (JInt 500000)) (Some (JInt 1000)) None None None None None (Some "raydium").
Definition pair_deep : pair :=
  Pair (Some "Solana") (Some "Token") (Some "TKN") (Some (JFloat (1 # 2)))
    (Some (JInt 500000)) (Some (JInt 50000)) None None None None None (Some "pumpswap").
Definition pair_eth : pair :=
  Pair (Some "ethereum") (Some "Token") (Some "TKN") (Some (JFloat (1 # 2)))
    (Some (JInt 500000)) (Some (JInt 99999)) None None None None None (Some "uniswap").
Definition pair_no_price : pair :=
  Pair (Some "solana") (Some "Token") (Some "TKN") (Some (JStr "n/a"))
    None None None None None None None None.

(** A pair as liquid as [pair_deep]. *)
Definition pair_deep_twin : pair :=
  Pair (Some "solana") (Some "Twin") (Some "TWN") (Some (JFloat (1 # 2)))
    (Some (JInt 500000)) (Some (JInt 50000)) None None None None None (Some "orca").

Definition pairs_of (ps : list pair) : http_result pairs_doc :=
  Response 200 (Some (PairsDoc (Present ps))).

(** The search endpoint knows three pairs. *)
Definition search_world : script :=
  Script (Response 200 (Some (FeedList [])))
    (pairs_of [pair_shallow; pair_eth; pair_deep]) no_pairs true.

(** The search endpoint answers 500 and the token endpoint knows a pair. *)
Definition fallback_world : script :=
  Script (Response 200 (Some (FeedList []))) (Response 500 None) (pairs_of [pair_deep]) true.

(** The search endpoint knows two pairs of the greatest liquidity. *)
Definition tie_world : script :=
  Script (Response 200 (Some (FeedList [])))
    (pairs_of [pair_shallow; pair_deep; pair_deep_twin]) no_pairs true.

(** The search endpoint answers with [pairs: null], the token endpoint
    knows a pair. *)
Definition null_world : script :=
  Script (Response 200 (Some (FeedList [])))
    (Response 200 (Some (PairsDoc Null))) (pairs_of [pair_deep]) true.

(** The feed answers 302 with a list in the body. *)
Definition redirect_world : script :=
  Script (Response 302 (Some (FeedList [boost_a]))) no_pairs no_pairs true.

(** The feed answers 503 and the search endpoint does not answer. *)
Definition down_world : script :=
  Script (Response 503 (Some (FeedList [boost_a]))) Unreachable (pairs_of [pair_deep]) true.

(** The feed answers with one record and the chat takes no message. *)
Definition mute_world : script :=
  Script (Response 200 (Some (FeedList [boost_a]))) no_pairs no_pairs false.

(** A machine whose cache holds one identifier. *)
Definition one_seen : machine script :=
  Machine {[Scanner.boost_id boost_a]} ∅ (feed_of []) [].

(** A machine whose cache holds two identifiers. *)
Definition two_seen : machine script :=
  Machine {[Scanner.boost_id boost_a; Scanner.boost_id boost_42]} ∅ (feed_of []) [].

(** The feed answers 200 with a body that is no list and no object. *)
Definition odd_world : script :=
  Script (Response 200 (Some FeedOther)) no_pairs no_pairs true.

Definition twin_payload : list boost := [boost_a; boost_a_again].
Definition mixed_payload : list boost := [boost_eth; boost_a; boost_42].

(** The doubles nearest to [1234.56789], [0.123456789] and
    [0.0000001234]. *)
Definition lit_1234_56789 : Q := 5429687001335527 # 4398046511104.
Definition lit_0_123456789 : Q := 8895999182988127 # 72057594037927936.
Definition lit_1_234e_07 : Q := 2330960095944457 # 18889465931478580854784.

(** Float operations that are right on the floats of the examples:
    [str(0.0000001234)] is ["1.234e-07"]; no text is read as a float and
    no result is rounded. *)
#[local] Instance float_table : PyFloat := {|
  float_str _ := "1.234e-07";
  float_of_str _ := None;
  rnd x := x
|}.

(** The double nearest to [0.000000001], and float operations that are
    right on it: its [str] is ["1e-09"]. *)
Definition lit_1e_09 : Q := 4835703278458517 # 4835703278458516698824704.

Definition float_nano : PyFloat := {|
  float_str _ := "1e-09";
  float_of_str _ := None;
  rnd x := x
|}.

(** A world with a clock only: the time elapsed since any instant is
    [elapsed_days] days and [elapsed_seconds] seconds; nothing else
    answers. *)
Record clock := Clock { elapsed_days : Z; elapsed_seconds : Z }.

#[local] Instance ticking : World clock := {|
  get_feed _ w := (Unreachable, w);
  get_pairs _ w := (Unreachable, w);
  send_message _ w := (false, w);
  timedelta_since _ w := Some (elapsed_days w, elapsed_seconds w);
  set_to_list _ s := elements s;
  set_to_list_perm _ _ := reflexivity _
|}.

(** A template that shows the boost and the price. *)
#[local] Instance short_template : Template := {|
  message_template f := boost_display f ++ " " ++ price_str f
|}.

(** [x] is the double nearest to the decimal [d]: a significand below
    [2^53] over a power of two, within half a unit in the last place of
    [d]. *)
Definition nearest_double (x d : Q) : bool :=
  let m := Z.abs (Qnum x) in
  let k := Z.pos (Qden x) in
  (m <? 2 ^ 53) && (2 ^ Z.log2 k =? k) &&
  Qle_bool (Qabs (x - d) * inject_Z (2 * k * 2 ^ (52 - Z.log2 m))) 1.

(** ** Vocabulary of the properties *)

(** No character of [s] is an underscore. *)
Fixpoint no_underscore (s : string) : Prop :=
  match s with
  | EmptyString => True
  | String c r => c <> "_"%char /\ no_underscore r
  end.

Section Vocabulary.
Context `{PyFloat} `{Template} {W : Type} `{World W}.

(** The test of line 54, [chain_id != TARGET_CHAIN], negated. *)
Definition boost_on_target_chain (b : boost) : bool :=
  String.eqb (Py.lower (default "" (chainId b))) TARGET_CHAIN.

(** The three values the identifier is built from (lines 58-60). *)
Definition boost_triple (b : boost) : string * Z * Z :=
  (default "" (tokenAddress b), default 0 (amount b), default 0 (totalAmount b)).

(** [boost.get("amount", 0)] *)
Definition boost_amount (b : boost) : Z := default 0 (amount b).

Definition ids_of (l : list boost) : gset string :=
  list_to_set (Scanner.boost_id <$> l).

(** The feed, asked in world [w], answers with a status that
    [raise_for_status] lets through and a body that is the list
    [payload], bare or under the key [boosts]. *)
Definition feed_carries (w : W) (payload : list boost) : Prop :=
  match fst (get_feed BOOST_API_URL w) with
  | Response code (Some (FeedList l))
  | Response code (Some (FeedDict (Some l))) =>
      ((400 <=? code) && (code <? 600) = false) /\ l = payload
  | _ => False
  end.

(** The feed's request fails: in transport, by a 4xx or 5xx status, or by
    a body that does not parse. *)
Definition feed_fails (w : W) : Prop :=
  match fst (get_feed BOOST_API_URL w) with
  | Unreachable => True
  | Response code body => (400 <=? code) && (code <? 600) = true \/ body = None
  end.

(** The records the loop keeps from [l] when the cache holds [seen]: on
    the target chain, and the first of their identifier, which is not in
    [seen]. *)
Fixpoint fresh_boosts (seen : gset string) (l : list boost) : list boost :=
  match l with
  | [] => []
  | b :: r =>
      if boost_on_target_chain b then
        if decide (Scanner.boost_id b ∈ seen) then fresh_boosts seen r
        else b :: fresh_boosts (seen ∪ {[Scanner.boost_id b]}) r
      else fresh_boosts seen r
  end.

(** The cache after [cleanup_cache]. *)
Definition cleaned (max_size : Z) (s : machine W) : gset string :=
  if Z.of_nat (size (seen_boost_ids s)) >? max_size
  then list_to_set (Py.slice_from (- max_size) (set_to_list (world s) (seen_boost_ids s)))
  else seen_boost_ids s.

(** What the program did between two states. *)
Definition events_since (s s' : machine W) : list event :=
  drop (length (trace s)) (trace s').

(** The pairs an answer of a token endpoint offers to
    [get_token_details], and those of them on the target chain. *)
Definition answered_pairs (r : http_result pairs_doc) : list pair :=
  match r with
  | Response 200 (Some (PairsDoc (Present ps))) => ps
  | _ => []
  end.

Definition chain_pairs (r : http_result pairs_doc) : list pair :=
  List.filter Scanner.on_target_chain (answered_pairs r).

(** [p] is a target-chain pair of the answer [r] and no target-chain pair
    of [r] has more USD liquidity. *)
Definition most_liquid_in (p : pair) (r : http_result pairs_doc) : Prop :=
  p ∈ chain_pairs r /\
  forall p', p' ∈ chain_pairs r ->
    exists k k', Scanner.liquidity_key p = Ok k /\
                 Scanner.liquidity_key p' = Ok k' /\ (k' <= k)%Q.

(** What [get_token_details] leaves in the trace: requests, and the record
    of a failure. *)
Definition lookup_event (ev : event) : Prop :=
  match ev with
  | Get _ | Log ERROR (ErrorFetchingDetails _ _) => True
  | _ => False
  end.

(** What [format_boost_message] leaves in the trace: the records of a
    failure. *)
Definition formatter_event (ev : event) : Prop :=
  match ev with
  | Log ERROR (ErrorFormatting _) | Log ERROR Traceback => True
  | _ => False
  end.

(** What [process_boost] leaves in the trace before it sends. *)
Definition preparing (ev : event) : Prop := lookup_event ev \/ formatter_event ev.

(** The token details [process_boost] gets for [b] in state [s], and the
    message it formats from them. *)
Definition details_of (b : boost) (s : machine W) : res (option pair) * machine W :=
  Scanner.get_token_details (tokenAddress b)
    (snd (logger INFO (Processing (boost_amount b) (tokenAddress b)) s)).

Definition message_of (b : boost) (s : machine W) : res (option string) :=
  match details_of b s with
  | (Ok token_data, s1) => fst (Formatter.format_boost_message b token_data s1)
  | (Raise e, _) => Raise e
  end.

(** Every target amount is a key of the statistics. *)
Definition stats_ready (s : machine W) : Prop :=
  Forall (fun a => is_Some (boost_stats s !! a)) BOOST_AMOUNTS.

(** A request of a token endpoint fails: in transport, or by a body that
    does not parse. *)
Definition lookup_breaks (r : http_result pairs_doc) : Prop :=
  match r with
  | Unreachable => True
  | Response code body => code = 200 /\ body = None
  end.

Definition status_not_200 (r : http_result pairs_doc) : Prop :=
  match r with
  | Unreachable => False
  | Response code _ => code <> 200
  end.

(** A message that reached the chat. *)
Definition delivered (ev : event) : bool :=
  match ev with
  | Send _ true => true
  | _ => false
  end.

(** A request or a message: what the world sees of the program. *)
Definition external (ev : event) : bool :=
  match ev with
  | Get _ | Send _ _ => true
  | _ => false
  end.

(** Every event but the two records that tell an empty scan from an
    empty selection. *)
Definition visible (ev : event) : bool :=
  match ev with
  | Log _ NoNewBoosts | Log _ NoMatchingBoosts => false
  | _ => true
  end.

(** Kinds of events. *)
Definition is_send (ev : event) : bool :=
  match ev with Send _ _ => true | _ => false end.

Definition is_get (ev : event) : bool :=
  match ev with Get _ => true | _ => false end.

Definition is_sleep (seconds : Z) (ev : event) : bool :=
  match ev with Sleep n => n =? seconds | _ => false end.

Definition is_processing (ev : event) : bool :=
  match ev with Log INFO (Processing _ _) => true | _ => false end.

(** How many events of a kind a trace holds. *)
Definition count (kind : event -> bool) (evs : list event) : nat :=
  length (List.filter kind evs).

(** The sum of the counts of the statistics. *)
Definition stats_total (stats : gmap Z nat) : nat :=
  map_fold (fun _ count total => (count + total)%nat) 0%nat stats.

(** [f"${x:.{n}f}".rstrip("0").rstrip(".")] *)
Definition trimmed (n : nat) (x : Q) : string :=
  Py.rstrip "." (Py.rstrip "0" ("$" ++ Py.format_fixed n x)).

Definition raises {A} (r : res A) : Prop :=
  match r with Raise _ => True | Ok _ => False end.

End Vocabulary.

(** * Properties *)

Open Scope list_scope.

(** ** Python strings *)

Section PyStrings.

Lemma no_underscore_app s t :
  no_underscore s -> no_underscore t -> no_underscore (s ++ t)%string.
Proof. induction s as [|c r IH]; simpl; [tauto|]. intros [Hc Hr] Ht. auto. Qed.

Lemma no_underscore_uint (d : Decimal.uint) :
  no_underscore (NilEmpty.string_of_uint d).
Proof. induction d; simpl; auto; split; auto; discriminate. Qed.

Lemma no_underscore_str_int z : no_underscore (Py.str_int z).
Proof.
  unfold Py.str_int. destruct (Z.to_int z) as [d|d]; simpl.
  - apply no_underscore_uint.
  - split; [discriminate | apply no_underscore_uint].
Qed.

Lemma str_int_inj z1 z2 : Py.str_int z1 = Py.str_int z2 -> z1 = z2.
Proof.
  unfold Py.str_int. intros E.
  apply (f_equal NilEmpty.int_of_string) in E.
  rewrite !NilEmpty.isi in E. injection E as E.
  rewrite <- (DecimalZ.of_to z1), <- (DecimalZ.of_to z2). now rewrite E.
Qed.

(** A text is split in one way at its last underscore. *)
Lemma last_underscore_inj x x' a a' :
  no_underscore a -> no_underscore a' ->
  (x ++ String "_" a = x' ++ String "_" a')%string -> x = x' /\ a = a'.
Proof.
  revert x'. induction x as [|c r IH]; intros [|c' r'] Ha Ha'; simpl; intros E.
  - injection E as E. now subst.
  - injection E as Ec E. subst a. exfalso.
    clear -Ha. induction r' as [|d r' IH]; simpl in Ha; tauto.
  - injection E as Ec E. subst a'. exfalso.
    clear -Ha'. induction r as [|d r IH]; simpl in Ha'; tauto.
  - injection E as Ec E. subst c'. destruct (IH r' Ha Ha' E) as [-> ->]. auto.
Qed.

Lemma str_app_assoc (s t u : string) : ((s ++ t) ++ u = s ++ (t ++ u))%string.
Proof.
  induction s as [|c r IH]; [reflexivity|].
  change (String c ((r ++ t) ++ u) = String c (r ++ (t ++ u)))%string. now rewrite IH.
Qed.

End PyStrings.

(** ** The deduplicating loop *)

Section ScannerLoop.
Context {PF : PyFloat} {W : Type} {WW : World W}.

Lemma boost_id_triple b1 b2 :
  Scanner.boost_id b1 = Scanner.boost_id b2 <-> boost_triple b1 = boost_triple b2.
Proof.
  unfold Scanner.boost_id, boost_triple. split.
  - intros E.
    set (a1 := default "" (tokenAddress b1)) in *.
    set (a2 := default "" (tokenAddress b2)) in *.
    assert (E' : ((a1 ++ "_" ++ Py.str_int (default 0 (amount b1)))
                   ++ String "_" (Py.str_int (default 0 (totalAmount b1)))
               = (a2 ++ "_" ++ Py.str_int (default 0 (amount b2)))
                   ++ String "_" (Py.str_int (default 0 (totalAmount b2))))%string).
    { rewrite !str_app_assoc. exact E. }
    apply last_underscore_inj in E'; try apply no_underscore_str_int.
    destruct E' as [E1 E2].
    apply last_underscore_inj in E1; try apply no_underscore_str_int.
    destruct E1 as [E1 E3].
    apply str_int_inj in E2, E3. congruence.
  - intros E. injection E as -> -> ->. reflexivity.
Qed.

Lemma for_each_scan_boost l : forall acc (s : machine W),
  for_each Scanner.scan_boost acc l s =
    (Ok (acc ++ fresh_boosts (seen_boost_ids s) l),
     Machine (seen_boost_ids s ∪ ids_of (fresh_boosts (seen_boost_ids s) l))
             (boost_stats s) (world s) (trace s)).
Proof.
  induction l as [|b r IH]; intros acc s; simpl.
  - unfold ret, ids_of. simpl. rewrite app_nil_r.
    replace (seen_boost_ids s ∪ ∅) with (seen_boost_ids s) by set_solver.
    now destruct s.
  - unfold bind at 1. unfold Scanner.scan_boost, boost_on_target_chain.
    destruct (String.eqb _ TARGET_CHAIN); simpl.
    + unfold bind, get_seen. simpl.
      destruct (decide (Scanner.boost_id b ∈ seen_boost_ids s)) as [Hin|Hout].
      * unfold ret. apply IH.
      * unfold set_seen, ret. simpl. rewrite IH. simpl.
        rewrite <- app_assoc. simpl. f_equal. f_equal.
        unfold ids_of. simpl. set_solver.
    + unfold ret. apply IH.
Qed.

Lemma fresh_boosts_on_chain l : forall seen,
  Forall (fun b => boost_on_target_chain b = true) (fresh_boosts seen l).
Proof.
  induction l as [|b r IH]; intros seen; simpl; [constructor|].
  destruct (boost_on_target_chain b) eqn:E; [|apply IH].
  destruct (decide _); [apply IH|]. constructor; [exact E | apply IH].
Qed.

Lemma filter_sublist {A} (f : A -> bool) (l : list A) : List.filter f l `sublist_of` l.
Proof.
  induction l as [|x r IH]; simpl; [constructor|].
  destruct (f x); [now apply sublist_skip | now apply sublist_cons].
Qed.

Lemma fresh_boosts_sublist l : forall seen,
  fresh_boosts seen l `sublist_of` List.filter boost_on_target_chain l.
Proof.
  induction l as [|b r IH]; intros seen; simpl; [constructor|].
  destruct (boost_on_target_chain b); [|apply IH].
  destruct (decide _); [apply sublist_cons | apply sublist_skip]; apply IH.
Qed.

(** The identifiers kept are new to the cache and pairwise distinct. *)
Lemma fresh_boosts_new l : forall seen b,
  b ∈ fresh_boosts seen l -> Scanner.boost_id b ∉ seen.
Proof.
  induction l as [|b r IH]; intros seen x; simpl; [inversion 1|].
  destruct (boost_on_target_chain b); [|apply IH].
  destruct (decide _) as [Hin|Hout]; [apply IH|].
  intros Hx. apply elem_of_cons in Hx as [->|Hx]; [exact Hout|].
  apply IH in Hx. set_solver.
Qed.

Lemma fresh_boosts_NoDup l : forall seen,
  NoDup (Scanner.boost_id <$> fresh_boosts seen l).
Proof.
  induction l as [|b r IH]; intros seen; simpl; [constructor|].
  destruct (boost_on_target_chain b); [|apply IH].
  destruct (decide _) as [Hin|Hout]; [apply IH|].
  simpl. constructor; [|apply IH].
  intros Hb. apply list_elem_of_fmap in Hb as (b' & E & Hb').
  apply fresh_boosts_new in Hb'. rewrite <- E in Hb'. set_solver.
Qed.

(** Every target-chain identifier of [l] is in the cache afterwards. *)
Lemma fresh_boosts_covers l : forall seen b,
  b ∈ l -> boost_on_target_chain b = true ->
  Scanner.boost_id b ∈ seen ∪ ids_of (fresh_boosts seen l).
Proof.
  unfold ids_of.
  induction l as [|x r IH]; intros seen b Hb Hc; [inversion Hb|].
  simpl. apply elem_of_cons in Hb as [->|Hb].
  - rewrite Hc. destruct (decide _) as [Hin|Hout]; simpl; set_solver.
  - specialize (IH seen b Hb Hc) as IH1.
    destruct (boost_on_target_chain x); [|exact IH1].
    destruct (decide _) as [Hin|Hout]; [exact IH1|].
    specialize (IH (seen ∪ {[Scanner.boost_id x]}) b Hb Hc). simpl. set_solver.
Qed.

(** Nothing is kept from a list whose target-chain identifiers are all
    in the cache. *)
Lemma fresh_boosts_none l : forall seen,
  (forall b, b ∈ l -> boost_on_target_chain b = true -> Scanner.boost_id b ∈ seen) ->
  fresh_boosts seen l = [].
Proof.
  induction l as [|x r IH]; intros seen Hall; simpl; [reflexivity|].
  destruct (boost_on_target_chain x) eqn:E.
  - destruct (decide _) as [Hin|Hout].
    + apply IH. intros b Hb. apply Hall. now right.
    + exfalso. apply Hout, Hall; [left | exact E].
  - apply IH. intros b Hb. apply Hall. now right.
Qed.

(** All target-chain records are kept when their identifiers are new and
    pairwise distinct. *)
Lemma fresh_boosts_all l : forall seen,
  (forall b, b ∈ l -> boost_on_target_chain b = true -> Scanner.boost_id b ∉ seen) ->
  NoDup (Scanner.boost_id <$> List.filter boost_on_target_chain l) ->
  fresh_boosts seen l = List.filter boost_on_target_chain l.
Proof.
  induction l as [|x r IH]; intros seen Hnew Hnd; simpl; [reflexivity|].
  simpl in Hnd. destruct (boost_on_target_chain x) eqn:E.
  - simpl in Hnd. apply NoDup_cons in Hnd as [Hx Hnd].
    destruct (decide _) as [Hin|Hout].
    + exfalso. apply (Hnew x); [left | exact E | exact Hin].
    + f_equal. apply IH; [|exact Hnd].
      intros b Hb Hc Hin. apply elem_of_union in Hin as [Hin|Hin].
      * apply (Hnew b); [now right | exact Hc | exact Hin].
      * apply elem_of_singleton in Hin. apply Hx. rewrite <- Hin.
        apply list_elem_of_fmap. exists b. split; [reflexivity|].
        apply list_elem_of_In, filter_In. split; [now apply list_elem_of_In | exact Hc].
  - apply IH; [|exact Hnd]. intros b Hb. apply Hnew. now right.
Qed.

(** The first record of an identifier that is new to the cache is
    kept. *)
Lemma fresh_boosts_first pre : forall seen b post,
  boost_on_target_chain b = true ->
  Scanner.boost_id b ∉ seen ->
  (forall b', b' ∈ pre -> boost_on_target_chain b' = true ->
              Scanner.boost_id b' <> Scanner.boost_id b) ->
  b ∈ fresh_boosts seen (pre ++ b :: post).
Proof.
  induction pre as [|x r IH]; intros seen b post Hc Hnew Hpre; simpl.
  - rewrite Hc. destruct (decide _); [contradiction | left].
  - assert (Hr : forall b', b' ∈ r -> boost_on_target_chain b' = true ->
                            Scanner.boost_id b' <> Scanner.boost_id b).
    { intros b' Hb'. apply Hpre. now right. }
    destruct (boost_on_target_chain x) eqn:E; [|now apply IH].
    destruct (decide _); [now apply IH|].
    right. apply IH; [exact Hc | | exact Hr].
    intros Hin. apply elem_of_union in Hin as [Hin|Hin]; [contradiction|].
    apply elem_of_singleton in Hin. symmetry in Hin. revert Hin.
    apply Hpre; [left | exact E].
Qed.

(** The cache the loop has built when it reaches a record. *)
Lemma fresh_boosts_seen pre : forall seen x,
  x ∈ seen ∪ ids_of (fresh_boosts seen pre) <->
  x ∈ seen \/ exists b', b' ∈ pre /\ boost_on_target_chain b' = true /\ Scanner.boost_id b' = x.
Proof.
  unfold ids_of.
  induction pre as [|b r IH]; intros seen x; simpl.
  - split; [|intros [Hx|(b' & Hb' & _)]; [set_solver | inversion Hb']]. set_solver.
  - destruct (boost_on_target_chain b) eqn:E.
    + destruct (decide _) as [Hin|Hout].
      * rewrite IH. split; intros [Hx|(b' & Hb' & Hc & Hid)]; auto.
        -- right. exists b'. split; [now right | auto].
        -- apply elem_of_cons in Hb' as [->|Hb']; [left; now rewrite <- Hid|].
           right. exists b'. auto.
      * simpl. specialize (IH (seen ∪ {[Scanner.boost_id b]}) x).
        split.
        -- intros Hx.
           assert (Hx' : x ∈ seen ∪ {[Scanner.boost_id b]}
                             ∪ list_to_set (Scanner.boost_id <$>
                                  fresh_boosts (seen ∪ {[Scanner.boost_id b]}) r))
             by set_solver.
           apply IH in Hx' as [Hx'|(b' & Hb' & Hc & Hid)].
           ++ apply elem_of_union in Hx' as [Hx'|Hx']; [now left|].
              apply elem_of_singleton in Hx'. right. exists b.
              split; [left | auto].
           ++ right. exists b'. split; [now right | auto].
        -- intros Hx.
           assert (Hx' : x ∈ seen ∪ {[Scanner.boost_id b]}
                             ∪ list_to_set (Scanner.boost_id <$>
                                  fresh_boosts (seen ∪ {[Scanner.boost_id b]}) r)).
           { apply IH. destruct Hx as [Hx|(b' & Hb' & Hc & Hid)].
             - left. set_solver.
             - apply elem_of_cons in Hb' as [->|Hb'].
               + left. set_solver.
               + right. exists b'. auto. }
           set_solver.
    + rewrite IH. split; intros [Hx|(b' & Hb' & Hc & Hid)]; auto.
      * right. exists b'. split; [now right | auto].
      * apply elem_of_cons in Hb' as [->|Hb']; [congruence|].
        right. exists b'. auto.
Qed.

End ScannerLoop.

(** ** [get_boosted_tokens] *)

Section ScannerFetch.
Context {PF : PyFloat} {W : Type} {WW : World W}.

Ltac run :=
  unfold Scanner.get_boosted_tokens, try_except, bind, session_get, raise_for_status,
    response_json, logger, emit, ret, raise; simpl.

(** The call on a feed that carries [payload]. *)
Lemma get_boosted_tokens_carries (s : machine W) payload :
  feed_carries (world s) payload ->
  Scanner.get_boosted_tokens s =
    (Ok (fresh_boosts (seen_boost_ids s) payload),
     Machine (seen_boost_ids s ∪ ids_of (fresh_boosts (seen_boost_ids s) payload))
       (boost_stats s) (snd (get_feed BOOST_API_URL (world s)))
       (trace s ++ [Get BOOST_API_URL;
                    Log INFO (FoundNewBoosts
                                (length (fresh_boosts (seen_boost_ids s) payload)))])).
Proof.
  unfold feed_carries. run.
  destruct (get_feed BOOST_API_URL (world s)) as [r w']. simpl.
  destruct r as [|code [doc|]]; try contradiction.
  destruct doc as [l|[l|]|]; try contradiction; intros [Hc ->]; simpl;
    rewrite Hc; simpl; rewrite for_each_scan_boost; simpl;
    rewrite <- app_assoc; reflexivity.
Qed.

(** The call on a feed that fails. *)
Lemma get_boosted_tokens_fails (s : machine W) :
  feed_fails (world s) ->
  exists e, Scanner.get_boosted_tokens s =
    (Ok [], Machine (seen_boost_ids s) (boost_stats s)
              (snd (get_feed BOOST_API_URL (world s)))
              (trace s ++ [Get BOOST_API_URL; Log ERROR (ErrorFetchingBoosts e)])).
Proof.
  unfold feed_fails. run.
  destruct (get_feed BOOST_API_URL (world s)) as [r w']. simpl.
  destruct r as [|code body]; simpl.
  - intros _. eexists. rewrite <- app_assoc. reflexivity.
  - destruct ((400 <=? code) && (code <? 600)) eqn:Hc; simpl.
    + intros _. eexists. rewrite <- app_assoc. reflexivity.
    + intros [Hf| ->]; [discriminate|]. simpl. eexists.
      rewrite <- app_assoc. reflexivity.
Qed.

(** Every call returns, touches neither the statistics nor the chat, and
    leaves one request and one log record in the trace. *)
Lemma get_boosted_tokens_returns (s : machine W) :
  exists out seen' lvl msg,
    Scanner.get_boosted_tokens s =
      (Ok out, Machine seen' (boost_stats s) (snd (get_feed BOOST_API_URL (world s)))
                 (trace s ++ [Get BOOST_API_URL; Log lvl msg])) /\
    Forall (fun b => boost_on_target_chain b = true) out /\
    (forall a t, msg <> Processing a t) /\ (forall e, msg <> ErrorProcessing e).
Proof.
  run.
  destruct (get_feed BOOST_API_URL (world s)) as [r w']. simpl.
  destruct r as [|code body]; simpl.
  { do 4 eexists. rewrite <- app_assoc. split; [reflexivity|]. repeat split; [constructor|..]; discriminate. }
  destruct ((400 <=? code) && (code <? 600)) eqn:Hc; simpl.
  { do 4 eexists. rewrite <- app_assoc. split; [reflexivity|]. repeat split; [constructor|..]; discriminate. }
  destruct body as [doc|]; simpl.
  2:{ do 4 eexists. rewrite <- app_assoc. split; [reflexivity|]. repeat split; [constructor|..]; discriminate. }
  destruct doc as [l|[l|]|]; simpl; try rewrite for_each_scan_boost; simpl;
    do 4 eexists; rewrite <- app_assoc; (split; [reflexivity|]);
    repeat split; try discriminate; try constructor; apply fresh_boosts_on_chain.
Qed.

End ScannerFetch.

(** ** Deduplication, identity and the chain filter *)

Section ScannerClaims.
Context {PF : PyFloat} {W : Type} {WW : World W}.

(** C1, as amended.  From a cache that holds no identifier of the
    payload, the first of two calls against the same payload returns the
    target-chain records in upstream order, one per identifier and the
    first of each (all of them when their identifiers are pairwise
    distinct), and the second call returns the empty list. *)
Theorem dedup_twice (s : machine W) (payload : list boost) :
  feed_carries (world s) payload ->
  feed_carries (world (snd (Scanner.get_boosted_tokens s))) payload ->
  (forall b, b ∈ payload -> boost_on_target_chain b = true ->
             Scanner.boost_id b ∉ seen_boost_ids s) ->
  exists first,
    fst (Scanner.get_boosted_tokens s) = Ok first /\
    first `sublist_of` List.filter boost_on_target_chain payload /\
    NoDup (Scanner.boost_id <$> first) /\
    (forall b, b ∈ payload -> boost_on_target_chain b = true ->
               exists b', b' ∈ first /\ Scanner.boost_id b' = Scanner.boost_id b) /\
    (forall pre b post,
        payload = pre ++ b :: post -> boost_on_target_chain b = true ->
        (forall b', b' ∈ pre -> boost_on_target_chain b' = true ->
                    Scanner.boost_id b' <> Scanner.boost_id b) ->
        b ∈ first) /\
    (NoDup (Scanner.boost_id <$> List.filter boost_on_target_chain payload) ->
     first = List.filter boost_on_target_chain payload) /\
    fst (Scanner.get_boosted_tokens (snd (Scanner.get_boosted_tokens s))) = Ok [].
Proof.
  intros H1 H2 Hnew.
  rewrite (get_boosted_tokens_carries s payload H1) in H2 |- *.
  rewrite (get_boosted_tokens_carries _ payload H2). simpl.
  exists (fresh_boosts (seen_boost_ids s) payload).
  split; [reflexivity|]. split; [apply fresh_boosts_sublist|].
  split; [apply fresh_boosts_NoDup|]. split; [|split; [|split]].
  - intros b Hb Hc.
    pose proof (fresh_boosts_covers payload (seen_boost_ids s) b Hb Hc) as Hin.
    apply elem_of_union in Hin as [Hin|Hin]; [now apply Hnew in Hin|].
    unfold ids_of in Hin. apply elem_of_list_to_set, list_elem_of_fmap in Hin.
    destruct Hin as (b' & E & Hb'). exists b'. auto.
  - intros pre b post -> Hc Hpre. apply fresh_boosts_first; auto.
    apply Hnew; [|exact Hc]. apply elem_of_app. right. left.
  - intros Hnd. now apply fresh_boosts_all.
  - f_equal. apply fresh_boosts_none. intros b Hb Hc.
    now apply fresh_boosts_covers.
Qed.

(** C2.  Two records have the same identifier exactly when they have
    the same triple of address, amount and total amount; and when the
    cache holds the identifiers of the records [prev], the loop, coming
    to a target-chain record [b] after the records [pre], drops [b]
    exactly when a record of [prev] or a target-chain record of [pre]
    has the triple of [b], and otherwise keeps it and adds its identifier
    to the cache.  Every cache a bot comes to holds the identifiers of
    records seen: [get_boosted_tokens_seen], [cleanup_cache_seen_records]. *)
Theorem identity_is_triple (prev pre : list boost) (b b2 : boost) (s : machine W) :
  boost_on_target_chain b = true ->
  seen_boost_ids s = ids_of prev ->
  (Scanner.boost_id b = Scanner.boost_id b2 <-> boost_triple b = boost_triple b2) /\
  exists kept s1,
    for_each Scanner.scan_boost [] pre s = (Ok kept, s1) /\
    ((exists b', (b' ∈ prev \/ (b' ∈ pre /\ boost_on_target_chain b' = true)) /\
                 boost_triple b' = boost_triple b) ->
     Scanner.scan_boost kept b s1 = (Ok kept, s1)) /\
    (~ (exists b', (b' ∈ prev \/ (b' ∈ pre /\ boost_on_target_chain b' = true)) /\
                   boost_triple b' = boost_triple b) ->
     Scanner.scan_boost kept b s1 =
       (Ok (kept ++ [b]),
        Machine (seen_boost_ids s1 ∪ {[Scanner.boost_id b]})
                (boost_stats s1) (world s1) (trace s1))).
Proof.
  intros Hc Hseen. split; [apply boost_id_triple|].
  rewrite for_each_scan_boost. simpl. do 2 eexists. split; [reflexivity|].
  assert (Hdup : Scanner.boost_id b ∈ seen_boost_ids s
                   ∪ ids_of (fresh_boosts (seen_boost_ids s) pre) <->
                 exists b', (b' ∈ prev \/ (b' ∈ pre /\ boost_on_target_chain b' = true)) /\
                            boost_triple b' = boost_triple b).
  { rewrite fresh_boosts_seen, Hseen. unfold ids_of.
    rewrite elem_of_list_to_set, list_elem_of_fmap. split.
    - intros [(b' & E & Hb')|(b' & Hb' & Hc' & E)]; exists b';
        (split; [auto | now apply boost_id_triple]).
    - intros (b' & [Hb'|[Hb' Hc']] & E); apply boost_id_triple in E.
      + left. exists b'. auto.
      + right. exists b'. auto. }
  unfold Scanner.scan_boost. fold (boost_on_target_chain b). rewrite Hc. simpl.
  unfold bind, get_seen, set_seen, ret. simpl.
  destruct (decide _) as [Hin|Hout]; split; intros Hex; try reflexivity.
  - exfalso. apply Hex, Hdup, Hin.
  - exfalso. apply Hout, Hdup, Hex.
Qed.

(** C9.  A record of another chain is never returned, and the records
    returned stand in the order of the upstream payload. *)
Theorem chain_filter_keeps_order (s : machine W) (payload : list boost) :
  feed_carries (world s) payload ->
  exists out,
    fst (Scanner.get_boosted_tokens s) = Ok out /\
    out `sublist_of` payload /\
    (forall b, boost_on_target_chain b = false -> b ∉ out).
Proof.
  intros Hf. rewrite (get_boosted_tokens_carries s payload Hf). simpl.
  eexists. split; [reflexivity|]. split.
  - transitivity (List.filter boost_on_target_chain payload);
      [apply fresh_boosts_sublist | apply filter_sublist].
  - intros b Hb Hin.
    pose proof (fresh_boosts_on_chain payload (seen_boost_ids s)) as Hall.
    rewrite Forall_forall in Hall. apply Hall in Hin. congruence.
Qed.

End ScannerClaims.

(** An instance of C1: the scan of [mixed_payload] by a new bot. *)
Lemma dedup_twice_witness :
  exists first,
    fst (Scanner.get_boosted_tokens (Bot.init (feed_of mixed_payload))) = Ok first /\
    first = [boost_a; boost_42] /\
    fst (Scanner.get_boosted_tokens
           (snd (Scanner.get_boosted_tokens (Bot.init (feed_of mixed_payload))))) = Ok [].
Proof.
  destruct (dedup_twice (Bot.init (feed_of mixed_payload)) mixed_payload)
    as (first & E1 & _ & _ & _ & _ & Hall & E2).
  - vm_compute. split; reflexivity.
  - vm_compute. split; reflexivity.
  - intros b _ _. simpl. apply not_elem_of_empty.
  - exists first. split; [exact E1|]. split; [|exact E2].
    apply Hall. apply (bool_decide_unpack _). vm_compute. exact I.
Defined.

(** The counterexample to C1 as stated: of two target-chain records with
    one identifier the first call returns only the first. *)
Lemma dedup_twice_counterexample :
  feed_carries (world (Bot.init (feed_of twin_payload))) twin_payload /\
  seen_boost_ids (Bot.init (feed_of twin_payload)) = ∅ /\
  List.filter boost_on_target_chain twin_payload = twin_payload /\
  fst (Scanner.get_boosted_tokens (Bot.init (feed_of twin_payload))) = Ok [boost_a] /\
  fst (Scanner.get_boosted_tokens (Bot.init (feed_of twin_payload)))
    <> Ok (List.filter boost_on_target_chain twin_payload).
Proof.
  split; [vm_compute; split; reflexivity|].
  split; [reflexivity|]. split; [reflexivity|]. split; [reflexivity|].
  vm_compute. discriminate.
Qed.

(** An instance of C2: the second record of [twin_payload] is dropped for
    the first. *)
Lemma identity_is_triple_witness :
  (Scanner.boost_id boost_a_again = Scanner.boost_id boost_a <->
   boost_triple boost_a_again = boost_triple boost_a) /\
  exists kept s1,
    for_each Scanner.scan_boost [] [boost_a] (Bot.init (feed_of twin_payload)) = (Ok kept, s1) /\
    Scanner.scan_boost kept boost_a_again s1 = (Ok kept, s1).
Proof.
  destruct (identity_is_triple [] [boost_a] boost_a_again boost_a
              (Bot.init (feed_of twin_payload)))
    as (Hid & kept & s1 & E & Hdrop & _).
  - reflexivity.
  - reflexivity.
  - split; [exact Hid|]. exists kept, s1. split; [exact E|].
    apply Hdrop. exists boost_a. split; [|reflexivity].
    right. split; [left | reflexivity].
Defined.

(** An instance of C9: the scan of [mixed_payload]. *)
Lemma chain_filter_keeps_order_witness :
  exists out,
    fst (Scanner.get_boosted_tokens (Bot.init (feed_of mixed_payload))) = Ok out /\
    out `sublist_of` mixed_payload /\
    (forall b, boost_on_target_chain b = false -> b ∉ out).
Proof.
  apply (chain_filter_keeps_order (Bot.init (feed_of mixed_payload)) mixed_payload).
  vm_compute. split; reflexivity.
Defined.

(** ** Eviction *)

Section Eviction.
Context {PF : PyFloat} {W : Type} {WW : World W}.

Lemma set_to_list_NoDup (w : W) (ids : gset string) : NoDup (set_to_list w ids).
Proof. rewrite (set_to_list_perm w ids). apply NoDup_elements. Qed.

Lemma set_to_list_length (w : W) (ids : gset string) :
  length (set_to_list w ids) = size ids.
Proof. now rewrite (set_to_list_perm w ids). Qed.

Lemma set_to_list_elem (w : W) (ids : gset string) x : x ∈ set_to_list w ids <-> x ∈ ids.
Proof. rewrite (set_to_list_perm w ids). apply elem_of_elements. Qed.

Lemma slice_from_sublist {A} (start : Z) (l : list A) : Py.slice_from start l `sublist_of` l.
Proof. unfold Py.slice_from. apply sublist_drop. Qed.

Lemma cleanup_cache_seen max_size (s : machine W) :
  seen_boost_ids (snd (Scanner.cleanup_cache max_size s)) = cleaned max_size s.
Proof.
  unfold Scanner.cleanup_cache, cleaned, bind, get_seen, get_world, set_seen, logger, emit, ret.
  simpl. destruct (_ >? _); reflexivity.
Qed.

(** A cache within the bound is left as it is, and so is the rest of the
    state. *)
Lemma cleanup_cache_within max_size (s : machine W) :
  Z.of_nat (size (seen_boost_ids s)) <= max_size ->
  Scanner.cleanup_cache max_size s = (Ok tt, s).
Proof.
  intros Hle. unfold Scanner.cleanup_cache, bind, get_seen, ret. simpl.
  destruct (Z.gtb_spec (Z.of_nat (size (seen_boost_ids s))) max_size); [lia|reflexivity].
Qed.

(** Whatever the bound, the identifiers kept were in the cache. *)
Lemma cleanup_cache_subset max_size (s : machine W) :
  seen_boost_ids (snd (Scanner.cleanup_cache max_size s)) ⊆ seen_boost_ids s.
Proof.
  rewrite cleanup_cache_seen. unfold cleaned. destruct (_ >? _); [|reflexivity].
  intros x Hx. apply elem_of_list_to_set in Hx.
  apply (set_to_list_elem (world s)).
  eapply sublist_subseteq; [apply slice_from_sublist | exact Hx].
Qed.

(** A cache over a positive bound is cut to the bound. *)
Lemma cleanup_cache_exact max_size (s : machine W) :
  0 < max_size < Z.of_nat (size (seen_boost_ids s)) ->
  Z.of_nat (size (seen_boost_ids (snd (Scanner.cleanup_cache max_size s)))) = max_size.
Proof.
  intros [Hpos Hlt]. rewrite cleanup_cache_seen. unfold cleaned.
  destruct (Z.gtb_spec (Z.of_nat (size (seen_boost_ids s))) max_size); [|lia].
  rewrite size_list_to_set.
  2:{ eapply sublist_NoDup; [apply set_to_list_NoDup | apply slice_from_sublist]. }
  unfold Py.slice_from. rewrite length_drop, set_to_list_length.
  destruct (Z.ltb_spec (- max_size) 0); lia.
Qed.

(** A bound of zero cuts nothing: [ids_list[-0:]] is all of [ids_list]. *)
Lemma cleanup_cache_zero (s : machine W) :
  seen_boost_ids (snd (Scanner.cleanup_cache 0 s)) = seen_boost_ids s.
Proof.
  rewrite cleanup_cache_seen. unfold cleaned. destruct (_ >? _); [|reflexivity].
  unfold Py.slice_from. simpl. rewrite drop_0.
  apply set_eq. intros x. rewrite elem_of_list_to_set. apply set_to_list_elem.
Qed.

End Eviction.

(** C4 at the input on which the code departs from it: a cache of one
    identifier, over the bound 0 by one, still holds that identifier after
    [cleanup_cache(0)], where the claim leaves none. *)
Theorem cleanup_cache_zero_keeps_cache :
  size (seen_boost_ids one_seen) = 1%nat /\
  seen_boost_ids (snd (Scanner.cleanup_cache 0 one_seen)) = seen_boost_ids one_seen /\
  size (seen_boost_ids (snd (Scanner.cleanup_cache 0 one_seen))) <> 0%nat.
Proof.
  split; [reflexivity|]. split; [apply cleanup_cache_zero|].
  rewrite cleanup_cache_zero. vm_compute. discriminate.
Qed.

(** ** The cache holds identifiers of records seen *)

Section SeenRecords.
Context {PF : PyFloat} {W : Type} {WW : World W}.

Lemma ids_of_app l1 l2 : ids_of (l1 ++ l2) = ids_of l1 ∪ ids_of l2.
Proof. unfold ids_of. rewrite fmap_app. apply list_to_set_app_L. Qed.

(** A call of [get_boosted_tokens] adds the identifiers of the records it
    returns, and nothing else. *)
Lemma get_boosted_tokens_seen (s : machine W) prev :
  seen_boost_ids s = ids_of prev ->
  exists out s',
    Scanner.get_boosted_tokens s = (Ok out, s') /\
    seen_boost_ids s' = ids_of (prev ++ out).
Proof.
  intros Hprev.
  unfold Scanner.get_boosted_tokens, try_except, bind, session_get, raise_for_status,
    response_json, logger, emit, ret, raise; simpl.
  destruct (get_feed BOOST_API_URL (world s)) as [r w']. simpl.
  assert (Hnil : seen_boost_ids s = ids_of (prev ++ [])) by now rewrite app_nil_r.
  destruct r as [|code body]; simpl; [do 2 eexists; split; [reflexivity | exact Hnil]|].
  destruct ((400 <=? code) && (code <? 600)); simpl;
    [do 2 eexists; split; [reflexivity | exact Hnil]|].
  destruct body as [doc|]; simpl; [|do 2 eexists; split; [reflexivity | exact Hnil]].
  destruct doc as [l|[l|]|]; simpl; try rewrite for_each_scan_boost; simpl;
    do 2 eexists; (split; [reflexivity|]); simpl;
    try exact Hnil; now rewrite ids_of_app, Hprev.
Qed.

(** A call of [cleanup_cache] leaves the identifiers of some of the
    records. *)
Lemma cleanup_cache_seen_records max_size (s : machine W) prev :
  seen_boost_ids s = ids_of prev ->
  exists prev',
    prev' ⊆ prev /\
    seen_boost_ids (snd (Scanner.cleanup_cache max_size s)) = ids_of prev'.
Proof.
  intros Hprev.
  pose proof (cleanup_cache_subset max_size s) as Hsub.
  set (kept := seen_boost_ids (snd (Scanner.cleanup_cache max_size s))) in *.
  exists (filter (fun b => Scanner.boost_id b ∈ kept) prev). split.
  - intros b Hb. now apply list_elem_of_filter in Hb.
  - apply set_eq. intros x. unfold ids_of.
    rewrite elem_of_list_to_set, list_elem_of_fmap. split.
    + intros Hx. assert (Hx' : x ∈ ids_of prev) by (rewrite <- Hprev; now apply Hsub).
      unfold ids_of in Hx'. apply elem_of_list_to_set, list_elem_of_fmap in Hx'.
      destruct Hx' as (b & -> & Hb). exists b. split; [reflexivity|].
      apply list_elem_of_filter. now split.
    + intros (b & -> & Hb). now apply list_elem_of_filter in Hb.
Qed.

End SeenRecords.

(** ** The most liquid pair *)

Section Liquidity.
Context {PF : PyFloat} {W : Type} {WW : World W}.

Lemma Qltb_false x y : Qltb x y = false -> (y <= x)%Q.
Proof.
unfold Qltb. intros E. apply negb_false_iff in E. now apply Qle_bool_iff.
Qed.

Lemma Qltb_true x y : Qltb x y = true -> (x <= y)%Q.
Proof.
unfold Qltb. intros E. apply negb_true_iff in E.
apply Qlt_le_weak, Qnot_le_lt. intros Hle. apply Qle_bool_iff in Hle. congruence.
Qed.

Lemma insert_desc_perm kx l : Scanner.insert_desc kx l ≡ₚ kx :: l.
Proof.
induction l as [|ky r IH]; simpl; [reflexivity|].
destruct (Qltb (fst kx) (fst ky)); [|reflexivity].
rewrite IH. apply Permutation_swap.
Qed.

Lemma sort_desc_perm l : Scanner.sort_desc l ≡ₚ l.
Proof.
induction l as [|kx r IH]; simpl; [reflexivity|].
now rewrite insert_desc_perm, IH.
Qed.

(** The first element of the sorted list has the greatest key. *)
Lemma insert_desc_head kx l :
(forall h t, l = h :: t -> forall y, y ∈ l -> (fst y <= fst h)%Q) ->
forall h t, Scanner.insert_desc kx l = h :: t ->
forall y, y ∈ kx :: l -> (fst y <= fst h)%Q.
Proof.
intros Hl h t E y Hy. destruct l as [|ky r]; simpl in E.
- injection E as <- <-. apply list_elem_of_singleton in Hy as ->. apply Qle_refl.
- specialize (Hl ky r eq_refl).
  destruct (Qltb (fst kx) (fst ky)) eqn:Hlt; injection E as <- <-.
  + apply elem_of_cons in Hy as [->|Hy]; [now apply Qltb_true | now apply Hl].
  + apply elem_of_cons in Hy as [->|Hy]; [apply Qle_refl|].
    eapply Qle_trans; [now apply Hl | now apply Qltb_false].
Qed.

Lemma sort_desc_head l :
forall h t, Scanner.sort_desc l = h :: t -> forall y, y ∈ l -> (fst y <= fst h)%Q.
Proof.
induction l as [|kx r IH]; intros h t E y Hy; [inversion Hy|].
simpl in E. eapply insert_desc_head; [|exact E|].
- intros h' t' E' y' Hy'. eapply IH; [exact E'|]. now rewrite <- (sort_desc_perm r).
- now rewrite (sort_desc_perm r).
Qed.

Lemma with_keys_ok l : forall kl,
Scanner.with_keys l = Ok kl ->
map snd kl = l /\ Forall (fun kp => Scanner.liquidity_key (snd kp) = Ok (fst kp)) kl.
Proof.
induction l as [|x r IH]; intros kl E; simpl in E.
- injection E as <-. split; [reflexivity | constructor].
- destruct (Scanner.liquidity_key x) as [k|e] eqn:Hk; [|discriminate].
  destruct (Scanner.with_keys r) as [kr|e]; [|discriminate].
  injection E as <-. destruct (IH kr eq_refl) as [Hm Hf].
  split; [simpl; now f_equal | now constructor].
Qed.

(** [l] sorted: the same pairs, the most liquid first. *)
Lemma sort_by_liquidity_ok l sorted :
Scanner.sort_by_liquidity l = Ok sorted ->
sorted ≡ₚ l /\
forall p t, sorted = p :: t ->
forall p', p' ∈ l ->
exists k k', Scanner.liquidity_key p = Ok k /\ Scanner.liquidity_key p' = Ok k' /\ (k' <= k)%Q.
Proof.
unfold Scanner.sort_by_liquidity.
destruct (Scanner.with_keys l) as [kl|e] eqn:Hk; [|discriminate].
intros E. injection E as <-. destruct (with_keys_ok l kl Hk) as [Hm Hf].
split.
- rewrite <- Hm. apply Permutation_map, sort_desc_perm.
- intros p t E p' Hp'.
  destruct (Scanner.sort_desc kl) as [|[k q] t'] eqn:Hs; [discriminate|].
  simpl in E. injection E as <- _.
  rewrite <- Hm in Hp'. apply list_elem_of_In, in_map_iff in Hp'.
  destruct Hp' as ([k' q'] & <- & Hin). apply list_elem_of_In in Hin.
  rewrite Forall_forall in Hf. exists k, k'. split; [|split].
  + apply (Hf (k, q)). rewrite <- (sort_desc_perm kl), Hs. left.
  + now apply (Hf (k', q')).
  + now apply (sort_desc_head kl _ _ Hs (k', q')).
Qed.

Lemma sort_by_liquidity_nonempty l sorted :
Scanner.sort_by_liquidity l = Ok sorted -> l <> [] -> sorted <> [].
Proof.
intros E Hl Hs. apply sort_by_liquidity_ok in E as [Hp _].
rewrite Hs in Hp. apply Permutation_nil_l in Hp. congruence.
Qed.

(** What the block of lines 94-106 does with a response: it leaves the
  state alone; what it returns is on the target chain and the most
  liquid there; and it returns a pair or raises whenever the response
  has a target-chain pair. *)
Lemma most_liquid_pair_spec code body (s : machine W) :
  exists r, Scanner.most_liquid_pair (code, body) s = (r, s) /\
    match r with
    | Ok (Some p) => most_liquid_in p (Response code body)
    | Ok None =>
        chain_pairs (Response code body) = [] /\
        (code <> 200 \/ exists doc, body = Some doc)
    | Raise e => code = 200
    end.
Proof.
  unfold Scanner.most_liquid_pair, most_liquid_in, chain_pairs, answered_pairs,
    response_json, bind, ret, raise, lift. simpl.
  destruct (Z.eqb_spec code 200) as [->|Hne].
  2:{ eexists. split; [reflexivity|]. simpl. split; [|now left].
      destruct code as [|c|c]; try reflexivity.
      repeat (destruct c as [c|c|]; try reflexivity). congruence. }
  destruct body as [[[| |ps]]|]; simpl;
    try (eexists; split; [reflexivity|]; simpl; try split; eauto; fail).
  destruct ps as [|p0 ps0]; simpl; [eexists; split; [reflexivity|]; simpl; eauto|].
  set (ps := p0 :: ps0).
  change (if Scanner.on_target_chain p0 then p0 :: List.filter Scanner.on_target_chain ps0
          else List.filter Scanner.on_target_chain ps0)
    with (List.filter Scanner.on_target_chain ps).
  destruct (List.filter Scanner.on_target_chain ps) as [|q qs] eqn:Hf;
    [eexists; split; [reflexivity|]; simpl; eauto|].
  destruct (Scanner.sort_by_liquidity (q :: qs)) as [sorted|e] eqn:Hs;
    [|eexists; split; reflexivity].
  destruct (sort_by_liquidity_ok _ _ Hs) as [Hp Hmax].
  destruct sorted as [|p t].
  - exfalso. eapply sort_by_liquidity_nonempty; [exact Hs | discriminate | reflexivity].
  - eexists. split; [reflexivity|]. simpl. split.
    + rewrite <- Hp. left.
    + intros p' Hp'. now apply (Hmax p t eq_refl).
Qed.

Lemma lookup_breaks_no_pairs r : lookup_breaks r -> chain_pairs r = [].
Proof. destruct r as [|code body]; [reflexivity|]. intros [-> ->]. reflexivity. Qed.

Lemma status_not_200_no_pairs r : status_not_200 r -> chain_pairs r = [].
Proof.
  destruct r as [|code body]; [reflexivity|]. simpl. intros Hne.
  unfold chain_pairs, answered_pairs. destruct code as [|c|c]; try reflexivity.
  repeat (destruct c as [c|c|]; try reflexivity). congruence.
Qed.

Lemma search_url_not_token_url a : Scanner.search_url a <> Scanner.token_url a.
Proof. unfold Scanner.search_url, Scanner.token_url. intros E. vm_compute in E. discriminate E. Qed.

(** The ways of [get_token_details]: it returns the most liquid pair of
    the search answer; or the search request breaks and it returns nothing;
    or the search answer has no target-chain pair and the same happens with
    the answer of the token endpoint. *)
Lemma get_token_details_spec a (s : machine W) :
  let r1 := get_pairs (Scanner.search_url a) (world s) in
  let r2 := get_pairs (Scanner.token_url a) (snd r1) in
  exists result w' evs,
    Scanner.get_token_details a s =
      (Ok result, Machine (seen_boost_ids s) (boost_stats s) w'
                    (trace s ++ Get (Scanner.search_url a) :: evs)) /\
    ((evs = [] /\ w' = snd r1 /\ exists p, result = Some p /\ most_liquid_in p (fst r1))
     \/ (lookup_breaks (fst r1) /\ w' = snd r1 /\ result = None /\
         exists e, evs = [Log ERROR (ErrorFetchingDetails a e)])
     \/ (w' = snd r1 /\ result = None /\
         exists e, evs = [Log ERROR (ErrorFetchingDetails a e)])
     \/ (chain_pairs (fst r1) = [] /\ ~ lookup_breaks (fst r1) /\ w' = snd r2 /\
         ((evs = [Get (Scanner.token_url a)] /\
           exists p, result = Some p /\ most_liquid_in p (fst r2))
          \/ (evs = [Get (Scanner.token_url a)] /\ result = None /\
              chain_pairs (fst r2) = [])
          \/ (result = None /\
              exists e, evs = [Get (Scanner.token_url a);
                               Log ERROR (ErrorFetchingDetails a e)])))).
Proof.
  intros r1 r2. subst r1 r2.
  unfold Scanner.get_token_details, try_except, bind at 1, session_get.
  destruct (get_pairs (Scanner.search_url a) (world s)) as [r1 w1]. simpl.
  destruct r1 as [|code body]; simpl.
  { do 3 eexists. unfold bind, logger, emit, ret. simpl. rewrite <- app_assoc.
    split; [reflexivity|]. right. left. simpl. eauto 10. }
  set (s1 := Machine _ _ w1 _).
  unfold bind at 1.
  destruct (most_liquid_pair_spec code body s1) as (r & -> & Hr).
  destruct r as [[p|]|e]; simpl in Hr |- *.
  - unfold ret. do 3 eexists. split; [reflexivity|]. left. eauto 10.
  - destruct Hr as [Hnone Hnb].
    unfold bind at 1, session_get. subst s1. simpl.
    destruct (get_pairs (Scanner.token_url a) w1) as [r2 w2]. simpl.
    assert (Hnb' : ~ lookup_breaks (Response code body)).
    { simpl. intros [-> ->]. destruct Hnb as [?|[doc ?]]; congruence. }
    destruct r2 as [|code2 body2]; simpl.
    { do 3 eexists. unfold bind, logger, emit, ret. simpl. rewrite <- !app_assoc.
      split; [reflexivity|]. right. right. right. simpl. eauto 12. }
    set (s2 := Machine _ _ w2 _).
    unfold bind at 1.
    destruct (most_liquid_pair_spec code2 body2 s2) as (r & -> & Hr).
    destruct r as [[p|]|e]; simpl in Hr |- *; subst s2; unfold ret, bind, logger, emit; simpl;
      rewrite <- !app_assoc; do 3 eexists; (split; [reflexivity|]);
      right; right; right; simpl.
    + eauto 12.
    + destruct Hr as [Hr _]. eauto 12.
    + eauto 12.
  - subst s1. unfold bind, logger, emit, ret. simpl. rewrite <- app_assoc.
    do 3 eexists. split; [reflexivity|]. right. right. left. eauto 10.
Qed.

End Liquidity.

(** ** Token details and failures *)

Section Degradation.
Context {PF : PyFloat} {TP : Template} {W : Type} {WW : World W}.

(** Every call of [get_token_details] returns, keeps the cache and the
    statistics, and leaves only requests and the record of a failure in the
    trace. *)
Lemma get_token_details_returns a (s : machine W) :
  exists result w' evs,
    Scanner.get_token_details a s =
      (Ok result, Machine (seen_boost_ids s) (boost_stats s) w' (trace s ++ evs)) /\
    Forall lookup_event evs.
Proof.
  destruct (get_token_details_spec a s) as (result & w' & evs & E & Hcase).
  exists result, w', (Get (Scanner.search_url a) :: evs). split; [exact E|].
  constructor; [exact I|].
  destruct Hcase as [(-> & _)|[(_ & _ & _ & e & ->)|[(_ & _ & e & ->)|(_ & _ & _ & Hc)]]].
  - constructor.
  - repeat constructor.
  - repeat constructor.
  - destruct Hc as [(-> & _)|[(-> & _)|(_ & e & ->)]]; repeat constructor.
Qed.

(** The [try] block of [format_boost_message] leaves the state alone. *)
Lemma message_body_state b td (s : machine W) :
  exists r, Formatter.message_body b td s = (r, s).
Proof.
  unfold Formatter.message_body.
  destruct (match td with Some p => if Formatter.pair_truthy p then Some p else None
                     | None => None end) as [p|].
  - unfold bind, lift, get_world, ret.
    destruct (py_float (default (JInt 0) (priceUsd p))); [|eexists; reflexivity].
    destruct (py_float (default (JInt 0) (marketCap p))); [|eexists; reflexivity].
    destruct (py_float (default (JInt 0) (liquidity_usd p))); eexists; reflexivity.
  - unfold bind, ret. eexists. reflexivity.
Qed.

(** Every call of [format_boost_message] returns: the message of the
    [try] block, or nothing with two records in the log when the block
    raises. *)
Lemma format_boost_message_spec b td (s : machine W) :
  (exists m, Formatter.message_body b td s = (Ok m, s) /\
             Formatter.format_boost_message b td s = (Ok (Some m), s)) \/
  (exists e, Formatter.message_body b td s = (Raise e, s) /\
             Formatter.format_boost_message b td s =
               (Ok None, Machine (seen_boost_ids s) (boost_stats s) (world s)
                           (trace s ++ [Log ERROR (ErrorFormatting e); Log ERROR Traceback]))).
Proof.
  destruct (message_body_state b td s) as ([m|e] & E).
  - left. exists m. split; [exact E|].
    unfold Formatter.format_boost_message, try_except, bind. rewrite E. reflexivity.
  - right. exists e. split; [exact E|].
    unfold Formatter.format_boost_message, try_except, bind. rewrite E.
    unfold logger, emit, ret. simpl. rewrite <- app_assoc. reflexivity.
Qed.

(** C6.  What [get_token_details] returns is a target-chain pair of the
    answer it was taken from, with the greatest USD liquidity among the
    target-chain pairs of that answer; the token endpoint is asked only
    when the search answer has no target-chain pair; and nothing is returned
    when neither answer has one. *)
Theorem most_liquid_target_pair (a : option string) (s : machine W) :
  exists result s',
    Scanner.get_token_details a s = (Ok result, s') /\
    (forall p, result = Some p ->
       Scanner.on_target_chain p = true /\
       (most_liquid_in p (fst (get_pairs (Scanner.search_url a) (world s))) \/
        (chain_pairs (fst (get_pairs (Scanner.search_url a) (world s))) = [] /\
         most_liquid_in p
           (fst (get_pairs (Scanner.token_url a)
                   (snd (get_pairs (Scanner.search_url a) (world s)))))))) /\
    (Get (Scanner.token_url a) ∈ events_since s s' ->
     chain_pairs (fst (get_pairs (Scanner.search_url a) (world s))) = []) /\
    (chain_pairs (fst (get_pairs (Scanner.search_url a) (world s))) = [] ->
     chain_pairs (fst (get_pairs (Scanner.token_url a)
                         (snd (get_pairs (Scanner.search_url a) (world s))))) = [] ->
     result = None).
Proof.
  destruct (get_token_details_spec a s) as (result & w' & evs & E & Hcase).
  rewrite E. do 2 eexists. split; [reflexivity|].
  unfold events_since. simpl. rewrite drop_app_length.
  assert (Hchain : forall p r, most_liquid_in p r -> Scanner.on_target_chain p = true).
  { intros p r [Hin _]. unfold chain_pairs in Hin.
    apply list_elem_of_In, filter_In in Hin. tauto. }
  assert (Hurl : Get (Scanner.token_url a) <> Get (Scanner.search_url a)).
  { intros Hu. apply (search_url_not_token_url a). congruence. }
  destruct Hcase as [(-> & _ & p & -> & Hp)
                    |[(Hb & _ & -> & e & ->)
                    |[(_ & -> & e & ->)|(Hnone & _ & _ & Hc)]]].
  - split; [|split].
    + intros q Hq. injection Hq as <-. split; [now apply (Hchain _ _ Hp) | now left].
    + intros Hin. apply list_elem_of_singleton in Hin. contradiction.
    + intros Hn _. destruct Hp as [Hin _]. rewrite Hn in Hin. inversion Hin.
  - split; [discriminate|]. split; [|reflexivity].
    intros Hin. now apply lookup_breaks_no_pairs.
  - split; [discriminate|]. split; [|reflexivity].
    intros Hin. apply elem_of_cons in Hin as [Hin|Hin]; [contradiction|].
    apply list_elem_of_singleton in Hin. discriminate.
  - split; [|split; [intros _; exact Hnone|]].
    + intros q Hq. destruct Hc as [(_ & p & -> & Hp)|[(_ & -> & _)|(-> & _)]];
        try discriminate.
      injection Hq as <-. split; [now apply (Hchain _ _ Hp) | right; now split].
    + intros _ Hn2.
      destruct Hc as [(_ & p & -> & Hp)|[(_ & -> & _)|(-> & _)]]; try reflexivity.
      destruct Hp as [Hin _]. rewrite Hn2 in Hin. inversion Hin.
Qed.

(** C7, as amended.  [get_boosted_tokens] always returns, and returns
    the empty list when the request fails in transport, by a 4xx or 5xx
    status or by a body that does not parse.  [get_token_details] always
    returns, and returns nothing when the search request fails in transport
    or by a body that does not parse, and when the search endpoint answers
    with a status other than 200 and the token endpoint fails in one of the
    three ways.  [format_boost_message] always returns, and returns nothing
    when its [try] block raises. *)
Theorem errors_degrade (a : option string) (b : boost) (td : option pair) (s : machine W) :
  (exists out s',
     Scanner.get_boosted_tokens s = (Ok out, s') /\
     (feed_fails (world s) -> out = [])) /\
  (exists result s',
     Scanner.get_token_details a s = (Ok result, s') /\
     (lookup_breaks (fst (get_pairs (Scanner.search_url a) (world s))) -> result = None) /\
     (status_not_200 (fst (get_pairs (Scanner.search_url a) (world s))) ->
      lookup_breaks (fst (get_pairs (Scanner.token_url a)
                            (snd (get_pairs (Scanner.search_url a) (world s))))) \/
      status_not_200 (fst (get_pairs (Scanner.token_url a)
                             (snd (get_pairs (Scanner.search_url a) (world s))))) ->
      result = None)) /\
  (exists result s',
     Formatter.format_boost_message b td s = (Ok result, s') /\
     (forall e, fst (Formatter.message_body b td s) = Raise e -> result = None)).
Proof.
  split; [|split].
  - destruct (get_boosted_tokens_returns s) as (out & seen' & lvl & msg & E & _).
    rewrite E. do 2 eexists. split; [reflexivity|].
    intros Hf. destruct (get_boosted_tokens_fails s Hf) as (e & E').
    rewrite E' in E. now injection E.
  - destruct (get_token_details_spec a s) as (result & w' & evs & E & Hcase).
    rewrite E. do 2 eexists. split; [reflexivity|].
    destruct Hcase as [(_ & _ & p & -> & [Hin _])
                      |[(_ & _ & -> & _)|[(_ & -> & _)|(_ & Hnb & _ & Hc)]]];
      try (split; intros; reflexivity).
    + split.
      * intros Hb. apply lookup_breaks_no_pairs in Hb. rewrite Hb in Hin. inversion Hin.
      * intros Hs _. apply status_not_200_no_pairs in Hs. rewrite Hs in Hin. inversion Hin.
    + split; [intros Hb; contradiction|].
      intros _ H2.
      destruct Hc as [(_ & p & -> & [Hin _])|[(_ & -> & _)|(-> & _)]]; try reflexivity.
      destruct H2 as [H2|H2];
        [apply lookup_breaks_no_pairs in H2 | apply status_not_200_no_pairs in H2];
        rewrite H2 in Hin; inversion Hin.
  - destruct (format_boost_message_spec b td s) as [(m & Eb & E)|(e & Eb & E)];
      rewrite E; do 2 eexists; (split; [reflexivity|]); intros e'; rewrite Eb; simpl;
      [discriminate | reflexivity].
Qed.

End Degradation.

(** An instance of C6: of the three pairs of [search_world] the more
    liquid of the two target-chain pairs is returned. *)
Lemma most_liquid_target_pair_witness :
  exists s',
    Scanner.get_token_details (Some "AAA") (Bot.init search_world) = (Ok (Some pair_deep), s') /\
    Scanner.on_target_chain pair_deep = true /\
    most_liquid_in pair_deep (search_answer search_world).
Proof.
  destruct (most_liquid_target_pair (Some "AAA") (Bot.init search_world))
    as (result & s' & E & Hsome & _ & _).
  assert (Hr : result = Some pair_deep).
  { vm_compute in E. now injection E as <- _. }
  subst result. exists s'. split; [exact E|].
  destruct (Hsome pair_deep eq_refl) as [Hc [Hm|[Hn _]]].
  - split; [exact Hc | exact Hm].
  - vm_compute in Hn. discriminate Hn.
Defined.

(** The counterexample to C7 as stated: the search endpoint answers 500
    and [get_token_details] returns the pair of the token endpoint; the feed
    answers 302 with a list and [get_boosted_tokens] returns its record. *)
Lemma errors_degrade_counterexample :
  status_not_200 (fst (get_pairs (Scanner.search_url (Some "AAA")) fallback_world)) /\
  fst (Scanner.get_token_details (Some "AAA") (Bot.init fallback_world)) = Ok (Some pair_deep) /\
  fst (get_feed BOOST_API_URL redirect_world) = Response 302 (Some (FeedList [boost_a])) /\
  fst (Scanner.get_boosted_tokens (Bot.init redirect_world)) = Ok [boost_a].
Proof.
  split; [vm_compute; discriminate|]. split; [reflexivity|]. split; reflexivity.
Qed.

(** An instance of C7: in [down_world] the feed answers 503, the search
    endpoint does not answer, and the price of [pair_no_price] is no
    number. *)
Lemma errors_degrade_witness :
  fst (Scanner.get_boosted_tokens (Bot.init down_world)) = Ok [] /\
  fst (Scanner.get_token_details (Some "AAA") (Bot.init down_world)) = Ok None /\
  fst (Formatter.format_boost_message boost_a (Some pair_no_price) (Bot.init down_world))
    = Ok None.
Proof.
  destruct (errors_degrade (Some "AAA") boost_a (Some pair_no_price) (Bot.init down_world))
    as ((out & s1 & E1 & H1) & (result & s2 & E2 & H2 & _) & (m & s3 & E3 & H3)).
  rewrite E1, E2, E3. simpl. split; [|split]; f_equal.
  - apply H1. vm_compute. left. reflexivity.
  - apply H2. vm_compute. exact I.
  - apply (H3 ValueError). reflexivity.
Defined.

(** ** Prices *)

(** The float literals of the formatter and of the examples are the
    doubles nearest to their decimal texts. *)
Lemma literals_are_doubles :
  nearest_double Formatter.lit_0_001 (1 # 1000) = true /\
  nearest_double Formatter.lit_0_000001 (1 # 1000000) = true /\
  nearest_double lit_1234_56789 (123456789 # 100000) = true /\
  nearest_double lit_0_123456789 (123456789 # 1000000000) = true /\
  nearest_double lit_1_234e_07 (1234 # 10000000000) = true.
Proof. vm_compute. repeat split. Qed.

Section Prices.
Context {PF : PyFloat}.

(** The subscript form is produced only when the text after ["e-"] reads
    as an integer below -6: the exponent that [str] shows is negated, so
    for a text such as ["1.234e-07"] it is not above 6. *)
Lemma subscript_form_rare x :
  Formatter.subscript_form x = None \/
  exists n, Py.int_of_str (Py.split_last "e-" (float_str x)) = Some n /\ n < -6.
Proof.
  unfold Formatter.subscript_form.
  destruct (Py.contains "e-" (float_str x)); [|now left].
  destruct (Py.int_of_str (Py.split_last "e-" (float_str x))) as [n|]; [|now left].
  simpl. destruct (Z.gtb_spec (- n) 6); [|now left].
  right. exists n. split; [reflexivity | lia].
Qed.

(** C3, as amended.  [format_price(0)] is ["$0.00"];
    [format_price(1234.56789)] is ["$1234.5679"] and
    [format_price(0.123456789)] is ["$0.123457"], rounded to the nearest at
    4 and at 6 decimals and trimmed; [format_price(0.0000001234)], whose
    [str] is ["1.234e-07"], takes the branch of the values below 0.001 and
    is ["$0.00000012"]. *)
Theorem format_price_tiers :
  float_str lit_1_234e_07 = "1.234e-07" ->
  Formatter.format_price 0 = "$0.00" /\
  Formatter.format_price lit_1234_56789 = "$1234.5679" /\
  Formatter.format_price lit_0_123456789 = "$0.123457" /\
  Qeq_bool lit_1_234e_07 0 = false /\
  Qltb lit_1_234e_07 Formatter.lit_0_001 = true /\
  Formatter.format_price lit_1_234e_07 = "$0.00000012".
Proof.
  intros Hstr. do 5 (split; [vm_compute; reflexivity|]).
  unfold Formatter.format_price, Formatter.subscript_form.
  rewrite Hstr. vm_compute. reflexivity.
Qed.

End Prices.

(** An instance of C3, with the float operations of [float_table]. *)
Lemma format_price_tiers_witness :
  Formatter.format_price 0 = "$0.00" /\
  Formatter.format_price lit_1234_56789 = "$1234.5679" /\
  Formatter.format_price lit_0_123456789 = "$0.123457" /\
  Qeq_bool lit_1_234e_07 0 = false /\
  Qltb lit_1_234e_07 Formatter.lit_0_001 = true /\
  Formatter.format_price lit_1_234e_07 = "$0.00000012".
Proof. apply (format_price_tiers (PF := float_table)). reflexivity. Defined.

(** The counterexample to C3 as stated: the two prices are rounded, not
    cut. *)
Lemma format_price_tiers_counterexample :
  Formatter.format_price lit_1234_56789 <> "$1234.5678" /\
  Formatter.format_price lit_0_123456789 <> "$0.123456".
Proof. split; vm_compute; discriminate. Qed.

(** ** One boost *)

Section OneBoost.
Context {PF : PyFloat} {TP : Template} {W : Type} {WW : World W}.

Lemma send_alert_spec text (s : machine W) :
  Bot.send_alert text s =
    (Ok (fst (send_message text (world s))),
     Machine (seen_boost_ids s) (boost_stats s) (snd (send_message text (world s)))
       (trace s ++ Send text (fst (send_message text (world s))) ::
          if fst (send_message text (world s)) then []
          else [Log ERROR (FailedToSend TelegramError)])).
Proof.
  unfold Bot.send_alert, try_except, bind, bot_send_message, logger, emit, ret.
  destruct (send_message text (world s)) as [[|] w']; simpl; [reflexivity|].
  rewrite <- app_assoc. reflexivity.
Qed.

(** The ways of [process_boost].  It always returns; the cache is kept;
    the trace grows by the record of the boost, what the lookup and the
    formatter left, and a tail that tells how it ended: no message to send;
    a send that failed; a send that was counted; a send that found no key
    to count under. *)
Lemma process_boost_spec b (s : machine W) :
  exists ok stats' w' evs tail,
    Bot.process_boost b s =
      (Ok ok, Machine (seen_boost_ids s) stats' w'
                (trace s ++ Log INFO (Processing (boost_amount b) (tokenAddress b))
                   :: evs ++ tail)) /\
    Forall preparing evs /\
    ((ok = false /\ stats' = boost_stats s /\
      tail = [Log WARNING (CouldNotFormat (tokenAddress b))] /\
      (message_of b s = Ok None \/ message_of b s = Ok (Some ""))) \/
     (exists text, message_of b s = Ok (Some text) /\ text <> "" /\
        ((ok = false /\ stats' = boost_stats s /\
          tail = [Send text false; Log ERROR (FailedToSend TelegramError)]) \/
         (exists n, boost_stats s !! boost_amount b = Some n /\ ok = true /\
                    stats' = <[boost_amount b := S n]> (boost_stats s) /\
                    tail = [Send text true; Log INFO (AlertSent (boost_amount b))]) \/
         (boost_stats s !! boost_amount b = None /\ ok = false /\
          stats' = boost_stats s /\
          tail = [Send text true; Log ERROR (ErrorProcessing KeyError)])))).
Proof.
  unfold message_of, details_of.
  unfold Bot.process_boost, try_except. unfold bind at 1. unfold logger at 1, emit. simpl.
  fold (boost_amount b).
  set (s0 := Machine (seen_boost_ids s) (boost_stats s) (world s)
               (trace s ++ [Log INFO (Processing (boost_amount b) (tokenAddress b))])).
  unfold bind at 1.
  destruct (get_token_details_returns (tokenAddress b) s0) as (td & w1 & evs1 & E1 & Hev1).
  rewrite E1. subst s0. simpl.
  set (s1 := Machine (seen_boost_ids s) (boost_stats s) w1 _).
  unfold bind at 1.
  assert (Hprep1 : Forall preparing evs1).
  { eapply Forall_impl; [exact Hev1|]. intros ev Hev. now left. }
  destruct (format_boost_message_spec b td s1) as [(m & _ & E2)|(e & _ & E2)]; rewrite E2.
  - simpl. destruct m as [|c m'].
    + unfold bind, logger, emit, ret. simpl. subst s1. simpl.
      exists false, (boost_stats s), w1, evs1, [Log WARNING (CouldNotFormat (tokenAddress b))].
      rewrite <- !app_assoc. split; [reflexivity|]. split; [exact Hprep1|].
      left. auto.
    + set (text := String c m').
      unfold bind at 1. rewrite send_alert_spec. subst s1. simpl.
      destruct (send_message text w1) as [[|] w2]; simpl.
      * unfold bind at 1, get_stats. simpl.
        destruct (boost_stats s !! boost_amount b) as [n|] eqn:Hn.
        -- unfold bind, set_stats, logger, emit, ret. simpl.
           exists true, (<[boost_amount b := S n]> (boost_stats s)), w2, evs1,
             [Send text true; Log INFO (AlertSent (boost_amount b))].
           rewrite <- !app_assoc. split; [reflexivity|]. split; [exact Hprep1|].
           right. exists text. split; [reflexivity|]. split; [discriminate|].
           right. left. exists n. auto.
        -- unfold raise, bind, logger, emit, ret. simpl.
           exists false, (boost_stats s), w2, evs1,
             [Send text true; Log ERROR (ErrorProcessing KeyError)].
           rewrite <- !app_assoc. split; [reflexivity|]. split; [exact Hprep1|].
           right. exists text. split; [reflexivity|]. split; [discriminate|].
           right. right. auto.
      * unfold ret.
        exists false, (boost_stats s), w2, evs1,
          [Send text false; Log ERROR (FailedToSend TelegramError)].
        rewrite <- !app_assoc. split; [reflexivity|]. split; [exact Hprep1|].
        right. exists text. split; [reflexivity|]. split; [discriminate|].
        left. auto.
  - simpl. unfold bind, logger, emit, ret. simpl. subst s1. simpl.
    exists false, (boost_stats s), w1,
      (evs1 ++ [Log ERROR (ErrorFormatting e); Log ERROR Traceback]),
      [Log WARNING (CouldNotFormat (tokenAddress b))].
    rewrite <- !app_assoc. split; [reflexivity|]. split.
    + apply Forall_app. split; [exact Hprep1|]. repeat constructor; right; exact I.
    + left. auto.
Qed.

End OneBoost.

(** ** One scan cycle *)

Section ScanCycle.
Context {PF : PyFloat} {TP : Template} {W : Type} {WW : World W}.

Lemma check_boost_criteria_spec b :
  Bot.check_boost_criteria b = true <-> boost_amount b ∈ BOOST_AMOUNTS.
Proof. unfold Bot.check_boost_criteria, boost_amount. apply bool_decide_eq_true. Qed.

Lemma stats_ready_lookup (s : machine W) b :
  stats_ready s -> Bot.check_boost_criteria b = true ->
  is_Some (boost_stats s !! boost_amount b).
Proof.
  unfold stats_ready. rewrite Forall_forall. intros Hr Hc.
  apply Hr. now apply check_boost_criteria_spec.
Qed.

(** Before a send nothing is delivered, no boost is announced and no
    failure of [process_boost] is recorded. *)
Lemma preparing_quiet evs :
  Forall preparing evs ->
  List.filter delivered evs = [] /\
  (forall text d, Send text d ∉ evs) /\
  (forall a t, Log INFO (Processing a t) ∉ evs) /\
  (forall e, Log ERROR (ErrorProcessing e) ∉ evs).
Proof.
  induction 1 as [|ev evs Hev _ (IH1 & IH2 & IH3 & IH4)].
  - repeat split; intros; apply not_elem_of_nil.
  - assert (Hq : delivered ev = false /\ (forall text d, ev <> Send text d) /\
                 (forall a t, ev <> Log INFO (Processing a t)) /\
                 (forall e, ev <> Log ERROR (ErrorProcessing e))).
    { destruct Hev as [Hev|Hev]; destruct ev as [u|t d|n|[| |] []]; simpl in Hev;
        try contradiction; repeat split; intros; discriminate. }
    destruct Hq as (Hd & Hs & Hp & He). simpl. rewrite Hd.
    repeat split; [exact IH1|..]; intros; rewrite elem_of_cons; intros [Heq|Hin].
    + now apply (Hs text d).
    + now apply (IH2 text d).
    + now apply (Hp a t).
    + now apply (IH3 a t).
    + now apply (He e).
    + now apply (IH4 e).
Qed.

(** One turn of the loop of [scan_and_process] on a boost that passed the
    filter. *)
Lemma process_one_spec acc b (s : machine W) :
  Bot.check_boost_criteria b = true -> stats_ready s ->
  exists s' evs,
    Bot.process_one acc b s =
      (Ok (acc + Z.of_nat (length (List.filter delivered evs))), s') /\
    trace s' = trace s ++ evs /\
    seen_boost_ids s' = seen_boost_ids s /\
    stats_ready s' /\
    dom (boost_stats s') = dom (boost_stats s) /\
    (forall a t, Log INFO (Processing a t) ∈ evs -> a ∈ BOOST_AMOUNTS) /\
    (forall e, Log ERROR (ErrorProcessing e) ∉ evs).
Proof.
  intros Hc Hr.
  destruct (process_boost_spec b s) as (ok & stats' & w' & evs & tail & E & Hprep & Hcase).
  destruct (preparing_quiet evs Hprep) as (Hq1 & Hq2 & Hq3 & Hq4).
  destruct (stats_ready_lookup s b Hr Hc) as [n Hn].
  assert (Hamount : boost_amount b ∈ BOOST_AMOUNTS) by now apply check_boost_criteria_spec.
  unfold Bot.process_one, bind at 1. rewrite E.
  destruct Hcase as [(-> & -> & -> & _)
                    |(text & _ & _ & [(-> & -> & ->)
                                     |[(n' & Hn' & -> & -> & ->)|(Hnone & _)]])].
  - unfold ret. eexists.
    exists (Log INFO (Processing (boost_amount b) (tokenAddress b))
              :: evs ++ [Log WARNING (CouldNotFormat (tokenAddress b))]).
    split; [simpl; rewrite List.filter_app, Hq1; simpl; rewrite Z.add_0_r; reflexivity|].
    split; [reflexivity|].
    { simpl. repeat split; auto.
      - intros a t Hin. apply elem_of_cons in Hin as [Hin|Hin]; [congruence|].
        apply elem_of_app in Hin as [Hin|Hin]; [now apply Hq3 in Hin|].
        apply list_elem_of_singleton in Hin. discriminate.
      - intros e Hin. apply elem_of_cons in Hin as [Hin|Hin]; [discriminate|].
        apply elem_of_app in Hin as [Hin|Hin]; [now apply Hq4 in Hin|].
        apply list_elem_of_singleton in Hin. discriminate. }
  - unfold ret. eexists.
    exists (Log INFO (Processing (boost_amount b) (tokenAddress b))
              :: evs ++ [Send text false; Log ERROR (FailedToSend TelegramError)]).
    split; [simpl; rewrite List.filter_app, Hq1; simpl; rewrite Z.add_0_r; reflexivity|].
    split; [reflexivity|].
    { simpl. repeat split; auto.
      - intros a t Hin. apply elem_of_cons in Hin as [Hin|Hin]; [congruence|].
        apply elem_of_app in Hin as [Hin|Hin]; [now apply Hq3 in Hin|].
        apply elem_of_cons in Hin as [Hin|Hin]; [discriminate|].
        apply list_elem_of_singleton in Hin. discriminate.
      - intros e Hin. apply elem_of_cons in Hin as [Hin|Hin]; [discriminate|].
        apply elem_of_app in Hin as [Hin|Hin]; [now apply Hq4 in Hin|].
        apply elem_of_cons in Hin as [Hin|Hin]; [discriminate|].
        apply list_elem_of_singleton in Hin. discriminate. }
  - unfold bind, asyncio_sleep, emit, ret. simpl.
    exists (Machine (seen_boost_ids s) (<[boost_amount b := S n']> (boost_stats s)) w'
              (trace s ++
                 (Log INFO (Processing (boost_amount b) (tokenAddress b))
                    :: evs ++ [Send text true; Log INFO (AlertSent (boost_amount b))])
                 ++ [Sleep 1])).
    exists ((Log INFO (Processing (boost_amount b) (tokenAddress b))
               :: evs ++ [Send text true; Log INFO (AlertSent (boost_amount b))])
              ++ [Sleep 1]).
    split; [f_equal; [|now rewrite <- app_assoc];
            simpl; rewrite !List.filter_app, Hq1; simpl; reflexivity|].
    split; [reflexivity|].
    simpl. repeat split.
    { unfold stats_ready in *. simpl. eapply Forall_impl; [exact Hr|].
      intros a Ha. apply lookup_insert_is_Some'. now right. }
    { apply dom_insert_lookup_L. eauto. }
    { intros a t Hin. apply elem_of_cons in Hin as [Hin|Hin]; [congruence|].
      apply elem_of_app in Hin as [Hin|Hin].
      - apply elem_of_app in Hin as [Hin|Hin]; [now apply Hq3 in Hin|].
        apply elem_of_cons in Hin as [Hin|Hin]; [discriminate|].
        apply list_elem_of_singleton in Hin. discriminate.
      - apply list_elem_of_singleton in Hin. discriminate. }
    { intros e Hin. apply elem_of_cons in Hin as [Hin|Hin]; [discriminate|].
      apply elem_of_app in Hin as [Hin|Hin].
      - apply elem_of_app in Hin as [Hin|Hin]; [now apply Hq4 in Hin|].
        apply elem_of_cons in Hin as [Hin|Hin]; [discriminate|].
        apply list_elem_of_singleton in Hin. discriminate.
      - apply list_elem_of_singleton in Hin. discriminate. }
  - congruence.
Qed.

(** The loop of [scan_and_process] on boosts that passed the filter. *)
Lemma process_loop_spec l : forall acc (s : machine W),
  List.Forall (fun b => Bot.check_boost_criteria b = true) l -> stats_ready s ->
  exists s' evs,
    for_each Bot.process_one acc l s =
      (Ok (acc + Z.of_nat (length (List.filter delivered evs))), s') /\
    trace s' = trace s ++ evs /\
    seen_boost_ids s' = seen_boost_ids s /\
    stats_ready s' /\
    dom (boost_stats s') = dom (boost_stats s) /\
    (forall a t, Log INFO (Processing a t) ∈ evs -> a ∈ BOOST_AMOUNTS) /\
    (forall e, Log ERROR (ErrorProcessing e) ∉ evs).
Proof.
  induction l as [|b r IH]; intros acc s Hall Hr.
  - exists s, []. simpl. unfold ret. rewrite Z.add_0_r, app_nil_r.
    repeat split; auto.
    + intros a t Hin. now apply not_elem_of_nil in Hin.
    + intros e. apply not_elem_of_nil.
  - apply List.Forall_cons_iff in Hall as [Hb Hall].
    destruct (process_one_spec acc b s Hb Hr) as (s1 & evs1 & E1 & T1 & S1 & R1 & D1 & P1 & X1).
    simpl. unfold bind. rewrite E1.
    destruct (IH (acc + Z.of_nat (length (List.filter delivered evs1))) s1 Hall R1)
      as (s2 & evs2 & E2 & T2 & S2 & R2 & D2 & P2 & X2).
    rewrite E2. exists s2, (evs1 ++ evs2). split; [|split; [|split; [|split; [|split; [|split]]]]].
    + f_equal. f_equal. rewrite List.filter_app, length_app. lia.
    + rewrite T2, T1. now rewrite app_assoc.
    + congruence.
    + exact R2.
    + congruence.
    + intros a t Hin. apply elem_of_app in Hin as [Hin|Hin]; eauto.
    + intros e Hin. apply elem_of_app in Hin as [Hin|Hin]; [now apply X1 in Hin | now apply X2 in Hin].
Qed.


(** [scan_and_process] from line 174 on. *)
Lemma process_new_boosts_spec boosts (s : machine W) :
  stats_ready s ->
  exists s' evs,
    Bot.process_new_boosts boosts s =
      (Ok (Z.of_nat (length (List.filter delivered evs))), s') /\
    trace s' = trace s ++ evs /\
    seen_boost_ids s' = seen_boost_ids s /\
    stats_ready s' /\
    dom (boost_stats s') = dom (boost_stats s) /\
    (forall a t, Log INFO (Processing a t) ∈ evs -> a ∈ BOOST_AMOUNTS) /\
    (forall e, Log ERROR (ErrorProcessing e) ∉ evs).
Proof.
  intros Hr. unfold Bot.process_new_boosts.
  assert (Hone : forall msg,
            (forall a t, msg <> Processing a t) -> (forall e, msg <> ErrorProcessing e) ->
            exists s' evs,
              (logger INFO msg ;;; ret 0) s =
                (Ok (Z.of_nat (length (List.filter delivered evs))), s') /\
              trace s' = trace s ++ evs /\
              seen_boost_ids s' = seen_boost_ids s /\
              stats_ready s' /\
              dom (boost_stats s') = dom (boost_stats s) /\
              (forall a t, Log INFO (Processing a t) ∈ evs -> a ∈ BOOST_AMOUNTS) /\
              (forall e, Log ERROR (ErrorProcessing e) ∉ evs)).
  { intros msg Hp He. unfold bind, logger, emit, ret. simpl.
    eexists. exists [Log INFO msg]. split; [reflexivity|]. simpl.
    repeat split; auto.
    - intros a t Hin. apply list_elem_of_singleton in Hin. injection Hin as Hin.
      symmetry in Hin. now apply Hp in Hin.
    - intros e Hin. apply list_elem_of_singleton in Hin. discriminate. }
  destruct boosts as [|b0 r]; [apply Hone; discriminate|].
  set (boosts := b0 :: r).
  destruct (List.filter Bot.check_boost_criteria boosts) as [|t0 tr] eqn:Hf;
    [apply Hone; discriminate|].
  unfold bind at 1, logger, emit. cbv beta iota.
  set (s1 := Machine _ _ _ _).
  assert (Hall : List.Forall (fun b => Bot.check_boost_criteria b = true) (t0 :: tr)).
  { rewrite <- Hf. apply List.Forall_forall. intros b Hb. now apply filter_In in Hb. }
  destruct (process_loop_spec (t0 :: tr) 0 s1 Hall Hr)
    as (s2 & evs & E & T & S & R & D & P & X).
  rewrite E. exists s2, (Log INFO (FoundMatching (length (t0 :: tr))) :: evs).
  split; [reflexivity|]. split; [rewrite T; subst s1; simpl; now rewrite <- app_assoc|].
  repeat split; auto.
  - intros a t Hin. apply elem_of_cons in Hin as [Hin|Hin]; [discriminate | eauto].
  - intros e Hin. apply elem_of_cons in Hin as [Hin|Hin]; [discriminate | now apply X in Hin].
Qed.

Lemma scan_and_process_spec (s : machine W) :
  stats_ready s ->
  exists s' evs,
    Bot.scan_and_process s =
      (Ok (Z.of_nat (length (List.filter delivered evs))), s') /\
    trace s' = trace s ++ evs /\
    stats_ready s' /\
    dom (boost_stats s') = dom (boost_stats s) /\
    (forall a t, Log INFO (Processing a t) ∈ evs -> a ∈ BOOST_AMOUNTS) /\
    (forall e, Log ERROR (ErrorProcessing e) ∉ evs).
Proof.
  intros Hr. unfold Bot.scan_and_process, bind at 1, logger, emit. simpl.
  set (s0 := Machine _ _ _ _). unfold bind.
  destruct (get_boosted_tokens_returns s0) as (out & seen' & lvl & msg & E & _ & Hp & He).
  rewrite E. set (s1 := Machine seen' _ _ _).
  destruct (process_new_boosts_spec out s1 Hr) as (s2 & evs & E2 & T & _ & R & D & P & X).
  rewrite E2. exists s2, (Log INFO Scanning :: Get BOOST_API_URL :: Log lvl msg :: evs).
  split; [reflexivity|].
  split; [rewrite T; subst s1 s0; simpl; rewrite <- !app_assoc; reflexivity|].
  repeat split; auto.
  - intros a t Hin. apply elem_of_cons in Hin as [Hin|Hin]; [discriminate|].
    apply elem_of_cons in Hin as [Hin|Hin]; [discriminate|].
    apply elem_of_cons in Hin as [Hin|Hin]; [|eauto].
    injection Hin as _ Hin. symmetry in Hin. now apply Hp in Hin.
  - intros e Hin. apply elem_of_cons in Hin as [Hin|Hin]; [discriminate|].
    apply elem_of_cons in Hin as [Hin|Hin]; [discriminate|].
    apply elem_of_cons in Hin as [Hin|Hin]; [|now apply X in Hin].
    injection Hin as _ Hin. symmetry in Hin. now apply He in Hin.
Qed.

Lemma events_since_app (s s' : machine W) evs :
  trace s' = trace s ++ evs -> events_since s s' = evs.
Proof. unfold events_since. intros ->. apply drop_app_length. Qed.

End ScanCycle.

(** ** Statistics, the amount filter and the key of the increment *)

Section BotClaims.
Context {PF : PyFloat} {TP : Template} {W : Type} {WW : World W}.

(** No event of the kind of [H] is in the list [H] says it is in. *)
Ltac tail_cases H :=
  repeat (apply elem_of_cons in H as [H|H]; [discriminate H|]);
  now apply elem_of_nil in H.

(** C5, as amended.  For a boost that passed the filter,
    [boost_stats[amount]] goes up by exactly 1 when a send succeeds,
    whether or not the token lookup found a pair, and the statistics are
    left as they are when no send succeeds: when formatting returns nothing
    (then nothing is sent) and when the send fails.  What
    [scan_and_process] returns is the number of messages delivered in the
    cycle. *)
Theorem stats_follow_delivery (b : boost) (s : machine W) :
  stats_ready s ->
  Bot.check_boost_criteria b = true ->
  (exists ok s' n,
     Bot.process_boost b s = (Ok ok, s') /\
     boost_stats s !! boost_amount b = Some n /\
     ((exists text, Send text true ∈ events_since s s') ->
      ok = true /\ boost_stats s' = <[boost_amount b := S n]> (boost_stats s)) /\
     ((forall text, Send text true ∉ events_since s s') ->
      ok = false /\ boost_stats s' = boost_stats s) /\
     (forall text, Send text false ∈ events_since s s' ->
      ok = false /\ boost_stats s' = boost_stats s) /\
     (message_of b s = Ok None ->
      (forall text d, Send text d ∉ events_since s s') /\
      ok = false /\ boost_stats s' = boost_stats s)) /\
  (exists n s',
     Bot.scan_and_process s = (Ok n, s') /\
     n = Z.of_nat (length (List.filter delivered (events_since s s')))).
Proof.
  intros Hr Hc. split.
  - destruct (process_boost_spec b s) as (ok & stats' & w' & evs & tail & E & Hprep & Hcase).
    destruct (preparing_quiet evs Hprep) as (_ & Hq & _ & _).
    destruct (stats_ready_lookup s b Hr Hc) as [n Hn].
    rewrite E. do 2 eexists. exists n. split; [reflexivity|]. split; [exact Hn|].
    unfold events_since. simpl. rewrite drop_app_length.
    assert (Hin : forall text d,
               Send text d ∈ Log INFO (Processing (boost_amount b) (tokenAddress b))
                               :: evs ++ tail ->
               Send text d ∈ tail).
    { intros text d Hin. apply elem_of_cons in Hin as [Hin|Hin]; [discriminate|].
      apply elem_of_app in Hin as [Hin|Hin]; [now apply Hq in Hin | exact Hin]. }
    assert (Htail : forall ev, ev ∈ tail ->
               ev ∈ Log INFO (Processing (boost_amount b) (tokenAddress b)) :: evs ++ tail).
    { intros ev Hev. right. apply elem_of_app. now right. }
    destruct Hcase as [(-> & -> & -> & Hm)
                      |(text & Hm & Hne & [(-> & -> & ->)
                                          |[(n' & Hn' & -> & -> & ->)|(Hnone & _)]])].
    + split; [|split; [|split]].
      * intros [t Ht]. apply Hin in Ht. tail_cases Ht.
      * intros _. split; reflexivity.
      * intros t Ht. apply Hin in Ht. tail_cases Ht.
      * intros _. split; [|split; reflexivity].
        intros t d Ht. apply Hin in Ht. tail_cases Ht.
    + split; [|split; [|split]].
      * intros [t Ht]. apply Hin in Ht. tail_cases Ht.
      * intros _. split; reflexivity.
      * intros t Ht. split; reflexivity.
      * intros Hnone. rewrite Hm in Hnone. discriminate.
    + assert (n' = n) by congruence. subst n'. split; [|split; [|split]].
      * intros _. split; reflexivity.
      * intros Hno. exfalso. apply (Hno text), Htail. left.
      * intros t Ht. apply Hin in Ht. tail_cases Ht.
      * intros Hnone. rewrite Hm in Hnone. discriminate.
    + congruence.
  - destruct (scan_and_process_spec s Hr) as (s' & evs & E & T & _).
    rewrite E. do 2 eexists. split; [reflexivity|].
    now rewrite (events_since_app s s' evs T).
Qed.


Lemma filter_idem {A} (f : A -> bool) (l : list A) :
  List.filter f (List.filter f l) = List.filter f l.
Proof.
  induction l as [|x r IH]; [reflexivity|]. simpl.
  destruct (f x) eqn:E; [|exact IH]. simpl. rewrite E. now f_equal.
Qed.

Lemma process_new_boosts_none boosts (s : machine W) :
  List.filter Bot.check_boost_criteria boosts = [] ->
  exists msg,
    Bot.process_new_boosts boosts s =
      (Ok 0, Machine (seen_boost_ids s) (boost_stats s) (world s) (trace s ++ [Log INFO msg])) /\
    visible (Log INFO msg) = false.
Proof.
  intros Hf. unfold Bot.process_new_boosts. destruct boosts as [|b0 r].
  - exists NoNewBoosts. split; reflexivity.
  - rewrite Hf. exists NoMatchingBoosts. split; reflexivity.
Qed.

(** C8.  The filter keeps exactly the boosts whose amount is a target
    amount, as they are and in their order.  The boosts it excludes have no
    effect: the rest of the cycle returns the same count and leaves the same
    cache, statistics, world and trace (but for the record that tells an
    empty scan from an empty selection) as it does on the boosts kept alone;
    and when no boost is kept, nothing is looked up, formatted or sent and
    the statistics stay: the cycle returns 0 and only adds one record to the
    log. *)
Theorem amount_filter (boosts : list boost) (s : machine W) :
  (forall b, Bot.check_boost_criteria b = true <-> boost_amount b ∈ BOOST_AMOUNTS) /\
  (forall b, b ∈ List.filter Bot.check_boost_criteria boosts <->
             b ∈ boosts /\ boost_amount b ∈ BOOST_AMOUNTS) /\
  List.filter Bot.check_boost_criteria boosts `sublist_of` boosts /\
  (fst (Bot.process_new_boosts boosts s) =
     fst (Bot.process_new_boosts (List.filter Bot.check_boost_criteria boosts) s) /\
   seen_boost_ids (snd (Bot.process_new_boosts boosts s)) =
     seen_boost_ids (snd (Bot.process_new_boosts
                            (List.filter Bot.check_boost_criteria boosts) s)) /\
   boost_stats (snd (Bot.process_new_boosts boosts s)) =
     boost_stats (snd (Bot.process_new_boosts
                         (List.filter Bot.check_boost_criteria boosts) s)) /\
   world (snd (Bot.process_new_boosts boosts s)) =
     world (snd (Bot.process_new_boosts
                   (List.filter Bot.check_boost_criteria boosts) s)) /\
   List.filter visible (trace (snd (Bot.process_new_boosts boosts s))) =
     List.filter visible
       (trace (snd (Bot.process_new_boosts
                      (List.filter Bot.check_boost_criteria boosts) s)))) /\
  (Forall (fun b => boost_amount b ∉ BOOST_AMOUNTS) boosts ->
   exists msg,
     Bot.process_new_boosts boosts s =
       (Ok 0, Machine (seen_boost_ids s) (boost_stats s) (world s)
                (trace s ++ [Log INFO msg]))) /\
  (Forall (fun b => boost_amount b ∉ BOOST_AMOUNTS)
     (match fst (Scanner.get_boosted_tokens (snd (logger INFO Scanning s))) with
      | Ok out => out
      | Raise _ => []
      end) ->
   fst (Bot.scan_and_process s) = Ok 0 /\
   boost_stats (snd (Bot.scan_and_process s)) = boost_stats s /\
   List.filter external (events_since s (snd (Bot.scan_and_process s)))
     = [Get BOOST_API_URL]).
Proof.
  assert (Hoff : forall l, Forall (fun b => boost_amount b ∉ BOOST_AMOUNTS) l ->
                           List.filter Bot.check_boost_criteria l = []).
  { intros l Hall. induction Hall as [|b r Hb _ IH]; [reflexivity|]. simpl.
    destruct (Bot.check_boost_criteria b) eqn:E; [|exact IH].
    now apply check_boost_criteria_spec in E. }
  split; [apply check_boost_criteria_spec|].
  split; [|split; [apply filter_sublist|split; [|split]]].
  - intros b. rewrite !list_elem_of_In, filter_In.
    pose proof (check_boost_criteria_spec b) as Hb. rewrite list_elem_of_In in Hb. tauto.
  - destruct (List.filter Bot.check_boost_criteria boosts) as [|t0 tr] eqn:Hf.
    + destruct (process_new_boosts_none boosts s Hf) as (msg & -> & Hv).
      destruct (process_new_boosts_none [] s eq_refl) as (msg' & -> & Hv').
      cbn [fst snd seen_boost_ids boost_stats world trace].
      rewrite !List.filter_app. cbn [List.filter]. rewrite Hv, Hv'. auto.
    + assert (Hid : List.filter Bot.check_boost_criteria (t0 :: tr) = t0 :: tr)
        by (rewrite <- Hf; apply filter_idem).
      assert (Hsame : Bot.process_new_boosts boosts s = Bot.process_new_boosts (t0 :: tr) s).
      { unfold Bot.process_new_boosts. destruct boosts as [|b0 r]; [discriminate|].
        rewrite Hf, Hid. reflexivity. }
      rewrite Hsame. auto.
  - intros Hall. destruct (process_new_boosts_none boosts s (Hoff _ Hall)) as (msg & E & _).
    eauto.
  - set (s0 := snd (logger INFO Scanning s)).
    assert (Hscan : Bot.scan_and_process s =
                      match Scanner.get_boosted_tokens s0 with
                      | (Ok out, s1) => Bot.process_new_boosts out s1
                      | (Raise e, s1) => (Raise e, s1)
                      end) by reflexivity.
    rewrite Hscan.
    destruct (get_boosted_tokens_returns s0) as (out & seen' & lvl & msg & E & _).
    rewrite E. cbn [fst]. intros Hall.
    destruct (process_new_boosts_none out (Machine seen' (boost_stats s0)
                (snd (get_feed BOOST_API_URL (world s0)))
                (trace s0 ++ [Get BOOST_API_URL; Log lvl msg])) (Hoff _ Hall))
      as (msg' & -> & _).
    cbn [fst snd boost_stats trace]. split; [reflexivity|]. split; [reflexivity|].
    unfold events_since. subst s0. unfold logger, emit. cbn [snd trace].
    rewrite <- !app_assoc. rewrite drop_app_length. reflexivity.
Qed.

(** C10.  The statistics of a new bot have exactly the target amounts as
    keys.  In a cycle that starts with every target amount a key, every
    boost that reaches [process_boost] has a target amount, which is a key;
    no exception is caught in [process_boost], the [KeyError] of the
    increment included; and the keys are the same after the cycle. *)
Theorem increment_finds_key (w : W) (s : machine W) :
  stats_ready s ->
  dom (boost_stats (Bot.init w)) = list_to_set BOOST_AMOUNTS /\
  stats_ready (Bot.init w) /\
  exists n s',
    Bot.scan_and_process s = (Ok n, s') /\
    (forall a t, Log INFO (Processing a t) ∈ events_since s s' ->
                 a ∈ BOOST_AMOUNTS /\ is_Some (boost_stats s !! a)) /\
    (forall e, Log ERROR (ErrorProcessing e) ∉ events_since s s') /\
    stats_ready s' /\
    dom (boost_stats s') = dom (boost_stats s).
Proof.
  intros Hr. split; [reflexivity|]. split.
  { unfold stats_ready. apply (bool_decide_unpack _). vm_compute. exact I. }
  destruct (scan_and_process_spec s Hr) as (s' & evs & E & T & R & D & P & X).
  rewrite E. do 2 eexists. split; [reflexivity|].
  rewrite (events_since_app s s' evs T).
  split; [|split; [exact X | split; [exact R | exact D]]].
  intros a t Hin. split; [now apply (P a t)|].
  unfold stats_ready in Hr. rewrite Forall_forall in Hr. apply Hr. now apply (P a t).
Qed.

End BotClaims.

(** The counterexample to C5 as stated: the lookup finds no pair for
    [boost_a], the alert is sent all the same and counted. *)
Lemma stats_follow_delivery_counterexample :
  fst (details_of boost_a (Bot.init (feed_of [boost_a]))) = Ok None /\
  boost_stats (Bot.init (feed_of [boost_a])) !! 500 = Some 0%nat /\
  fst (Bot.process_boost boost_a (Bot.init (feed_of [boost_a]))) = Ok true /\
  boost_stats (snd (Bot.process_boost boost_a (Bot.init (feed_of [boost_a])))) !! 500
    = Some 1%nat.
Proof. repeat split; vm_compute; reflexivity. Qed.

(** An instance of C5: a new bot, a feed with [boost_a] and a chat that
    takes the message. *)
Lemma stats_follow_delivery_witness :
  exists s',
    Bot.process_boost boost_a (Bot.init (feed_of [boost_a])) = (Ok true, s') /\
    boost_stats s' = <[500 := 1%nat]> (boost_stats (Bot.init (feed_of [boost_a]))) /\
    fst (Bot.scan_and_process (Bot.init (feed_of [boost_a]))) = Ok 1.
Proof.
  destruct (stats_follow_delivery boost_a (Bot.init (feed_of [boost_a])))
    as ((ok & s' & n & E & Hn & Hsent & _) & (m & s2 & E2 & Hm)).
  - apply (bool_decide_unpack _). vm_compute. exact I.
  - reflexivity.
  - assert (Hn0 : n = 0%nat) by (vm_compute in Hn; now injection Hn).
    subst n. destruct Hsent as [-> Hstats].
    + exists "500âš¡ (Total: 1000âš¡) $0.00"%string.
      replace s' with (snd (Bot.process_boost boost_a (Bot.init (feed_of [boost_a]))))
        by now rewrite E.
      apply list_elem_of_In. vm_compute. do 3 right. left. reflexivity.
    + exists s'. split; [exact E|]. split; [exact Hstats|].
      rewrite E2. simpl. f_equal. rewrite Hm.
      replace s2 with (snd (Bot.scan_and_process (Bot.init (feed_of [boost_a]))))
        by now rewrite E2.
      vm_compute. reflexivity.
Defined.

(** An instance of C8: the feed returns only [boost_42], whose amount is
    no target amount. *)
Lemma amount_filter_witness :
  (exists msg,
     Bot.process_new_boosts [boost_42] (Bot.init (feed_of [boost_42])) =
       (Ok 0, Machine (seen_boost_ids (Bot.init (feed_of [boost_42])))
                (boost_stats (Bot.init (feed_of [boost_42])))
                (world (Bot.init (feed_of [boost_42])))
                (trace (Bot.init (feed_of [boost_42])) ++ [Log INFO msg]))) /\
  fst (Bot.scan_and_process (Bot.init (feed_of [boost_42]))) = Ok 0 /\
  boost_stats (snd (Bot.scan_and_process (Bot.init (feed_of [boost_42]))))
    = boost_stats (Bot.init (feed_of [boost_42])) /\
  List.filter external
    (events_since (Bot.init (feed_of [boost_42]))
       (snd (Bot.scan_and_process (Bot.init (feed_of [boost_42])))))
    = [Get BOOST_API_URL].
Proof.
  destruct (amount_filter [boost_42] (Bot.init (feed_of [boost_42])))
    as (_ & _ & _ & _ & Hnone & Hscan).
  split.
  - apply Hnone. apply (bool_decide_unpack _). vm_compute. exact I.
  - apply Hscan. apply (bool_decide_unpack _). vm_compute. exact I.
Defined.

(** An instance of C10: the first cycle of a new bot on a feed with
    [boost_a], whose boost reaches [process_boost]. *)
Lemma increment_finds_key_witness :
  exists n s',
    Bot.scan_and_process (Bot.init (feed_of [boost_a])) = (Ok n, s') /\
    Log INFO (Processing 500 (Some "AAA"))
      ∈ events_since (Bot.init (feed_of [boost_a])) s' /\
    (forall e, Log ERROR (ErrorProcessing e)
                 ∉ events_since (Bot.init (feed_of [boost_a])) s').
Proof.
  destruct (increment_finds_key (feed_of []) (Bot.init (feed_of [boost_a])))
    as (_ & _ & n & s' & E & _ & Hnone & _).
  - apply (bool_decide_unpack _). vm_compute. exact I.
  - exists n, s'. split; [exact E|]. split; [|exact Hnone].
    replace s' with (snd (Bot.scan_and_process (Bot.init (feed_of [boost_a]))))
      by now rewrite E.
    apply list_elem_of_In. vm_compute. do 4 right. left. reflexivity.
Defined.

(** * Further properties *)

(** ** The cache *)

Section CacheProperties.
Context {PF : PyFloat} {W : Type} {WW : World W}.

Lemma cleanup_cache_over max_size (s : machine W) :
  max_size < Z.of_nat (size (seen_boost_ids s)) ->
  Scanner.cleanup_cache max_size s =
    (Ok tt, Machine (cleaned max_size s) (boost_stats s) (world s)
              (trace s ++ [Log INFO (CleanedUpCache (size (cleaned max_size s)))])).
Proof.
  intros Hlt.
  unfold Scanner.cleanup_cache, cleaned, bind, get_seen, get_world, set_seen, logger, emit, ret.
  simpl. destruct (Z.gtb_spec (Z.of_nat (size (seen_boost_ids s))) max_size); [|lia].
  reflexivity.
Qed.

(** X1.  With a bound of at least 1, [cleanup_cache] leaves a cache
    within the bound, and the whole state, as it is; a cache over the bound
    it cuts to exactly [max_size] identifiers, all of them from the cache,
    writes one log record with that size and touches nothing else. *)
Theorem cleanup_cache_positive_bound (max_size : Z) (s : machine W) :
  0 < max_size ->
  (Z.of_nat (size (seen_boost_ids s)) <= max_size ->
   Scanner.cleanup_cache max_size s = (Ok tt, s)) /\
  (max_size < Z.of_nat (size (seen_boost_ids s)) ->
   exists kept,
     Scanner.cleanup_cache max_size s =
       (Ok tt, Machine kept (boost_stats s) (world s)
                 (trace s ++ [Log INFO (CleanedUpCache (Z.to_nat max_size))])) /\
     Z.of_nat (size kept) = max_size /\
     kept ⊆ seen_boost_ids s).
Proof.
  intros Hpos. split; [apply cleanup_cache_within|].
  intros Hlt. exists (cleaned max_size s).
  pose proof (cleanup_cache_exact max_size s (conj Hpos Hlt)) as Hsize.
  pose proof (cleanup_cache_subset max_size s) as Hsub.
  rewrite cleanup_cache_seen in Hsize, Hsub.
  split; [|split; [exact Hsize | exact Hsub]].
  assert (Hn : Z.to_nat max_size = size (cleaned max_size s)) by lia.
  rewrite (cleanup_cache_over max_size s Hlt), Hn. reflexivity.
Qed.

(** X2.  With a bound of at least 1, cleaning twice is cleaning once: the
    second call changes nothing, not even the log. *)
Theorem cleanup_cache_idempotent (max_size : Z) (s : machine W) :
  0 < max_size ->
  Scanner.cleanup_cache max_size (snd (Scanner.cleanup_cache max_size s)) =
    (Ok tt, snd (Scanner.cleanup_cache max_size s)).
Proof.
  intros Hpos. apply cleanup_cache_within.
  destruct (Z_lt_le_dec max_size (Z.of_nat (size (seen_boost_ids s)))) as [Hlt|Hle].
  - rewrite (cleanup_cache_exact max_size s (conj Hpos Hlt)). lia.
  - rewrite (cleanup_cache_within max_size s Hle). exact Hle.
Qed.

(** X3.  A negative bound neither raises nor empties the cache at once:
    [ids_list[-max_size:]] then drops the first [-max_size] identifiers of
    the list, so the cache loses that many identifiers (all of them when it
    has no more). *)
Theorem cleanup_cache_negative_bound (max_size : Z) (s : machine W) :
  max_size < 0 ->
  exists s',
    Scanner.cleanup_cache max_size s = (Ok tt, s') /\
    Z.of_nat (size (seen_boost_ids s')) =
      Z.max 0 (Z.of_nat (size (seen_boost_ids s)) + max_size) /\
    seen_boost_ids s' ⊆ seen_boost_ids s.
Proof.
  intros Hneg.
  assert (Hlt : max_size < Z.of_nat (size (seen_boost_ids s))) by lia.
  rewrite (cleanup_cache_over max_size s Hlt). eexists. split; [reflexivity|]. simpl.
  split.
  - unfold cleaned. destruct (Z.gtb_spec (Z.of_nat (size (seen_boost_ids s))) max_size); [|lia].
    rewrite size_list_to_set.
    2:{ eapply sublist_NoDup; [apply set_to_list_NoDup | apply slice_from_sublist]. }
    unfold Py.slice_from. rewrite length_drop, set_to_list_length.
    destruct (Z.ltb_spec (- max_size) 0); lia.
  - pose proof (cleanup_cache_subset max_size s) as Hsub.
    now rewrite cleanup_cache_seen in Hsub.
Qed.


(** X5.  A body that is an object without the key [boosts], or no list and
    no object at all, is no error: [get_boosted_tokens] returns the empty
    list, leaves the cache as it is and writes a warning, not an error, to
    the log. *)
Theorem unexpected_shape_is_empty (s : machine W) (code : Z) (doc : feed_doc) :
  fst (get_feed BOOST_API_URL (world s)) = Response code (Some doc) ->
  (400 <=? code) && (code <? 600) = false ->
  doc = FeedDict None \/ doc = FeedOther ->
  Scanner.get_boosted_tokens s =
    (Ok [], Machine (seen_boost_ids s) (boost_stats s)
              (snd (get_feed BOOST_API_URL (world s)))
              (trace s ++ [Get BOOST_API_URL; Log WARNING UnexpectedFormat])).
Proof.
  unfold Scanner.get_boosted_tokens, try_except, bind, session_get, raise_for_status,
    response_json, logger, emit, ret, raise; simpl.
  destruct (get_feed BOOST_API_URL (world s)) as [r w']. simpl.
  intros -> Hc Hdoc. simpl. rewrite Hc. simpl.
  destruct Hdoc as [-> | ->]; simpl; rewrite <- app_assoc; reflexivity.
Qed.

End CacheProperties.

(** An instance of X1: a cache of two identifiers cut to one. *)
Lemma cleanup_cache_positive_bound_witness :
  exists kept,
    Scanner.cleanup_cache 1 two_seen =
      (Ok tt, Machine kept (boost_stats two_seen) (world two_seen)
                (trace two_seen ++ [Log INFO (CleanedUpCache 1)])) /\
    Z.of_nat (size kept) = 1 /\
    kept ⊆ seen_boost_ids two_seen.
Proof.
  apply (cleanup_cache_positive_bound 1 two_seen); [lia | vm_compute; reflexivity].
Defined.

(** An instance of X2. *)
Lemma cleanup_cache_idempotent_witness :
  Scanner.cleanup_cache 1 (snd (Scanner.cleanup_cache 1 two_seen)) =
    (Ok tt, snd (Scanner.cleanup_cache 1 two_seen)).
Proof. apply (cleanup_cache_idempotent 1 two_seen). lia. Defined.

(** An instance of X3: the bound -1 takes one of two identifiers. *)
Lemma cleanup_cache_negative_bound_witness :
  exists s',
    Scanner.cleanup_cache (-1) two_seen = (Ok tt, s') /\
    Z.of_nat (size (seen_boost_ids s')) = 1 /\
    seen_boost_ids s' ⊆ seen_boost_ids two_seen.
Proof. apply (cleanup_cache_negative_bound (-1) two_seen). lia. Defined.

(** An instance of X5: the feed answers with a JSON text. *)
Lemma unexpected_shape_is_empty_witness :
  fst (Scanner.get_boosted_tokens (Bot.init odd_world)) = Ok [].
Proof.
  rewrite (unexpected_shape_is_empty (Bot.init odd_world) 200 FeedOther);
    [reflexivity | reflexivity | reflexivity | now right].
Defined.

(** ** Token details *)

Section LookupProperties.
Context {PF : PyFloat} {W : Type} {WW : World W}.

Lemma Qltb_lt x y : Qltb x y = true -> (x < y)%Q.
Proof.
  unfold Qltb. intros E. apply negb_true_iff in E.
  apply Qnot_le_lt. intros Hle. apply Qle_bool_iff in Hle. congruence.
Qed.

(** The sort is stable: the head of the sorted list is the first element
    of the greatest key. *)
Lemma sort_desc_first l : forall h t,
  Scanner.sort_desc l = h :: t ->
  exists pre post, l = pre ++ h :: post /\ forall y, y ∈ pre -> (fst y < fst h)%Q.
Proof.
  induction l as [|kx r IH]; intros h t E; [discriminate|].
  simpl in E. destruct (Scanner.sort_desc r) as [|h' t'] eqn:Hs; simpl in E.
  - injection E as <- <-. exists [], r. split; [reflexivity|].
    intros y Hy. now apply elem_of_nil in Hy.
  - destruct (Qltb (fst kx) (fst h')) eqn:Hlt; injection E as <- <-.
    + destruct (IH h' t' eq_refl) as (pre & post & -> & Hpre).
      exists (kx :: pre), post. split; [reflexivity|].
      intros y Hy. apply elem_of_cons in Hy as [->|Hy]; [now apply Qltb_lt | now apply Hpre].
    + exists [], r. split; [reflexivity|].
      intros y Hy. now apply elem_of_nil in Hy.
Qed.

Lemma sort_by_liquidity_first l p t :
  Scanner.sort_by_liquidity l = Ok (p :: t) ->
  exists pre post,
    l = pre ++ p :: post /\
    forall q, q ∈ pre ->
      exists kq kp, Scanner.liquidity_key q = Ok kq /\
                    Scanner.liquidity_key p = Ok kp /\ (kq < kp)%Q.
Proof.
  unfold Scanner.sort_by_liquidity.
  destruct (Scanner.with_keys l) as [kl|e] eqn:Hk; [|discriminate].
  intros E. injection E as E. destruct (with_keys_ok l kl Hk) as [Hm Hf].
  destruct (Scanner.sort_desc kl) as [|[k p'] t'] eqn:Hs; [discriminate|].
  simpl in E. injection E as -> _.
  destruct (sort_desc_first kl _ _ Hs) as (pre & post & -> & Hpre).
  exists (map snd pre), (map snd post). split.
  - rewrite <- Hm, map_app. reflexivity.
  - intros q Hq. apply list_elem_of_In, in_map_iff in Hq as ([kq q'] & <- & Hin).
    apply list_elem_of_In in Hin. rewrite Forall_forall in Hf.
    exists kq, k. split; [|split].
    + apply (Hf (kq, q')). apply elem_of_app. now left.
    + apply (Hf (k, p)). apply elem_of_app. right. left.
    + now apply (Hpre (kq, q')).
Qed.

(** The block of lines 94-106 returns the first of the most liquid
    target-chain pairs. *)
Lemma most_liquid_pair_first code body (s s' : machine W) p :
  Scanner.most_liquid_pair (code, body) s = (Ok (Some p), s') ->
  exists pre post,
    chain_pairs (Response code body) = pre ++ p :: post /\
    forall q, q ∈ pre ->
      exists kq kp, Scanner.liquidity_key q = Ok kq /\
                    Scanner.liquidity_key p = Ok kp /\ (kq < kp)%Q.
Proof.
  unfold Scanner.most_liquid_pair, chain_pairs, answered_pairs, response_json,
    bind, ret, raise, lift. simpl.
  destruct (Z.eqb_spec code 200) as [->|Hne]; [|discriminate].
  destruct body as [[[| |ps]]|]; simpl; try discriminate.
  destruct ps as [|p0 ps0]; simpl; [discriminate|].
  set (ps := p0 :: ps0).
  change (if Scanner.on_target_chain p0 then p0 :: List.filter Scanner.on_target_chain ps0
          else List.filter Scanner.on_target_chain ps0)
    with (List.filter Scanner.on_target_chain ps).
  destruct (List.filter Scanner.on_target_chain ps) as [|q qs] eqn:Hf; [discriminate|].
  destruct (Scanner.sort_by_liquidity (q :: qs)) as [sorted|e] eqn:Hs; [|discriminate].
  destruct sorted as [|p' t]; [discriminate|].
  intros E. injection E as -> _. now apply (sort_by_liquidity_first _ _ _ Hs).
Qed.

(** A pair returned by [get_token_details] was returned by the block, run
    on the answer of the search endpoint or on that of the token
    endpoint. *)
Lemma get_token_details_source a (s s' : machine W) p :
  Scanner.get_token_details a s = (Ok (Some p), s') ->
  exists code body (s0 s1 : machine W),
    Scanner.most_liquid_pair (code, body) s0 = (Ok (Some p), s1) /\
    (Response code body = fst (get_pairs (Scanner.search_url a) (world s)) \/
     Response code body =
       fst (get_pairs (Scanner.token_url a)
              (snd (get_pairs (Scanner.search_url a) (world s))))).
Proof.
  unfold Scanner.get_token_details, try_except, bind at 1, session_get.
  destruct (get_pairs (Scanner.search_url a) (world s)) as [r1 w1]. simpl.
  destruct r1 as [|code body]; simpl.
  { unfold bind, logger, emit, ret. simpl. discriminate. }
  set (s1 := Machine _ _ w1 _). unfold bind at 1.
  destruct (Scanner.most_liquid_pair (code, body) s1) as [[[q|]|e] s2] eqn:E1.
  - unfold ret. intros E. injection E as -> _. exists code, body, s1, s2. auto.
  - unfold bind at 1, session_get.
    destruct (most_liquid_pair_spec code body s1) as (r & E1' & _).
    rewrite E1 in E1'. injection E1' as _ ->. subst s1. simpl.
    destruct (get_pairs (Scanner.token_url a) w1) as [r2 w2]. simpl.
    destruct r2 as [|code2 body2]; simpl.
    { unfold bind, logger, emit, ret. simpl. discriminate. }
    set (s3 := Machine _ _ w2 _). unfold bind at 1.
    destruct (Scanner.most_liquid_pair (code2, body2) s3) as [[[q|]|e] s4] eqn:E2.
    + unfold ret. intros E. injection E as -> _. exists code2, body2, s3, s4. auto.
    + unfold ret. discriminate.
    + unfold bind, logger, emit, ret. simpl. discriminate.
  - unfold bind, logger, emit, ret. simpl. discriminate.
Qed.

(** X6.  Ties go to the first: the pair [get_token_details] returns
    stands, among the target-chain pairs of the answer it comes from, after
    pairs of strictly less USD liquidity only. *)
Theorem first_of_the_most_liquid (a : option string) (s s' : machine W) (p : pair) :
  Scanner.get_token_details a s = (Ok (Some p), s') ->
  exists r pre post,
    (r = fst (get_pairs (Scanner.search_url a) (world s)) \/
     r = fst (get_pairs (Scanner.token_url a)
                (snd (get_pairs (Scanner.search_url a) (world s))))) /\
    chain_pairs r = pre ++ p :: post /\
    forall q, q ∈ pre ->
      exists kq kp, Scanner.liquidity_key q = Ok kq /\
                    Scanner.liquidity_key p = Ok kp /\ (kq < kp)%Q.
Proof.
  intros E. destruct (get_token_details_source a s s' p E) as (code & body & s0 & s1 & Eb & Hr).
  destruct (most_liquid_pair_first code body s0 s1 p Eb) as (pre & post & Hc & Hpre).
  exists (Response code body), pre, post. auto.
Qed.

End LookupProperties.

(** An instance of X6: of the two most liquid pairs of [tie_world],
    [pair_deep] and [pair_deep_twin], the first is returned. *)
Lemma first_of_the_most_liquid_witness :
  exists r pre post,
    (r = fst (get_pairs (Scanner.search_url (Some "AAA")) (world (Bot.init tie_world))) \/
     r = fst (get_pairs (Scanner.token_url (Some "AAA"))
                (snd (get_pairs (Scanner.search_url (Some "AAA"))
                        (world (Bot.init tie_world)))))) /\
    chain_pairs r = pre ++ pair_deep :: post /\
    forall q, q ∈ pre ->
      exists kq kp, Scanner.liquidity_key q = Ok kq /\
                    Scanner.liquidity_key pair_deep = Ok kp /\ (kq < kp)%Q.
Proof.
  apply (first_of_the_most_liquid (Some "AAA") (Bot.init tie_world)
           (snd (Scanner.get_token_details (Some "AAA") (Bot.init tie_world)))).
  reflexivity.
Defined.

Section LookupEdges.
Context {PF : PyFloat} {W : Type} {WW : World W}.

Lemma with_keys_raises l p :
  p ∈ l -> raises (Scanner.liquidity_key p) -> raises (Scanner.with_keys l).
Proof.
  induction l as [|x r IH]; intros Hp Hr; [now apply elem_of_nil in Hp|].
  simpl. apply elem_of_cons in Hp as [<-|Hp].
  - destruct (Scanner.liquidity_key p); [contradiction | exact I].
  - destruct (Scanner.liquidity_key x); [|exact I].
    specialize (IH Hp Hr). destruct (Scanner.with_keys r); [contradiction | exact I].
Qed.


Lemma most_liquid_pair_raises ps p (s : machine W) :
  p ∈ ps -> Scanner.on_target_chain p = true -> raises (Scanner.liquidity_key p) ->
  exists e, Scanner.most_liquid_pair (200, Some (PairsDoc (Present ps))) s = (Raise e, s).
Proof.
  intros Hp Hc Hr.
  assert (Hin : p ∈ List.filter Scanner.on_target_chain ps).
  { apply list_elem_of_In, filter_In. split; [now apply list_elem_of_In | exact Hc]. }
  unfold Scanner.most_liquid_pair, response_json, bind, ret, raise, lift.
  cbn [fst snd pairs]. change (200 =? 200) with true. cbv beta iota.
  destruct ps as [|p0 ps0]; [now apply elem_of_nil in Hp|].
  change (0 <? length (p0 :: ps0))%nat with true. cbv beta iota.
  destruct (List.filter Scanner.on_target_chain (p0 :: ps0)) as [|q qs] eqn:Hf;
    [now apply elem_of_nil in Hin|].
  unfold Scanner.sort_by_liquidity.
  pose proof (with_keys_raises (q :: qs) p Hin Hr) as Hraise.
  destruct (Scanner.with_keys (q :: qs)) as [kl|e]; [contradiction|]. eauto.
Qed.


(** X7.  An exception in the block that reads the search answer ends the
    lookup: when the search endpoint answers 200 with [pairs: null], or with
    a target-chain pair whose liquidity is no number, [get_token_details]
    returns nothing after that one request and never asks the token
    endpoint, whatever it knows. *)
Theorem broken_search_ends_lookup (a : option string) (s : machine W) :
  (fst (get_pairs (Scanner.search_url a) (world s)) = Response 200 (Some (PairsDoc Null)) \/
   exists ps p,
     fst (get_pairs (Scanner.search_url a) (world s))
       = Response 200 (Some (PairsDoc (Present ps))) /\
     p ∈ ps /\ Scanner.on_target_chain p = true /\ raises (Scanner.liquidity_key p)) ->
  exists e,
    Scanner.get_token_details a s =
      (Ok None, Machine (seen_boost_ids s) (boost_stats s)
                  (snd (get_pairs (Scanner.search_url a) (world s)))
                  (trace s ++ [Get (Scanner.search_url a);
                               Log ERROR (ErrorFetchingDetails a e)])).
Proof.
  unfold Scanner.get_token_details, try_except, bind at 1, session_get.
  destruct (get_pairs (Scanner.search_url a) (world s)) as [r1 w1]. cbn [fst snd].
  intros [->|(ps & p & -> & Hp & Hc & Hr)]; cbv beta iota; cbn [seen_boost_ids boost_stats trace].
  - exists TypeError. unfold bind, logger, emit, ret. simpl. rewrite <- app_assoc. reflexivity.
  - set (s1 := Machine _ _ w1 _). unfold bind at 1.
    destruct (most_liquid_pair_raises ps p s1 Hp Hc Hr) as [e ->].
    exists e. subst s1. unfold bind, logger, emit, ret. simpl.
    rewrite <- app_assoc. reflexivity.
Qed.


(** X9.  A lookup costs one request, or two: [get_token_details] always
    asks the search endpoint first and the token endpoint at most once after
    it; it sends no message and leaves the cache and the statistics as they
    are. *)
Theorem lookup_footprint (a : option string) (s : machine W) :
  exists result s',
    Scanner.get_token_details a s = (Ok result, s') /\
    (List.filter is_get (events_since s s') = [Get (Scanner.search_url a)] \/
     List.filter is_get (events_since s s')
       = [Get (Scanner.search_url a); Get (Scanner.token_url a)]) /\
    List.filter is_send (events_since s s') = [] /\
    seen_boost_ids s' = seen_boost_ids s /\
    boost_stats s' = boost_stats s.
Proof.
  destruct (get_token_details_spec a s) as (result & w' & evs & E & Hcase).
  rewrite E. do 2 eexists. split; [reflexivity|].
  unfold events_since. simpl. rewrite drop_app_length.
  destruct Hcase as [(-> & _)|[(_ & _ & _ & e & ->)|[(_ & _ & e & ->)|(_ & _ & _ & Hc)]]];
    [| | |destruct Hc as [(-> & _)|[(-> & _)|(_ & e & ->)]]]; simpl; auto.
Qed.

End LookupEdges.

(** An instance of X7: in [null_world] the token endpoint knows
    [pair_deep] and is not asked. *)
Lemma broken_search_ends_lookup_witness :
  exists e,
    Scanner.get_token_details (Some "AAA") (Bot.init null_world) =
      (Ok None,
       Machine (seen_boost_ids (Bot.init null_world)) (boost_stats (Bot.init null_world))
         (snd (get_pairs (Scanner.search_url (Some "AAA")) (world (Bot.init null_world))))
         (trace (Bot.init null_world)
            ++ [Get (Scanner.search_url (Some "AAA"));
                Log ERROR (ErrorFetchingDetails (Some "AAA") e)])).
Proof.
  apply (broken_search_ends_lookup (Some "AAA") (Bot.init null_world)).
  left. reflexivity.
Defined.


(** ** Ages *)

Section Ages.
Context {W : Type} {WW : World W}.

Lemma string_of_uint_head (d : Decimal.uint) :
  d <> Decimal.Nil ->
  exists c r, NilEmpty.string_of_uint d = String c r /\ c <> "N"%char /\ c <> "<"%char.
Proof.
  destruct d; [congruence|..]; intros _; simpl; do 2 eexists;
    (split; [reflexivity|]); split; discriminate.
Qed.

(** The text of an integer starts with a digit or with the sign. *)
Lemma str_int_head z :
  exists c r, Py.str_int z = String c r /\ c <> "N"%char /\ c <> "<"%char.
Proof.
  unfold Py.str_int. destruct z as [|p|p]; simpl.
  - do 2 eexists. split; [reflexivity|]. split; discriminate.
  - apply string_of_uint_head. apply DecimalPos.Unsigned.to_uint_nonnil.
  - do 2 eexists. split; [reflexivity|]. split; discriminate.
Qed.

Lemma str_int_app_not z (t : string) : (Py.str_int z ++ t)%string <> "N/A".
Proof.
  destruct (str_int_head z) as (c & r & -> & Hc & _).
  change (String c r ++ t)%string with (String c (r ++ t)%string).
  intros E. injection E as E _. contradiction.
Qed.

(** Within a day, and for a creation time in the future. *)
Lemma format_age_within_day (w : W) (ms days r : Z) :
  ms <> 0 -> timedelta_since ms w = Some (days, r) -> days <= 0 -> 0 <= r < 86400 ->
  Formatter.format_age w (Some ms) =
    if 3600 <=? r
    then (Py.str_int (r / 3600) ++ "h " ++ Py.str_int (r mod 3600 / 60) ++ "m")%string
    else if 60 <=? r then (Py.str_int (r / 60) ++ "m")%string
    else "<1m".
Proof.
  intros Hms Htd Hd Hr. unfold Formatter.format_age. rewrite Htd.
  destruct ms as [|p|p]; [congruence|..].
  all: destruct (Z.gtb_spec days 0); [lia|].
  all: destruct (Z.leb_spec 3600 r);
    [assert (Hh : 0 < r / 3600) by (apply Z.div_str_pos; lia);
     destruct (Z.gtb_spec (r / 3600) 0); [reflexivity | lia]|].
  all: assert (Hh : r / 3600 = 0) by (apply Z.div_small; lia).
  all: assert (Hm3 : r mod 3600 = r) by (apply Z.mod_small; lia).
  all: rewrite Hh, Hm3; change (0 >? 0) with false; cbv beta iota.
  all: destruct (Z.leb_spec 60 r);
    [assert (Hmin : 0 < r / 60) by (apply Z.div_str_pos; lia);
     destruct (Z.gtb_spec (r / 60) 0); [reflexivity | lia]|].
  all: assert (Hmin : r / 60 = 0) by (apply Z.div_small; lia).
  all: rewrite Hmin; reflexivity.
Qed.

(** X10.  The age shown, by the seconds [t] between the creation of the
    pair and now, for the [(days, seconds)] that [timedelta] keeps of them:
    days and hours from a day on, hours and minutes from an hour on, minutes
    from a minute on, ["<1m"] below.  A creation time in the future gives no
    negative text: [days] is negative, so the hours and minutes of
    [t mod 86400] are shown. *)
Theorem format_age_by_seconds (w : W) (ms t : Z) :
  ms <> 0 ->
  timedelta_since ms w = Some (t / 86400, t mod 86400) ->
  (86400 <= t ->
   Formatter.format_age w (Some ms) =
     (Py.str_int (t / 86400) ++ "d " ++ Py.str_int (t mod 86400 / 3600) ++ "h")%string) /\
  (3600 <= t < 86400 ->
   Formatter.format_age w (Some ms) =
     (Py.str_int (t / 3600) ++ "h " ++ Py.str_int (t mod 3600 / 60) ++ "m")%string) /\
  (60 <= t < 3600 ->
   Formatter.format_age w (Some ms) = (Py.str_int (t / 60) ++ "m")%string) /\
  (0 <= t < 60 -> Formatter.format_age w (Some ms) = "<1m") /\
  (t < 0 ->
   Formatter.format_age w (Some ms) =
     let r := t mod 86400 in
     if 3600 <=? r
     then (Py.str_int (r / 3600) ++ "h " ++ Py.str_int (r mod 3600 / 60) ++ "m")%string
     else if 60 <=? r then (Py.str_int (r / 60) ++ "m")%string
     else "<1m").
Proof.
  intros Hms Htd.
  assert (Hr : 0 <= t mod 86400 < 86400) by (apply Z.mod_pos_bound; lia).
  assert (Hday : 0 <= t < 86400 ->
            Formatter.format_age w (Some ms) =
              if 3600 <=? t
              then (Py.str_int (t / 3600) ++ "h " ++ Py.str_int (t mod 3600 / 60) ++ "m")%string
              else if 60 <=? t then (Py.str_int (t / 60) ++ "m")%string
              else "<1m").
  { intros Ht.
    assert (Hd : t / 86400 <= 0) by (rewrite Z.div_small; lia).
    pose proof (format_age_within_day w ms _ _ Hms Htd Hd Hr) as E.
    rewrite (Z.mod_small t 86400) in E by lia. exact E. }
  split; [|split; [|split; [|split]]].
  - intros Ht. unfold Formatter.format_age. rewrite Htd.
    assert (Hd : 0 < t / 86400) by (apply Z.div_str_pos; lia).
    destruct ms as [|p|p]; [congruence|..];
      (destruct (Z.gtb_spec (t / 86400) 0); [reflexivity | lia]).
  - intros Ht. rewrite Hday by lia.
    destruct (Z.leb_spec 3600 t); [reflexivity | lia].
  - intros Ht. rewrite Hday by lia.
    destruct (Z.leb_spec 3600 t); [lia|].
    destruct (Z.leb_spec 60 t); [reflexivity | lia].
  - intros Ht. rewrite Hday by lia.
    destruct (Z.leb_spec 3600 t); [lia|].
    destruct (Z.leb_spec 60 t); [lia | reflexivity].
  - intros Ht. cbv zeta.
    apply (format_age_within_day w ms (t / 86400)); auto.
    assert (t / 86400 < 0) by (apply Z.div_lt_upper_bound; lia). lia.
Qed.

(** X11.  [format_age] answers ["N/A"] in three cases and no other: the
    timestamp is missing, it is 0, or the computation of the age raises. *)
Theorem format_age_not_available (w : W) (pair_created_at : option Z) :
  Formatter.format_age w pair_created_at = "N/A" <->
  pair_created_at = None \/ pair_created_at = Some 0 \/
  exists ms, pair_created_at = Some ms /\ timedelta_since ms w = None.
Proof.
  split.
  - destruct pair_created_at as [ms|]; [|now left].
    destruct (Z.eq_dec ms 0) as [->|Hms]; [now right; left|].
    intros E. right. right. exists ms. split; [reflexivity|].
    unfold Formatter.format_age in E.
    assert (E' : match timedelta_since ms w with
                 | None => "N/A"
                 | Some (days, seconds) =>
                     let hours := seconds / 3600 in
                     let minutes := (seconds mod 3600) / 60 in
                     if days >? 0 then (Py.str_int days ++ "d " ++ Py.str_int hours ++ "h")%string
                     else if hours >? 0
                          then (Py.str_int hours ++ "h " ++ Py.str_int minutes ++ "m")%string
                     else if minutes >? 0 then (Py.str_int minutes ++ "m")%string
                     else "<1m"
                 end = "N/A") by (destruct ms; [congruence | exact E | exact E]).
    clear E. destruct (timedelta_since ms w) as [[days seconds]|]; [|reflexivity].
    exfalso. cbv zeta in E'.
    destruct (days >? 0); [now apply str_int_app_not in E'|].
    destruct (seconds / 3600 >? 0); [now apply str_int_app_not in E'|].
    destruct (seconds mod 3600 / 60 >? 0); [now apply str_int_app_not in E'|].
    discriminate.
  - intros [->|[->|(ms & -> & Hnone)]]; [reflexivity..|].
    unfold Formatter.format_age. rewrite Hnone. now destruct ms.
Qed.

End Ages.

(** An instance of X10: a pair created a second after now is 23 hours and
    59 minutes old. *)
Lemma format_age_by_seconds_witness :
  Formatter.format_age (Clock (-1) 86399) (Some 5) = "23h 59m".
Proof.
  destruct (format_age_by_seconds (Clock (-1) 86399) 5 (-1)) as (_ & _ & _ & _ & Hfuture).
  - discriminate.
  - reflexivity.
  - rewrite Hfuture; [reflexivity | lia].
Defined.

(** ** Prices and messages *)

Section SmallPrices.
Context {PF : PyFloat}.

Lemma Qlt_Qltb x y : (x < y)%Q -> Qltb x y = true.
Proof.
  intros Hlt. unfold Qltb. apply negb_true_iff.
  destruct (Qle_bool y x) eqn:E; [|reflexivity].
  apply Qle_bool_iff in E. exfalso. now apply (Qlt_not_le x y).
Qed.

(** With the exponent of [str] written in digits, the [try] block of
    [format_price] returns nothing. *)
Lemma subscript_form_none (x : Q) :
  (forall n, Py.int_of_str (Py.split_last "e-" (float_str x)) = Some n -> 0 <= n) ->
  Formatter.subscript_form x = None.
Proof.
  intros Hexp. destruct (subscript_form_rare x) as [E|(n & Hn & Hlow)]; [exact E|].
  apply Hexp in Hn. lia.
Qed.

(** X12.  The subscript form of the prices below 0.000001 is never
    produced for a float whose [str] has an exponent written in digits:
    every price below 0.001 other than 0, negative prices among them, is
    shown with 8 decimals, rounded to the nearest and trimmed. *)
Theorem format_price_below_a_thousandth (x : Q) :
  (forall n, Py.int_of_str (Py.split_last "e-" (float_str x)) = Some n -> 0 <= n) ->
  ~ (x == 0)%Q -> (x < Formatter.lit_0_001)%Q ->
  Formatter.format_price x = trimmed 8 x.
Proof.
  intros Hexp Hne Hlt. unfold Formatter.format_price, trimmed.
  destruct (Qeq_bool x 0) eqn:E0; [apply Qeq_bool_iff in E0; contradiction|].
  rewrite (Qlt_Qltb _ _ Hlt).
  destruct (Qltb x Formatter.lit_0_000001); [|reflexivity].
  now rewrite subscript_form_none.
Qed.

Lemma round_half_even_small q :
  0 <= Qnum q -> 2 * Qnum q < Z.pos (Qden q) -> Py.round_half_even q = 0.
Proof.
  intros H0 H2. unfold Py.round_half_even.
  rewrite Z.div_small, Z.mod_small by lia.
  destruct (Z.compare_spec (2 * Qnum q) (Z.pos (Qden q))); [lia | reflexivity | lia].
Qed.

(** X13.  A positive price below 0.000000005 is shown as ["$0"]: its 8
    decimals are all zero and the trimming takes them and the point away.
    The text differs from the ["$0.00"] of the price 0. *)
Theorem format_price_tiny (x : Q) :
  (forall n, Py.int_of_str (Py.split_last "e-" (float_str x)) = Some n -> 0 <= n) ->
  (0 < x)%Q -> (x < 1 # 200000000)%Q ->
  Formatter.format_price x = "$0" /\ Formatter.format_price 0 = "$0.00".
Proof.
  intros Hexp Hpos Hlt. split; [|reflexivity].
  unfold Formatter.format_price.
  destruct (Qeq_bool x 0) eqn:E0.
  { apply Qeq_bool_iff in E0. rewrite E0 in Hpos. now apply Qlt_irrefl in Hpos. }
  assert (H3 : (x < Formatter.lit_0_001)%Q)
    by (apply Qlt_trans with (1 # 200000000); [exact Hlt | reflexivity]).
  assert (H6 : (x < Formatter.lit_0_000001)%Q)
    by (apply Qlt_trans with (1 # 200000000); [exact Hlt | reflexivity]).
  rewrite (Qlt_Qltb _ _ H3), (Qlt_Qltb _ _ H6), (subscript_form_none x Hexp).
  unfold Py.format_fixed.
  assert (Hs : Py.round_half_even (Qabs x * inject_Z (10 ^ Z.of_nat 8)) = 0).
  { destruct x as [a d]. unfold Qlt in Hpos, Hlt. simpl in Hpos, Hlt.
    apply round_half_even_small; simpl.
    - rewrite Z.abs_eq by lia. lia.
    - rewrite Z.abs_eq by lia. rewrite Pos.mul_1_r. lia. }
  rewrite Hs.
  destruct (Qlt_le_dec x 0) as [Hneg|_]; [|vm_compute; reflexivity].
  exfalso. apply (Qlt_irrefl 0). now apply Qlt_trans with x.
Qed.

End SmallPrices.

(** An instance of X12, with the float operations of [float_table]. *)
Lemma format_price_below_a_thousandth_witness :
  Formatter.format_price lit_1_234e_07 = trimmed 8 lit_1_234e_07.
Proof.
  apply (format_price_below_a_thousandth (PF := float_table)).
  - intros n E. vm_compute in E. injection E as <-. lia.
  - intros E. vm_compute in E. discriminate.
  - reflexivity.
Defined.

(** The float of the example is the double nearest to its decimal text. *)
Lemma nano_is_a_double : nearest_double lit_1e_09 (1 # 1000000000) = true.
Proof. vm_compute. reflexivity. Qed.

(** An instance of X13: the price [0.000000001], whose [str] is
    ["1e-09"]. *)
Lemma format_price_tiny_witness :
  @Formatter.format_price float_nano lit_1e_09 = "$0" /\
  @Formatter.format_price float_nano 0 = "$0.00".
Proof.
  apply (format_price_tiny (PF := float_nano)).
  - intros n E. vm_compute in E. injection E as <-. lia.
  - reflexivity.
  - reflexivity.
Defined.

Section Messages.
Context {PF : PyFloat} {TP : Template} {W : Type} {WW : World W}.


End Messages.

(** ** What a boost and a cycle cost *)

Section Accounts.
Context {PF : PyFloat} {TP : Template} {W : Type} {WW : World W}.

Lemma count_app kind (l k : list event) :
  count kind (l ++ k) = (count kind l + count kind k)%nat.
Proof. unfold count. now rewrite List.filter_app, length_app. Qed.

(** The requests of a lookup. *)
Lemma lookup_gets a (s : machine W) :
  exists result w' evs,
    Scanner.get_token_details a s =
      (Ok result, Machine (seen_boost_ids s) (boost_stats s) w' (trace s ++ evs)) /\
    Forall lookup_event evs /\
    (List.filter is_get evs = [Get (Scanner.search_url a)] \/
     List.filter is_get evs = [Get (Scanner.search_url a); Get (Scanner.token_url a)]).
Proof.
  destruct (get_token_details_spec a s) as (result & w' & evs & E & Hcase).
  exists result, w', (Get (Scanner.search_url a) :: evs). split; [exact E|].
  destruct Hcase as [(-> & _)|[(_ & _ & _ & e & ->)|[(_ & _ & e & ->)|(_ & _ & _ & Hc)]]];
    [| | |destruct Hc as [(-> & _)|[(-> & _)|(_ & e & ->)]]];
    (split; [repeat constructor | simpl; auto]).
Qed.

(** Before a send there is no message and no pause. *)
Lemma preparing_counts evs :
  Forall preparing evs ->
  List.filter is_send evs = [] /\ List.filter delivered evs = [] /\
  List.filter is_processing evs = [] /\
  forall n, List.filter (is_sleep n) evs = [].
Proof.
  induction 1 as [|ev evs Hev _ (IH1 & IH2 & IH3 & IH4)]; [auto|].
  destruct Hev as [Hev|Hev]; destruct ev as [u|t d|n|[| |] []]; simpl in Hev;
    try contradiction; simpl; auto.
Qed.

(** The requests of [process_boost]. *)
Lemma process_boost_requests b (s : machine W) :
  exists ok s',
    Bot.process_boost b s = (Ok ok, s') /\
    (List.filter is_get (events_since s s') = [Get (Scanner.search_url (tokenAddress b))] \/
     List.filter is_get (events_since s s')
       = [Get (Scanner.search_url (tokenAddress b)); Get (Scanner.token_url (tokenAddress b))]).
Proof.
  unfold Bot.process_boost, try_except. unfold bind at 1. unfold logger at 1, emit. simpl.
  set (s0 := Machine (seen_boost_ids s) (boost_stats s) (world s) _).
  unfold bind at 1.
  destruct (lookup_gets (tokenAddress b) s0) as (td & w1 & evs1 & E1 & Hev1 & Hg).
  rewrite E1. subst s0. simpl.
  set (G := List.filter is_get evs1) in *.
  set (s1 := Machine (seen_boost_ids s) (boost_stats s) w1 _).
  unfold bind at 1.
  assert (Hend : forall (ok : bool) stats w tail,
            List.filter is_get tail = [] ->
            exists ok' s',
              (Ok ok, Machine (seen_boost_ids s) stats w
                        (trace s ++ Log INFO (Processing (default 0 (amount b)) (tokenAddress b))
                           :: evs1 ++ tail)) = (Ok ok', s') /\
              (List.filter is_get (events_since s s') = G)).
  { intros ok stats w tail Ht. do 2 eexists. split; [reflexivity|].
    unfold events_since. cbn [trace]. rewrite drop_app_length.
    cbn [List.filter is_get]. rewrite List.filter_app, Ht, app_nil_r. reflexivity. }
  assert (Hfin : forall (ok : bool) stats w tail,
            List.filter is_get tail = [] ->
            exists ok' s',
              (Ok ok, Machine (seen_boost_ids s) stats w
                        (trace s ++ Log INFO (Processing (default 0 (amount b)) (tokenAddress b))
                           :: evs1 ++ tail)) = (Ok ok', s') /\
              (List.filter is_get (events_since s s')
                 = [Get (Scanner.search_url (tokenAddress b))] \/
               List.filter is_get (events_since s s')
                 = [Get (Scanner.search_url (tokenAddress b));
                    Get (Scanner.token_url (tokenAddress b))])).
  { intros ok stats w tail Ht. destruct (Hend ok stats w tail Ht) as (ok' & s' & E & Hs).
    exists ok', s'. split; [exact E|]. rewrite Hs. exact Hg. }
  clear Hend.
  destruct (format_boost_message_spec b td s1) as [(m & _ & E2)|(e & _ & E2)]; rewrite E2.
  - simpl. destruct m as [|c m'].
    + unfold bind, logger, emit, ret. simpl. subst s1. simpl.
      rewrite <- !app_assoc. apply Hfin. reflexivity.
    + set (text := String c m').
      unfold bind at 1. rewrite send_alert_spec. subst s1. simpl.
      destruct (send_message text w1) as [[|] w2]; simpl.
      * unfold bind at 1, get_stats. simpl.
        destruct (boost_stats s !! default 0 (amount b)) as [n|] eqn:Hn.
        -- unfold bind, set_stats, logger, emit, ret. simpl.
           rewrite <- !app_assoc. apply Hfin. reflexivity.
        -- unfold raise, bind, logger, emit, ret. simpl.
           rewrite <- !app_assoc. apply Hfin. reflexivity.
      * unfold ret. rewrite <- !app_assoc. apply Hfin. reflexivity.
  - simpl. unfold bind, logger, emit, ret. simpl. subst s1. simpl.
    rewrite <- !app_assoc. apply Hfin. reflexivity.
Qed.

Lemma stats_total_insert (m : gmap Z nat) a n :
  m !! a = Some n -> stats_total (<[a := S n]> m) = S (stats_total m).
Proof.
  intros Hn. unfold stats_total.
  rewrite <- (insert_delete_eq m a (S n)).
  rewrite map_fold_insert_L; [|intros; lia | apply lookup_delete_eq].
  rewrite (map_fold_delete_L _ _ a n m); [lia | intros; lia | exact Hn].
Qed.

(** What one call of [process_boost] leaves behind. *)
Lemma process_boost_counts b (s : machine W) :
  exists ok s' evs,
    Bot.process_boost b s = (Ok ok, s') /\
    trace s' = trace s ++ evs /\
    seen_boost_ids s' = seen_boost_ids s /\
    List.filter is_processing evs = [Log INFO (Processing (boost_amount b) (tokenAddress b))] /\
    (1 <= count is_get evs <= 2)%nat /\
    (count is_send evs <= 1)%nat /\
    (forall n, count (is_sleep n) evs = 0%nat) /\
    (if ok then count delivered evs = 1%nat /\
                stats_total (boost_stats s') = S (stats_total (boost_stats s))
     else boost_stats s' = boost_stats s).
Proof.
  destruct (process_boost_requests b s) as (ok0 & s0 & E0 & Hg).
  destruct (process_boost_spec b s) as (ok & stats' & w' & evs & tail & E & Hprep & Hcase).
  rewrite E in E0. injection E0 as <- <-.
  unfold events_since in Hg. cbn [trace] in Hg. rewrite drop_app_length in Hg.
  exists ok, (Machine (seen_boost_ids s) stats' w'
                (trace s ++ Log INFO (Processing (boost_amount b) (tokenAddress b))
                   :: evs ++ tail)),
    (Log INFO (Processing (boost_amount b) (tokenAddress b)) :: evs ++ tail).
  split; [exact E|]. split; [reflexivity|]. split; [reflexivity|].
  destruct (preparing_counts evs Hprep) as (Hs & Hd & Hp & Hz).
  assert (Htail : List.filter is_processing tail = [] /\
                  (length (List.filter is_send tail) <= 1)%nat /\
                  (forall n, List.filter (is_sleep n) tail = []) /\
                  (if ok then length (List.filter delivered tail) = 1%nat /\
                              stats_total stats' = S (stats_total (boost_stats s))
                   else stats' = boost_stats s)).
  { destruct Hcase as [(-> & -> & -> & _)
                      |(text & _ & _ & [(-> & -> & ->)
                                       |[(n' & Hn' & -> & -> & ->)|(_ & -> & -> & ->)]])];
      simpl; repeat split; auto. now apply stats_total_insert. }
  destruct Htail as (Htp & Hts & Htz & Htd).
  unfold count. split; [|split; [destruct Hg as [-> | ->]; simpl; lia|]].
  { cbn [List.filter is_processing]. now rewrite List.filter_app, Hp, Htp. }
  cbn [List.filter is_send is_sleep delivered boost_stats].
  rewrite !List.filter_app, Hs, Hd. cbn [app].
  split; [exact Hts|].
  split; [intros n; rewrite List.filter_app, Hz, Htz; reflexivity|].
  exact Htd.
Qed.

(** X15.  [process_boost] never raises, whatever the boost and the state:
    it returns after one or two requests and at most one message, without a
    pause, and leaves the cache as it is.  It returns [True] only with its
    one message delivered. *)
Theorem process_boost_footprint (b : boost) (s : machine W) :
  exists ok s',
    Bot.process_boost b s = (Ok ok, s') /\
    seen_boost_ids s' = seen_boost_ids s /\
    (1 <= count is_get (events_since s s') <= 2)%nat /\
    (count is_send (events_since s s') <= 1)%nat /\
    (forall n, count (is_sleep n) (events_since s s') = 0%nat) /\
    (ok = true -> count delivered (events_since s s') = 1%nat).
Proof.
  destruct (process_boost_counts b s) as (ok & s' & evs & E & T & Hseen & _ & Hg & Hs & Hz & Hok).
  exists ok, s'. rewrite (events_since_app s s' evs T).
  repeat split; auto; try lia. intros ->. tauto.
Qed.

(** One turn of the loop of [scan_and_process], on any boost. *)
Lemma process_one_accounts acc b (s : machine W) :
  exists s' evs,
    Bot.process_one acc b s = (Ok (acc + Z.of_nat (count (is_sleep 1) evs)), s') /\
    trace s' = trace s ++ evs /\
    seen_boost_ids s' = seen_boost_ids s /\
    List.filter is_processing evs = [Log INFO (Processing (boost_amount b) (tokenAddress b))] /\
    (1 <= count is_get evs <= 2)%nat /\
    (count is_send evs <= 1)%nat /\
    count (is_sleep SCAN_INTERVAL) evs = 0%nat /\
    (count (is_sleep 1) evs <= count delivered evs)%nat /\
    stats_total (boost_stats s') = (stats_total (boost_stats s) + count (is_sleep 1) evs)%nat.
Proof.
  destruct (process_boost_counts b s) as (ok & s1 & evs & E & T & Hseen & Hp & Hg & Hs & Hz & Hok).
  unfold Bot.process_one, bind at 1. rewrite E. destruct ok.
  - unfold bind, asyncio_sleep, emit, ret. cbn [fst snd].
    eexists. exists (evs ++ [Sleep 1]). cbn [trace seen_boost_ids boost_stats].
    rewrite !count_app, !Hz. rewrite List.filter_app, Hp.
    destruct Hok as (Hd & Hst).
    split; [reflexivity|]. split; [rewrite T; now rewrite app_assoc|].
    split; [exact Hseen|]. split; [reflexivity|]. cbn [boost_stats].
    change (count is_get [Sleep 1]) with 0%nat. change (count is_send [Sleep 1]) with 0%nat.
    change (count (is_sleep SCAN_INTERVAL) [Sleep 1]) with 0%nat.
    change (count (is_sleep 1) [Sleep 1]) with 1%nat.
    change (count delivered [Sleep 1]) with 0%nat.
    repeat split; lia.
  - unfold ret. exists s1, evs. rewrite !Hz, Hok, Z.add_0_r.
    repeat split; auto; lia.
Qed.

(** The loop of [scan_and_process], on any boosts. *)
Lemma process_loop_accounts l : forall acc (s : machine W),
  exists s' evs,
    for_each Bot.process_one acc l s = (Ok (acc + Z.of_nat (count (is_sleep 1) evs)), s') /\
    trace s' = trace s ++ evs /\
    seen_boost_ids s' = seen_boost_ids s /\
    List.filter is_processing evs
      = (fun b => Log INFO (Processing (boost_amount b) (tokenAddress b))) <$> l /\
    (length l <= count is_get evs <= 2 * length l)%nat /\
    (count is_send evs <= length l)%nat /\
    count (is_sleep SCAN_INTERVAL) evs = 0%nat /\
    (count (is_sleep 1) evs <= count delivered evs)%nat /\
    stats_total (boost_stats s') = (stats_total (boost_stats s) + count (is_sleep 1) evs)%nat.
Proof.
  induction l as [|b r IH]; intros acc s.
  - exists s, []. simpl. unfold ret. rewrite Z.add_0_r, app_nil_r.
    repeat split; auto; simpl; lia.
  - destruct (process_one_accounts acc b s)
      as (s1 & evs1 & E1 & T1 & S1 & P1 & G1 & M1 & Z1 & D1 & A1).
    simpl. unfold bind. rewrite E1.
    destruct (IH (acc + Z.of_nat (count (is_sleep 1) evs1)) s1)
      as (s2 & evs2 & E2 & T2 & S2 & P2 & G2 & M2 & Z2 & D2 & A2).
    rewrite E2. exists s2, (evs1 ++ evs2). rewrite !count_app, List.filter_app, P1, P2.
    split; [f_equal; f_equal; lia|].
    split; [rewrite T2, T1; now rewrite app_assoc|].
    split; [congruence|]. split; [reflexivity|].
    repeat split; lia.
Qed.

(** [scan_and_process] from line 174 on, on any boosts. *)
Lemma process_new_boosts_accounts boosts (s : machine W) :
  exists s' evs,
    Bot.process_new_boosts boosts s = (Ok (Z.of_nat (count (is_sleep 1) evs)), s') /\
    trace s' = trace s ++ evs /\
    seen_boost_ids s' = seen_boost_ids s /\
    List.filter is_processing evs
      = (fun b => Log INFO (Processing (boost_amount b) (tokenAddress b)))
          <$> List.filter Bot.check_boost_criteria boosts /\
    (count is_processing evs <= count is_get evs <= 2 * count is_processing evs)%nat /\
    (count is_send evs <= count is_processing evs)%nat /\
    count (is_sleep SCAN_INTERVAL) evs = 0%nat /\
    (count (is_sleep 1) evs <= count delivered evs)%nat /\
    stats_total (boost_stats s') = (stats_total (boost_stats s) + count (is_sleep 1) evs)%nat.
Proof.
  unfold Bot.process_new_boosts.
  assert (Hone : forall msg,
            (forall a t, msg <> Processing a t) ->
            List.filter Bot.check_boost_criteria boosts = [] ->
            exists s' evs,
              (logger INFO msg ;;; ret 0) s = (Ok (Z.of_nat (count (is_sleep 1) evs)), s') /\
              trace s' = trace s ++ evs /\
              seen_boost_ids s' = seen_boost_ids s /\
              List.filter is_processing evs
                = (fun b => Log INFO (Processing (boost_amount b) (tokenAddress b)))
                    <$> List.filter Bot.check_boost_criteria boosts /\
              (count is_processing evs <= count is_get evs <= 2 * count is_processing evs)%nat /\
              (count is_send evs <= count is_processing evs)%nat /\
              count (is_sleep SCAN_INTERVAL) evs = 0%nat /\
              (count (is_sleep 1) evs <= count delivered evs)%nat /\
              stats_total (boost_stats s')
                = (stats_total (boost_stats s) + count (is_sleep 1) evs)%nat).
  { intros msg Hp Hf. unfold bind, logger, emit, ret. cbn [fst snd].
    eexists. exists [Log INFO msg]. rewrite Hf.
    assert (Hpr : List.filter is_processing [Log INFO msg] = []).
    { destruct msg; try reflexivity. exfalso; eapply Hp; reflexivity. }
    unfold count. rewrite Hpr. cbn.
    repeat split; auto. }
  destruct boosts as [|b0 r]; [apply Hone; [discriminate | reflexivity]|].
  set (boosts := b0 :: r) in *.
  destruct (List.filter Bot.check_boost_criteria boosts) as [|t0 tr] eqn:Hf;
    [apply Hone; [discriminate | reflexivity]|].
  unfold bind at 1, logger, emit. cbv beta iota.
  set (s1 := Machine _ _ _ _).
  destruct (process_loop_accounts (t0 :: tr) 0 s1)
    as (s2 & evs & E & T & Hseen & P & G & M & Hz & D & A).
  rewrite E. exists s2, (Log INFO (FoundMatching (length (t0 :: tr))) :: evs).
  assert (Hc : count is_processing evs = length (t0 :: tr)).
  { unfold count. rewrite P. apply length_fmap. }
  unfold count in *. cbn [List.filter is_processing is_get is_send is_sleep delivered].
  split; [reflexivity|].
  split; [rewrite T; subst s1; cbn [trace]; now rewrite <- app_assoc|].
  split; [exact Hseen|]. split; [exact P|].
  repeat split; auto; lia.
Qed.

End Accounts.

(** ** Cycles *)

Section Cycles.
Context {PF : PyFloat} {TP : Template} {W : Type} {WW : World W}.

(** A scan takes nothing from the cache. *)
Lemma get_boosted_tokens_grows (s : machine W) :
  exists out s', Scanner.get_boosted_tokens s = (Ok out, s') /\
                 seen_boost_ids s ⊆ seen_boost_ids s'.
Proof.
  unfold Scanner.get_boosted_tokens, try_except, bind, session_get, raise_for_status,
    response_json, logger, emit, ret, raise; simpl.
  destruct (get_feed BOOST_API_URL (world s)) as [r w']. simpl.
  destruct r as [|code body]; simpl; [do 2 eexists; split; [reflexivity|]; simpl; set_solver|].
  destruct ((400 <=? code) && (code <? 600)); simpl;
    [do 2 eexists; split; [reflexivity|]; simpl; set_solver|].
  destruct body as [doc|]; simpl; [|do 2 eexists; split; [reflexivity|]; simpl; set_solver].
  destruct doc as [l|[l|]|]; simpl; try rewrite for_each_scan_boost; simpl;
    do 2 eexists; (split; [reflexivity|]); simpl; set_solver.
Qed.

(** The accounts of a cycle. *)
Lemma scan_and_process_accounts (s : machine W) :
  exists s' evs,
    Bot.scan_and_process s = (Ok (Z.of_nat (count (is_sleep 1) evs)), s') /\
    trace s' = trace s ++ evs /\
    (count (is_sleep 1) evs <= count delivered evs)%nat /\
    stats_total (boost_stats s') = (stats_total (boost_stats s) + count (is_sleep 1) evs)%nat /\
    (count is_send evs <= count is_processing evs)%nat /\
    (1 + count is_processing evs <= count is_get evs <= 1 + 2 * count is_processing evs)%nat /\
    count (is_sleep SCAN_INTERVAL) evs = 0%nat /\
    seen_boost_ids s ⊆ seen_boost_ids s'.
Proof.
  unfold Bot.scan_and_process, bind at 1, logger, emit. simpl.
  set (s0 := Machine _ _ _ _). unfold bind.
  assert (Hsub : exists out s1, Scanner.get_boosted_tokens s0 = (Ok out, s1) /\
                                seen_boost_ids s0 ⊆ seen_boost_ids s1).
  { apply get_boosted_tokens_grows. }
  destruct Hsub as (out0 & s10 & E0 & Hsub).
  destruct (get_boosted_tokens_returns s0) as (out & seen' & lvl & msg & E & _ & Hp & _).
  rewrite E in E0. injection E0 as <- <-. cbn [seen_boost_ids] in Hsub.
  rewrite E. set (s1 := Machine seen' _ _ _).
  destruct (process_new_boosts_accounts out s1)
    as (s2 & evs & E2 & T & Hseen & _ & Hg & Hs & Hz & Hd & Ha).
  rewrite E2. exists s2, (Log INFO Scanning :: Get BOOST_API_URL :: Log lvl msg :: evs).
  assert (Hpr : is_processing (Log lvl msg) = false).
  { destruct lvl, msg; try reflexivity. exfalso; eapply Hp; reflexivity. }
  unfold count in *. cbn [List.filter is_get is_send is_sleep delivered].
  change (is_processing (Log INFO Scanning)) with false.
  change (is_processing (Get BOOST_API_URL)) with false.
  rewrite Hpr. cbn [length].
  split; [reflexivity|].
  split; [rewrite T; subst s1 s0; cbn [trace]; rewrite <- !app_assoc; reflexivity|].
  split; [exact Hd|]. split; [exact Ha|]. split; [exact Hs|].
  split; [lia|]. split; [exact Hz|].
  rewrite Hseen. exact Hsub.
Qed.

(** From a state with every target amount a key, what a cycle returns
    is the number of the alerts delivered, and the keys stay. *)
Lemma scan_and_process_ready (s s' : machine W) evs :
  Bot.scan_and_process s = (Ok (Z.of_nat (count (is_sleep 1) evs)), s') ->
  trace s' = trace s ++ evs ->
  stats_ready s ->
  stats_ready s' /\ dom (boost_stats s') = dom (boost_stats s) /\
  count (is_sleep 1) evs = count delivered evs.
Proof.
  intros E T Hr.
  destruct (scan_and_process_spec s Hr) as (s2 & evs2 & E2 & T2 & R2 & D2 & _).
  rewrite E in E2. injection E2 as Hn <-.
  rewrite T in T2. apply app_inv_head in T2. subst evs2.
  split; [exact R2|]. split; [exact D2|]. unfold count in *. lia.
Qed.

(** X16.  The accounts of a cycle, whatever the state: [scan_and_process]
    never raises; the number it returns is the number of its one-second
    pauses, each after a delivered alert, and the amount by which the sum of
    the statistics grows; it sends at most one message and makes one or two
    lookups for each boost it takes up, after the one request of the feed. *)
Theorem cycle_accounts (s : machine W) :
  exists n s',
    Bot.scan_and_process s = (Ok (Z.of_nat n), s') /\
    n = count (is_sleep 1) (events_since s s') /\
    (n <= count delivered (events_since s s'))%nat /\
    stats_total (boost_stats s') = (stats_total (boost_stats s) + n)%nat /\
    (count is_send (events_since s s') <= count is_processing (events_since s s'))%nat /\
    (1 + count is_processing (events_since s s') <= count is_get (events_since s s')
       <= 1 + 2 * count is_processing (events_since s s'))%nat.
Proof.
  destruct (scan_and_process_accounts s) as (s' & evs & E & T & Hd & Ha & Hs & Hg & _).
  exists (count (is_sleep 1) evs), s'. rewrite (events_since_app s s' evs T).
  repeat split; auto; lia.
Qed.

(** The cache after a cycle on a feed that carries [payload]. *)
Lemma cycle_fresh (s : machine W) (payload : list boost) :
  feed_carries (world s) payload ->
  exists n s',
    Bot.scan_and_process s = (Ok n, s') /\
    seen_boost_ids s' = seen_boost_ids s ∪ ids_of (fresh_boosts (seen_boost_ids s) payload).
Proof.
  intros Hfeed.
  unfold Bot.scan_and_process, bind at 1, logger, emit. simpl.
  set (s0 := Machine _ _ _ _). unfold bind.
  rewrite (get_boosted_tokens_carries s0 payload Hfeed). subst s0. simpl.
  set (s1 := Machine _ _ _ _).
  destruct (process_new_boosts_accounts (fresh_boosts (seen_boost_ids s) payload) s1)
    as (s2 & evs & E2 & _ & Hseen & _).
  rewrite E2. do 2 eexists. split; [reflexivity | exact Hseen].
Qed.

(** X17.  A cycle on a feed that carries [payload]: each target-chain
    record whose identifier is new goes into the cache, whatever its amount;
    those of them with a target amount are taken up once each, in the order
    of the feed, and no other boost is. *)
Theorem cycle_takes_up_fresh_targets (s : machine W) (payload : list boost) :
  feed_carries (world s) payload ->
  exists n s',
    Bot.scan_and_process s = (Ok n, s') /\
    seen_boost_ids s' = seen_boost_ids s ∪ ids_of (fresh_boosts (seen_boost_ids s) payload) /\
    List.filter is_processing (events_since s s') =
      (fun b => Log INFO (Processing (boost_amount b) (tokenAddress b)))
        <$> List.filter Bot.check_boost_criteria (fresh_boosts (seen_boost_ids s) payload).
Proof.
  intros Hfeed.
  unfold Bot.scan_and_process, bind at 1, logger, emit. simpl.
  set (s0 := Machine _ _ _ _). unfold bind.
  rewrite (get_boosted_tokens_carries s0 payload Hfeed). subst s0. simpl.
  set (s1 := Machine _ _ _ _).
  destruct (process_new_boosts_accounts (fresh_boosts (seen_boost_ids s) payload) s1)
    as (s2 & evs & E2 & T & Hseen & Hp & _).
  rewrite E2. do 2 eexists. split; [reflexivity|]. split; [exact Hseen|].
  unfold events_since. rewrite T. subst s1. cbn [trace].
  rewrite <- !app_assoc, drop_app_length. exact Hp.
Qed.

(** X18.  A cycle whose request of the feed fails, in transport, by a 4xx
    or 5xx status or by a body that does not parse, is an empty cycle: it
    returns 0 after the one request, with the error and the record of an
    empty scan in the log, and leaves the cache and the statistics as they
    are. *)
Theorem failed_scan_is_an_empty_cycle (s : machine W) :
  feed_fails (world s) ->
  exists e,
    Bot.scan_and_process s =
      (Ok 0, Machine (seen_boost_ids s) (boost_stats s)
               (snd (get_feed BOOST_API_URL (world s)))
               (trace s ++ [Log INFO Scanning; Get BOOST_API_URL;
                            Log ERROR (ErrorFetchingBoosts e); Log INFO NoNewBoosts])).
Proof.
  intros Hfeed.
  unfold Bot.scan_and_process, bind at 1, logger, emit. simpl.
  set (s0 := Machine _ _ _ _). unfold bind.
  destruct (get_boosted_tokens_fails s0 Hfeed) as (e & E).
  rewrite E. exists e. subst s0. simpl. unfold bind, logger, emit, ret. simpl.
  rewrite <- !app_assoc. reflexivity.
Qed.

(** X19.  No alert is tried twice.  When the feed carries the same payload
    in two cycles in a row, the second cycle takes up no boost: it returns 0
    after the one request of the feed, whether or not the alerts of the
    first cycle were delivered. *)
Theorem no_second_try (s : machine W) (payload : list boost) :
  feed_carries (world s) payload ->
  feed_carries (world (snd (Bot.scan_and_process s))) payload ->
  Bot.scan_and_process (snd (Bot.scan_and_process s)) =
    (Ok 0, Machine (seen_boost_ids (snd (Bot.scan_and_process s)))
             (boost_stats (snd (Bot.scan_and_process s)))
             (snd (get_feed BOOST_API_URL (world (snd (Bot.scan_and_process s)))))
             (trace (snd (Bot.scan_and_process s))
                ++ [Log INFO Scanning; Get BOOST_API_URL;
                    Log INFO (FoundNewBoosts 0); Log INFO NoNewBoosts])).
Proof.
  intros H1 H2.
  destruct (cycle_fresh s payload H1) as (n & s1 & E & Hseen).
  rewrite E in *. cbn [snd] in *.
  assert (Hnone : fresh_boosts (seen_boost_ids s1) payload = []).
  { apply fresh_boosts_none. intros b Hb Hc. rewrite Hseen.
    now apply fresh_boosts_covers. }
  unfold Bot.scan_and_process, bind at 1, logger, emit. simpl.
  set (s0 := Machine _ _ _ _). unfold bind.
  rewrite (get_boosted_tokens_carries s0 payload H2). subst s0. simpl.
  rewrite Hnone. simpl. unfold bind, logger, emit, ret. simpl.
  rewrite <- !app_assoc.
  replace (seen_boost_ids s1 ∪ ids_of []) with (seen_boost_ids s1)
    by (unfold ids_of; simpl; set_solver).
  reflexivity.
Qed.

End Cycles.

(** An instance of X17: of the three records of [mixed_payload] two go
    into the cache and one is taken up. *)
Lemma cycle_takes_up_fresh_targets_witness :
  exists n s',
    Bot.scan_and_process (Bot.init (feed_of mixed_payload)) = (Ok n, s') /\
    seen_boost_ids s' = {[Scanner.boost_id boost_a; Scanner.boost_id boost_42]} /\
    List.filter is_processing (events_since (Bot.init (feed_of mixed_payload)) s')
      = [Log INFO (Processing 500 (Some "AAA"))].
Proof.
  destruct (cycle_takes_up_fresh_targets (Bot.init (feed_of mixed_payload)) mixed_payload)
    as (n & s' & E & Hseen & Hp).
  - vm_compute. split; reflexivity.
  - exists n, s'. split; [exact E|]. split; [|exact Hp].
    rewrite Hseen. apply (bool_decide_unpack _). vm_compute. exact I.
Defined.

(** An instance of X18: [down_world], whose feed answers 503. *)
Lemma failed_scan_is_an_empty_cycle_witness :
  exists e,
    Bot.scan_and_process (Bot.init down_world) =
      (Ok 0, Machine (seen_boost_ids (Bot.init down_world)) (boost_stats (Bot.init down_world))
               (snd (get_feed BOOST_API_URL (world (Bot.init down_world))))
               (trace (Bot.init down_world)
                  ++ [Log INFO Scanning; Get BOOST_API_URL;
                      Log ERROR (ErrorFetchingBoosts e); Log INFO NoNewBoosts])).
Proof.
  apply (failed_scan_is_an_empty_cycle (Bot.init down_world)).
  vm_compute. left. reflexivity.
Defined.

(** An instance of X19: in [mute_world] the alert of the first cycle is
    not delivered and the second cycle does not try again. *)
Lemma no_second_try_witness :
  List.filter delivered (trace (snd (Bot.scan_and_process (Bot.init mute_world)))) = [] /\
  fst (Bot.scan_and_process (snd (Bot.scan_and_process (Bot.init mute_world)))) = Ok 0.
Proof.
  split; [vm_compute; reflexivity|].
  rewrite (no_second_try (Bot.init mute_world) [boost_a]).
  - reflexivity.
  - vm_compute. split; reflexivity.
  - vm_compute. split; reflexivity.
Defined.

(** ** The loop of [run] *)

Section Run.
Context {PF : PyFloat} {TP : Template} {W : Type} {WW : World W}.

(** The cleanup of [run], with the default bound. *)
Lemma cleanup_cache_default (s : machine W) :
  exists kept cl,
    Scanner.cleanup_cache 500 s =
      (Ok tt, Machine kept (boost_stats s) (world s) (trace s ++ cl)) /\
    (size kept <= 500)%nat /\ kept ⊆ seen_boost_ids s /\
    (cl = [] \/ exists n, cl = [Log INFO (CleanedUpCache n)]).
Proof.
  destruct (Z.le_gt_cases (Z.of_nat (size (seen_boost_ids s))) 500) as [Hle|Hgt].
  - exists (seen_boost_ids s), []. rewrite (cleanup_cache_within 500 s Hle), app_nil_r.
    destruct s. repeat split; auto. simpl in *. lia.
  - exists (cleaned 500 s), [Log INFO (CleanedUpCache (size (cleaned 500 s)))].
    split; [now apply cleanup_cache_over|].
    pose proof (cleanup_cache_exact 500 s) as Hex.
    pose proof (cleanup_cache_subset 500 s) as Hsub.
    rewrite cleanup_cache_seen in Hex, Hsub.
    split; [lia|]. split; [exact Hsub|]. right. eauto.
Qed.

(** One turn of the loop. *)
Lemma run_turn_accounts (counters : Z * Z) (s : machine W) :
  exists s' evs,
    Bot.run_turn counters s =
      (Ok (fst counters + 1, snd counters + Z.of_nat (count (is_sleep 1) evs)), s') /\
    trace s' = trace s ++ evs /\
    (count (is_sleep 1) evs <= count delivered evs)%nat /\
    stats_total (boost_stats s') = (stats_total (boost_stats s) + count (is_sleep 1) evs)%nat /\
    (count is_send evs <= count is_processing evs)%nat /\
    count (is_sleep SCAN_INTERVAL) evs = 1%nat /\
    ((fst counters + 1) mod CACHE_CLEANUP_INTERVAL = 0 ->
     (size (seen_boost_ids s') <= 500)%nat) /\
    ((fst counters + 1) mod CACHE_CLEANUP_INTERVAL <> 0 ->
     seen_boost_ids s ⊆ seen_boost_ids s') /\
    (stats_ready s ->
     stats_ready s' /\ dom (boost_stats s') = dom (boost_stats s) /\
     count (is_sleep 1) evs = count delivered evs).
Proof.
  destruct (scan_and_process_accounts s) as (s1 & evs & E & T & Hd & Ha & Hs & Hg & Hz & Hsub).
  pose proof (scan_and_process_ready s s1 evs E T) as Hrdy.
  unfold Bot.run_turn. unfold bind at 1. rewrite E.
  set (k := count (is_sleep 1) evs) in *.
  assert (Hsum : exists logs,
            (if Z.of_nat k >? 0
             then stats <- get_stats ;;
                  logger INFO (ScanSummary (fst counters + 1) (Z.of_nat k)) ;;;
                  logger INFO (TotalAlerts (snd counters + Z.of_nat k)) ;;;
                  logger INFO (StatsSummary stats)
             else ret tt) s1 =
              (Ok tt, Machine (seen_boost_ids s1) (boost_stats s1) (world s1)
                        (trace s1 ++ logs)) /\
            count (is_sleep 1) logs = 0%nat /\ count delivered logs = 0%nat /\
            count is_send logs = 0%nat /\ count is_processing logs = 0%nat /\
            count (is_sleep SCAN_INTERVAL) logs = 0%nat).
  { destruct (Z.of_nat k >? 0).
    - eexists. unfold bind, get_stats, logger, emit, ret. cbn [fst snd trace seen_boost_ids boost_stats world].
      rewrite <- !app_assoc. split; [reflexivity|]. repeat split.
    - exists []. unfold ret. rewrite app_nil_r. destruct s1. repeat split. }
  destruct Hsum as (logs & Esum & L1 & L2 & L3 & L4 & L5).
  unfold bind at 1. rewrite Esum.
  set (s2 := Machine _ _ _ (trace s1 ++ logs)).
  destruct (cleanup_cache_default s2) as (kept & cl & Ec & Hsize & Hkept & Hcl).
  assert (C : count (is_sleep 1) cl = 0%nat /\ count delivered cl = 0%nat /\
              count is_send cl = 0%nat /\ count is_processing cl = 0%nat /\
              count (is_sleep SCAN_INTERVAL) cl = 0%nat).
  { destruct Hcl as [->|[n ->]]; repeat split. }
  destruct C as (C1 & C2 & C3 & C4 & C5).
  destruct ((fst counters + 1) mod CACHE_CLEANUP_INTERVAL =? 0) eqn:Hm.
  - apply Z.eqb_eq in Hm. unfold bind at 1. rewrite Ec.
    unfold bind, asyncio_sleep, emit, ret. cbn [fst snd trace seen_boost_ids boost_stats world].
    eexists. exists (evs ++ logs ++ cl ++ [Sleep SCAN_INTERVAL]).
    rewrite !count_app, L1, L2, L3, L4, L5, C1, C2, C3, C4, C5.
    change (count (is_sleep 1) [Sleep SCAN_INTERVAL]) with 0%nat.
    change (count (is_sleep SCAN_INTERVAL) [Sleep SCAN_INTERVAL]) with 1%nat.
    change (count delivered [Sleep SCAN_INTERVAL]) with 0%nat.
    change (count is_send [Sleep SCAN_INTERVAL]) with 0%nat.
    change (count is_processing [Sleep SCAN_INTERVAL]) with 0%nat.
    rewrite !Nat.add_0_r. fold k.
    split; [reflexivity|]. cbn [trace seen_boost_ids boost_stats].
    split; [subst s2; cbn [trace]; rewrite T, <- !app_assoc; reflexivity|].
    subst s2. cbn [boost_stats]. repeat split; auto; try lia; try (intros; contradiction).
    all: match goal with Hr : stats_ready _ |- _ => destruct (Hrdy Hr) as (R & D & Eq) end.
    all: auto; lia.
  - apply Z.eqb_neq in Hm. unfold bind, asyncio_sleep, emit, ret.
    cbn [fst snd trace seen_boost_ids boost_stats world].
    eexists. exists (evs ++ logs ++ [Sleep SCAN_INTERVAL]).
    rewrite !count_app, L1, L2, L3, L4, L5.
    change (count (is_sleep 1) [Sleep SCAN_INTERVAL]) with 0%nat.
    change (count (is_sleep SCAN_INTERVAL) [Sleep SCAN_INTERVAL]) with 1%nat.
    change (count delivered [Sleep SCAN_INTERVAL]) with 0%nat.
    change (count is_send [Sleep SCAN_INTERVAL]) with 0%nat.
    change (count is_processing [Sleep SCAN_INTERVAL]) with 0%nat.
    rewrite !Nat.add_0_r. fold k.
    split; [reflexivity|]. cbn [trace seen_boost_ids boost_stats].
    split; [subst s2; cbn [trace]; rewrite T, <- !app_assoc; reflexivity|].
    subst s2. cbn [boost_stats seen_boost_ids]. repeat split; auto; try lia; try (intros; contradiction).
    all: match goal with Hr : stats_ready _ |- _ => destruct (Hrdy Hr) as (R & D & Eq) end.
    all: auto; lia.
Qed.

(** The first [n] turns of the loop. *)
Lemma run_turns_accounts n : forall (counters : Z * Z) (s : machine W),
  exists s' evs,
    Bot.run_turns n counters s =
      (Ok (fst counters + Z.of_nat n, snd counters + Z.of_nat (count (is_sleep 1) evs)), s') /\
    trace s' = trace s ++ evs /\
    (count (is_sleep 1) evs <= count delivered evs)%nat /\
    stats_total (boost_stats s') = (stats_total (boost_stats s) + count (is_sleep 1) evs)%nat /\
    (count is_send evs <= count is_processing evs)%nat /\
    count (is_sleep SCAN_INTERVAL) evs = n /\
    ((0 < n)%nat -> (fst counters + Z.of_nat n) mod CACHE_CLEANUP_INTERVAL = 0 ->
     (size (seen_boost_ids s') <= 500)%nat) /\
    (stats_ready s ->
     stats_ready s' /\ dom (boost_stats s') = dom (boost_stats s) /\
     count (is_sleep 1) evs = count delivered evs).
Proof.
  induction n as [|m IH]; intros counters s.
  - exists s, []. unfold count. cbn. unfold ret. rewrite !Z.add_0_r, app_nil_r.
    destruct counters. repeat split; auto; lia.
  - destruct (run_turn_accounts counters s)
      as (s1 & evs1 & E1 & T1 & D1 & A1 & M1 & Z1 & B1 & _ & R1).
    cbn [Bot.run_turns]. unfold bind. rewrite E1.
    destruct (IH (fst counters + 1, snd counters + Z.of_nat (count (is_sleep 1) evs1)) s1)
      as (s2 & evs2 & E2 & T2 & D2 & A2 & M2 & Z2 & B2 & R2).
    rewrite E2. cbn [fst snd] in *. exists s2, (evs1 ++ evs2). rewrite !count_app.
    split; [do 3 f_equal; lia|].
    split; [rewrite T2, T1; now rewrite app_assoc|].
    split; [lia|]. split; [lia|]. split; [lia|]. split; [lia|]. split.
    + intros _ Hm. destruct m as [|m'].
      * cbn [Bot.run_turns] in E2. unfold ret in E2. injection E2 as _ _ <-.
        apply B1. rewrite <- Hm. f_equal; lia.
      * apply B2; [lia|]. rewrite <- Hm. f_equal; lia.
    + intros Hr. destruct (R1 Hr) as (Hr1 & Hd1 & He1).
      destruct (R2 Hr1) as (Hr2 & Hd2 & He2).
      split; [exact Hr2|]. split; [congruence | lia].
Qed.

(** The startup notification is sent at best effort. *)
Lemma startup_spec (s : machine W) :
  exists evs,
    Bot.startup s =
      (Ok tt, Machine (seen_boost_ids s) (boost_stats s)
                (snd (send_message Bot.startup_msg (world s))) (trace s ++ evs)) /\
    List.filter is_send evs
      = [Send Bot.startup_msg (fst (send_message Bot.startup_msg (world s)))] /\
    count (is_sleep 1) evs = 0%nat /\ (count delivered evs <= 1)%nat /\
    count is_processing evs = 0%nat /\ count (is_sleep SCAN_INTERVAL) evs = 0%nat.
Proof.
  unfold Bot.startup, try_except, bind, bot_send_message, logger, emit, ret.
  cbn [fst snd trace seen_boost_ids boost_stats world].
  destruct (send_message Bot.startup_msg (world s)) as [[|] w'];
    cbn [fst snd trace seen_boost_ids boost_stats world];
    eexists; rewrite <- !app_assoc; (split; [reflexivity|]); repeat split; cbn; lia.
Qed.

(** X20.  [run] does not leave its loop by an exception of a cycle: for
    every [n] it comes through its first [n] turns, whether or not the
    startup message was delivered.  Then [scan_count] is [n], there were [n]
    pauses of [SCAN_INTERVAL] seconds, [total_alerts] is the number of
    one-second pauses and the amount by which the sum of the statistics has
    grown, and the messages sent are the startup message and at most one for
    each boost taken up. *)
Theorem run_keeps_count (n : nat) (s : machine W) :
  exists total_alerts s',
    Bot.run_start n s = (Ok (Z.of_nat n, Z.of_nat total_alerts), s') /\
    count (is_sleep SCAN_INTERVAL) (events_since s s') = n /\
    total_alerts = count (is_sleep 1) (events_since s s') /\
    stats_total (boost_stats s') = (stats_total (boost_stats s) + total_alerts)%nat /\
    (exists d rest, List.filter is_send (events_since s s') = Send Bot.startup_msg d :: rest /\
                    (length rest <= count is_processing (events_since s s'))%nat).
Proof.
  destruct (startup_spec s) as (evs0 & E0 & S0 & L1 & L2 & L3 & L4).
  unfold Bot.run_start, bind. rewrite E0.
  set (s0 := Machine _ _ _ _).
  destruct (run_turns_accounts n (0, 0) s0) as (s1 & evs & E & T & D & A & M & Hz & _).
  rewrite E. cbn [fst snd] in *. rewrite !Z.add_0_l.
  exists (count (is_sleep 1) evs), s1. split; [reflexivity|].
  assert (Hev : events_since s s1 = evs0 ++ evs).
  { apply events_since_app. rewrite T. subst s0. cbn [trace]. now rewrite app_assoc. }
  rewrite Hev, !count_app, L1, L3, L4, List.filter_app, S0.
  subst s0. cbn [boost_stats] in A.
  repeat split; auto.
  eexists. exists (List.filter is_send evs). split; [reflexivity|]. exact M.
Qed.

(** X21.  Every tenth turn of the loop ends with at most 500 identifiers
    in the cache: after [n] turns of [run], for [n] a positive multiple of
    [CACHE_CLEANUP_INTERVAL]. *)
Theorem run_bounds_cache (n : nat) (s : machine W) :
  (0 < n)%nat -> Z.of_nat n mod CACHE_CLEANUP_INTERVAL = 0 ->
  exists counters s',
    Bot.run_start n s = (Ok counters, s') /\
    (size (seen_boost_ids s') <= 500)%nat.
Proof.
  intros Hn Hm.
  destruct (startup_spec s) as (evs0 & E0 & _).
  unfold Bot.run_start, bind. rewrite E0.
  set (s0 := Machine _ _ _ _).
  destruct (run_turns_accounts n (0, 0) s0) as (s1 & evs & E & _ & _ & _ & _ & _ & B & _).
  rewrite E. do 2 eexists. split; [reflexivity|]. apply B; [exact Hn | exact Hm].
Qed.

(** X22.  The figures of a run agree.  After any number of turns of the
    loop of a new bot, [total_alerts] is the sum of [boost_stats], whose
    keys are still the target amounts, and the number of the alerts
    delivered: of the messages delivered, the startup message apart. *)
Theorem totals_agree (w : W) (n : nat) :
  exists total_alerts s',
    Bot.run_start n (Bot.init w) = (Ok (Z.of_nat n, Z.of_nat total_alerts), s') /\
    stats_total (boost_stats s') = total_alerts /\
    dom (boost_stats s') = list_to_set BOOST_AMOUNTS /\
    count delivered (events_since (Bot.init w) s') =
      ((if fst (send_message Bot.startup_msg w) then 1 else 0) + total_alerts)%nat.
Proof.
  destruct (startup_spec (Bot.init w)) as (evs0 & E0 & S0 & L1 & L2 & L3 & L4).
  unfold Bot.run_start, bind. rewrite E0.
  set (s0 := Machine _ _ _ _).
  destruct (run_turns_accounts n (0, 0) s0) as (s1 & evs & E & T & _ & A & _ & _ & _ & R).
  rewrite E. cbn [fst snd] in *. rewrite !Z.add_0_l.
  exists (count (is_sleep 1) evs), s1. split; [reflexivity|].
  assert (Hev : events_since (Bot.init w) s1 = evs0 ++ evs).
  { apply events_since_app. rewrite T. subst s0. cbn [trace]. now rewrite app_assoc. }
  assert (Hr0 : stats_ready s0).
  { unfold stats_ready. subst s0. cbn [boost_stats].
    repeat constructor; eexists; reflexivity. }
  destruct (R Hr0) as (_ & D & Eq).
  subst s0. cbn [boost_stats] in A, D.
  split; [rewrite A; reflexivity|].
  split; [rewrite D; apply (bool_decide_unpack _); vm_compute; exact I|].
  rewrite Hev, count_app, <- Eq. f_equal.
  clear -S0. cbn [world Bot.init] in S0.
  destruct (fst (send_message Bot.startup_msg w)).
  - unfold count. induction evs0 as [|ev r IH]; [discriminate|].
    cbn [List.filter] in *. destruct ev as [u|t d|k|l m]; cbn [is_send delivered] in *; auto.
    injection S0 as -> -> S0. cbn [length]. f_equal.
    clear -S0. induction r as [|ev r IH]; [reflexivity|].
    cbn [List.filter] in *. destruct ev as [u|t d|k|l m]; cbn [is_send delivered] in *; auto.
    discriminate.
  - unfold count. induction evs0 as [|ev r IH]; [discriminate|].
    cbn [List.filter] in *. destruct ev as [u|t d|k|l m]; cbn [is_send delivered] in *; auto.
    injection S0 as -> -> S0.
    clear -S0. induction r as [|ev r IH]; [reflexivity|].
    cbn [List.filter] in *. destruct ev as [u|t d|k|l m]; cbn [is_send delivered] in *; auto.
    discriminate.
Qed.

End Run.

(** An instance of X21: the first ten turns of a new bot. *)
Lemma run_bounds_cache_witness :
  exists counters s',
    Bot.run_start 10 (Bot.init (feed_of [boost_a])) = (Ok counters, s') /\
    (size (seen_boost_ids s') <= 500)%nat.
Proof.
  apply (run_bounds_cache 10 (Bot.init (feed_of [boost_a]))); [lia | reflexivity].
Defined.
